(** * trialscout: the batch runner's stages, the discovery engine and the
      publication utilities, embedded from the JavaScript sources.

    Part I holds the model: one module per source file, each function under
    the name it has in the source.  Part II holds the lemmas and the theorems
    about them.

    Conventions of the embedding
    - a JS number holding a count, a size or a token total is a [Z];
    - a JS string is a [string]; [a < b] on strings is [String.compare]
      (code-unit order, which is byte order on the ASCII strings used here);
    - [undefined]/[null] for an optional field is [None]; the falsy values of
      a string field are [None] and [Some ""];
    - an exception is a constructor of the function's result type;
    - the clock ([new Date()]), the LLM batch service and the outcome of
      reading a file are inputs of the function that consults them. *)

From Stdlib Require Import ZArith QArith Qround List String Ascii Bool Lia.
From Stdlib Require Import DecimalString.
From Stdlib Require Import Permutation Sorted.
From stdpp Require Import gmap strings list.

Import ListNotations.
Local Open Scope string_scope.
Local Open Scope list_scope.
Local Open Scope Z_scope.

(* ===================================================================== *)
(** * Part I: the model                                                    *)
(* ===================================================================== *)

(** ** JavaScript helpers shared by the modules *)

Module Js.

(** [!!s] for an optional string: [undefined], [null] and [""] are falsy. *)
Definition truthy (s : option string) : bool :=
  match s with
  | Some s => negb (String.eqb s "")
  | None => false
  end.

(** [a < b] on strings. *)
Definition str_lt (a b : string) : bool := String.ltb a b.

(** [xs.filter(Boolean)] on an array of optional strings. *)
Fixpoint filterTruthy (xs : list (option string)) : list string :=
  match xs with
  | [] => []
  | Some s :: rest =>
      if String.eqb s "" then filterTruthy rest else s :: filterTruthy rest
  | None :: rest => filterTruthy rest
  end.

(** [xs.join(sep)] on an array of strings. *)
Definition join (sep : string) (xs : list string) : string :=
  String.concat sep xs.

(** [[...new Set(xs)]]: the distinct elements of [xs], each at the place of
    its first occurrence. *)
Fixpoint uniq_acc (seen xs : list string) : list string :=
  match xs with
  | [] => []
  | x :: rest =>
      if existsb (String.eqb x) seen then uniq_acc seen rest
      else x :: uniq_acc (x :: seen) rest
  end.

Definition uniq (xs : list string) : list string := uniq_acc [] xs.

(** [xs.sort(cmp)] where [cmp a b] is negative exactly when [lt a b] and
    positive exactly when [lt b a].  [Array.prototype.sort] is stable, so
    for such a comparator the result is the stable sorted arrangement,
    which insertion from the right computes. *)
Section Sort.
Context {A : Type} (lt : A -> A -> bool).

Fixpoint insert_sorted (x : A) (l : list A) : list A :=
  match l with
  | [] => [x]
  | y :: rest => if lt y x then y :: insert_sorted x rest else x :: y :: rest
  end.

Fixpoint sort (l : list A) : list A :=
  match l with
  | [] => []
  | x :: rest => insert_sorted x (sort rest)
  end.

End Sort.

(** The outcome of a call that may throw. *)
Inductive Result (A : Type) :=
| Threw (message : string)
| Returned (value : A).
Arguments Threw {A} message.
Arguments Returned {A} value.

(** *** Ordinary objects used as maps

    The own property keys of an ordinary object are enumerated with the
    array indices first, in ascending numeric order, and the other string
    keys after them, in the order they were created.  An object is kept as
    the list of its properties in that order.  Keys inherited from
    [Object.prototype] are not modelled: the keys used here are PMIDs. *)

Definition digitValue (c : ascii) : option N :=
  let n := N_of_ascii c in
  if ((48 <=? n) && (n <=? 57))%N then Some (n - 48)%N else None.

Fixpoint decimalValue (acc : N) (s : string) : option N :=
  match s with
  | EmptyString => Some acc
  | String c rest =>
      match digitValue c with
      | Some d => decimalValue (10 * acc + d)%N rest
      | None => None
      end
  end.

(** The array index a key denotes: a canonical decimal numeral below
    2^32 - 1. *)
Definition arrayIndex (key : string) : option N :=
  match key with
  | EmptyString => None
  | String c rest =>
      if Ascii.eqb c "0"
      then (if String.eqb rest "" then Some 0%N else None)
      else
        match decimalValue 0 key with
        | Some n => if (n <? 4294967295)%N then Some n else None
        | None => None
        end
  end.

Definition Object (V : Type) : Type := list (string * V).

(** [o[key]] *)
Fixpoint get {V : Type} (o : Object V) (key : string) : option V :=
  match o with
  | [] => None
  | (k, v) :: rest => if String.eqb k key then Some v else get rest key
  end.

(** Whether a new key with array index [n] (or none) is enumerated before
    the existing key [k]. *)
Definition precedes (n : option N) (k : string) : bool :=
  match n, arrayIndex k with
  | Some a, Some b => (a <? b)%N
  | Some _, None => true
  | None, _ => false
  end.

Fixpoint create {V : Type} (n : option N) (key : string) (v : V) (o : Object V)
  : Object V :=
  match o with
  | [] => [(key, v)]
  | (k, v') :: rest =>
      if precedes n k then (key, v) :: o else (k, v') :: create n key v rest
  end.

Fixpoint overwrite {V : Type} (key : string) (v : V) (o : Object V) : Object V :=
  match o with
  | [] => []
  | (k, v') :: rest =>
      if String.eqb k key then (k, v) :: rest else (k, v') :: overwrite key v rest
  end.

(** [o[key] = v] *)
Definition set {V : Type} (o : Object V) (key : string) (v : V) : Object V :=
  match get o key with
  | Some _ => overwrite key v o
  | None => create (arrayIndex key) key v o
  end.

(** [Object.values(o)] *)
Definition values {V : Type} (o : Object V) : list V := map snd o.

(** [Object.keys(o)] *)
Definition keys {V : Type} (o : Object V) : list string := map fst o.

(** [a] keeps its place before [b]: creating [b] later does not put it
    before [a]. *)
Definition inOrder {V : Type} (a b : string * V) : Prop :=
  precedes (arrayIndex (fst b)) (fst a) = false.

(** *** Dates

    [new Date(s).getTime()] for the date-only ISO forms [YYYY], [YYYY-MM]
    and [YYYY-MM-DD], which are read as midnight UTC; [None] stands for an
    invalid date.  Strings of any other form are invalid for this function;
    the filters below take the parser as a parameter. *)

Definition daysFromCivil (y m d : Z) : Z :=
  let y' := if m <=? 2 then y - 1 else y in
  let era := y' / 400 in
  let yoe := y' - era * 400 in
  let mp := (m + 9) mod 12 in
  let doy := (153 * mp + 2) / 5 + d - 1 in
  let doe := yoe * 365 + yoe / 4 - yoe / 100 + doy in
  era * 146097 + doe - 719468.

Definition digits (n : nat) (s : string) : option (Z * string) :=
  let head := String.substring 0 n s in
  if Nat.eqb (String.length head) n
  then
    match decimalValue 0 head with
    | Some v => Some (Z.of_N v, String.substring n (String.length s - n) s)
    | None => None
    end
  else None.

(** ["-NN"] at the head of [s]. *)
Definition dashField (s : string) : option (Z * string) :=
  match s with
  | String "-" rest => digits 2 rest
  | _ => None
  end.

Definition isoDateTime (s : string) : option Z :=
  match digits 4 s with
  | None => None
  | Some (y, rest) =>
      if String.eqb rest "" then Some (daysFromCivil y 1 1 * 86400000)
      else
        match dashField rest with
        | None => None
        | Some (m, rest) =>
            if negb ((1 <=? m) && (m <=? 12)) then None
            else if String.eqb rest "" then Some (daysFromCivil y m 1 * 86400000)
            else
              match dashField rest with
              | Some (d, "") =>
                  if (1 <=? d) && (d <=? 31)
                  then Some (daysFromCivil y m d * 86400000)
                  else None
              | _ => None
              end
        end
  end.

End Js.

(** ** Records shared by the stages *)

Module Data.

Record Reference := mkReference {
  ref_pmid : option string;
  citation : option string
}.

(** The canonical registration record.  Only the fields read by the code
    modelled here are kept; [hasResults] is the registry's own flag. *)
Record Registration := mkRegistration {
  trialId : string;
  startDate : option string;
  hasResults : option bool;
  linkedPubmedIds : option (list string);
  references : option (list Reference)
}.

(** A publication, or a candidate returned by a discovery strategy.  The
    engine gives every candidate a [sources] array, so the field is always
    an array. *)
Record Publication := mkPublication {
  pmid : option string;
  doi : option string;
  title : option string;
  abstract : option string;
  publicationDate : option string;
  sources : list string
}.

(** The record a strategy wrapper returns; the ones with a truthy [error]
    are kept as the discovery errors of a trial. *)
Record SearchResult := mkSearchResult {
  results : list Publication;
  fn : option string;
  error : option string
}.

(** [progress.publications[trialId]] *)
Record PubData := mkPubData {
  publications : option (list Publication);
  errors : option (list SearchResult)
}.

End Data.
Export Data.

(** ** runner/batch/utils/io.js: extractTrialId *)

(** A row of the driving table: the column names with their values, in
    column order. *)
Definition Row : Type := list (string * string).

Definition lowerAscii (c : ascii) : ascii :=
  let n := nat_of_ascii c in
  if ((65 <=? n) && (n <=? 90))%nat then ascii_of_nat (n + 32) else c.

(** [name.toLowerCase()] on the ASCII letters. *)
Fixpoint toLowerCase (s : string) : string :=
  match s with
  | EmptyString => EmptyString
  | String c rest => String (lowerAscii c) (toLowerCase rest)
  end.

Definition isSpace (c : ascii) : bool :=
  let n := nat_of_ascii c in
  ((n =? 32) || ((9 <=? n) && (n <=? 13)))%nat.

Fixpoint trimStart (s : string) : string :=
  match s with
  | EmptyString => EmptyString
  | String c rest => if isSpace c then trimStart rest else s
  end.

Fixpoint trimEnd (s : string) : string :=
  match s with
  | EmptyString => EmptyString
  | String c rest =>
      match trimEnd rest with
      | EmptyString => if isSpace c then EmptyString else String c EmptyString
      | rest' => String c rest'
      end
  end.

(** [s.trim()] *)
Definition trim (s : string) : string := trimEnd (trimStart s).

Definition isTrialIdColumn (name : string) : bool :=
  let normalized := toLowerCase name in
  String.eqb normalized "nct_id" || String.eqb normalized "nctid"
  || String.eqb normalized "trial_id" || String.eqb normalized "trialid".

(** The value of the first trial-id column, trimmed; [""] when the row has
    no such column. *)
Definition extractTrialId (row : Row) : string :=
  match List.find (fun kv => isTrialIdColumn (fst kv)) row with
  | Some (_, value) => trim value
  | None => ""
  end.

(** ** runner/batch/utils/constants.js *)

(** Modelled from the spec: the file constants.js of the batch runner is not
    among the sources; the stage names are the ones of the Progress record
    in the specification's data model. *)
Inductive Stage :=
| PREP | QUERY_GEN_UPLOAD | QUERY_GEN_POLL | QUERY_GEN_PROCESS | PUB_DISCOVERY
| RESULT_GEN_PREPARATION | RESULT_GEN_UPLOAD | RESULT_GEN_POLL
| RESULT_GEN_PROCESS | FINALIZE | COST_CALCULATION | COMPLETE.

(** ** The chunk records kept in [progress.batchJobs.resultDetection] *)

Module Batch.

Inductive ChunkStatus :=
| pending | uploaded | in_progress | validating | finalizing
| completed | processed | failed.

Definition is_pending (s : ChunkStatus) : bool :=
  match s with pending => true | _ => false end.

Record Chunk := mkChunk {
  index : Z;
  inputFile : string;
  requestCount : Z;
  estimatedTokens : Z;
  sizeBytes : Z;
  status : ChunkStatus;
  batchId : option string;
  inputFileId : option string;
  uploadedAt : option string
}.

Record DailyTokens := mkDailyTokens {
  date : string;
  tokens : Z
}.

Record ResultDetection := mkResultDetection {
  chunks : list Chunk;
  dailyTokensUsed : DailyTokens;
  totalEstimatedTokens : Z
}.

Definition sumTokens (cs : list Chunk) : Z :=
  fold_right (fun c acc => estimatedTokens c + acc) 0 cs.

End Batch.
Export Batch.

(** ** runner/batch/stages: stageResultGenUpload *)

Module ResultGenUpload.

(** What the stage reads from outside the Progress record. *)
Record Env := mkEnv {
  today : string;                (* new Date().toISOString().split("T")[0] *)
  nowIso : string;               (* new Date().toISOString() at upload *)
  maxTokensPerDay : Z;           (* config batch.maxTokensPerDay *)
  uploadFile : Chunk -> string;  (* openai.files.create(...).id *)
  createBatch : Chunk -> string  (* openai.batches.create(...).id *)
}.

Inductive Error :=
| NoResultDetectionChunks
| DailyQuotaExhausted (usedTokens : Z) (nextChunk : Chunk).

(** The stage either throws (nothing is saved) or saves the updated record
    and the next stage; [uploadedChunks] lists the chunks it uploaded, in
    upload order. *)
Inductive Outcome :=
| Threw (e : Error)
| Saved (rd : ResultDetection) (next : Stage) (uploadedChunks : list Chunk).

(** The [dailyTokensUsed] object after the "new day" check. *)
Definition resetIfNewDay (today : string) (d : DailyTokens) : DailyTokens :=
  if String.eqb (date d) today then d
  else {| date := today; tokens := 0 |}.

(** The elements of [chunks] are objects shared with the arrays derived
    from it; a derived array therefore carries, with each chunk, the
    position it has in [chunks]. *)
Definition withPositions (cs : list Chunk) : list (nat * Chunk) :=
  combine (seq 0 (length cs)) cs.

(** [chunks.filter(c => c.status === "pending").sort((a, b) => a.index - b.index)] *)
Definition pendingChunks (cs : list Chunk) : list (nat * Chunk) :=
  Js.sort (fun a b => index (snd a) <? index (snd b))
    (List.filter (fun pc => is_pending (status (snd pc))) (withPositions cs)).

(** The [for (const chunk of pendingChunks)] loop that fills
    [chunksToUpload]: it stops at the first chunk that does not fit. *)
Fixpoint chunksToUpload (tokenBudget : Z) (pend : list (nat * Chunk))
  : list (nat * Chunk) :=
  match pend with
  | [] => []
  | pc :: rest =>
      if estimatedTokens (snd pc) <=? tokenBudget
      then pc :: chunksToUpload (tokenBudget - estimatedTokens (snd pc)) rest
      else []
  end.

(** The body of one upload task, applied to the chunk object. *)
Definition markUploaded (env : Env) (c : Chunk) : Chunk :=
  {| index := index c; inputFile := inputFile c;
     requestCount := requestCount c; estimatedTokens := estimatedTokens c;
     sizeBytes := sizeBytes c;
     status := uploaded;
     batchId := Some (createBatch env c);
     inputFileId := Some (uploadFile env c);
     uploadedAt := Some (nowIso env) |}.

(** All upload tasks: each one rewrites its chunk in place and adds the
    chunk's estimate to [dailyTokensUsed.tokens]. *)
Fixpoint uploadAll (env : Env) (sel : list (nat * Chunk))
    (cs : list Chunk) (d : DailyTokens) : list Chunk * DailyTokens :=
  match sel with
  | [] => (cs, d)
  | (i, c) :: rest =>
      uploadAll env rest (<[i := markUploaded env c]> cs)
        {| date := date d; tokens := tokens d + estimatedTokens c |}
  end.

Definition stageResultGenUpload (env : Env)
    (resultDetection : option ResultDetection) : Outcome :=
  match resultDetection with
  | None => Threw NoResultDetectionChunks
  | Some rd =>
      let d := resetIfNewDay (today env) (dailyTokensUsed rd) in
      let pend := pendingChunks (chunks rd) in
      match pend with
      | [] =>
          Saved {| chunks := chunks rd; dailyTokensUsed := d;
                   totalEstimatedTokens := totalEstimatedTokens rd |}
                RESULT_GEN_POLL []
      | nextChunk :: _ =>
          let sel := chunksToUpload (maxTokensPerDay env - tokens d) pend in
          match sel with
          | [] => Threw (DailyQuotaExhausted (tokens d) (snd nextChunk))
          | _ :: _ =>
              let '(cs', d') := uploadAll env sel (chunks rd) d in
              Saved {| chunks := cs'; dailyTokensUsed := d';
                       totalEstimatedTokens := totalEstimatedTokens rd |}
                    RESULT_GEN_POLL (map snd sel)
          end
      end
  end.

(** *** Runs of the driver

    A run of the batch driver as far as the daily budget is concerned: the
    upload stage is entered on some day, and between two entries the other
    stages (poll, process) rewrite chunk records but never
    [dailyTokensUsed].  A stage that throws saves nothing and ends the
    process, so the next entry starts from the record as it was saved. *)
Inductive Step :=
| EnterUpload (env : Env)
| OtherStage (f : list Chunk -> list Chunk).

(** The log of a run: for each entry of the upload stage that saved, the
    day and the chunks it uploaded. *)
Fixpoint run (steps : list Step) (rd : ResultDetection)
  : list (string * list Chunk) :=
  match steps with
  | [] => []
  | EnterUpload env :: rest =>
      match stageResultGenUpload env (Some rd) with
      | Threw _ => run rest rd
      | Saved rd' _ ups => (today env, ups) :: run rest rd'
      end
  | OtherStage f :: rest =>
      run rest {| chunks := f (chunks rd);
                  dailyTokensUsed := dailyTokensUsed rd;
                  totalEstimatedTokens := totalEstimatedTokens rd |}
  end.

(** Tokens uploaded under the date [d] in a log. *)
Fixpoint uploadedOn (d : string) (log : list (string * list Chunk)) : Z :=
  match log with
  | [] => 0
  | (d', ups) :: rest =>
      (if String.eqb d' d then sumTokens ups else 0) + uploadedOn d rest
  end.

(** The days on which the upload stage is entered, in order. *)
Fixpoint days (steps : list Step) : list string :=
  match steps with
  | [] => []
  | EnterUpload env :: rest => today env :: days rest
  | OtherStage _ :: rest => days rest
  end.

(** *** Vocabulary of the statements about the stage *)

(** The clock does not run backwards: no day is earlier than a day before
    it in the list (ISO dates compare as strings). *)
Definition chronological (ds : list string) : Prop :=
  StronglySorted (fun a b => String.leb a b = true) ds.

(** All entries of the upload stage read the same configured budget. *)
Definition sameBudget (m : Z) (steps : list Step) : Prop :=
  Forall (fun s => match s with
                   | EnterUpload env => maxTokensPerDay env = m
                   | OtherStage _ => True
                   end) steps.

(** What the counter of [rd] already holds for the day [d]. *)
Definition countedOn (d : string) (rd : ResultDetection) : Z :=
  if String.eqb d (date (dailyTokensUsed rd)) then tokens (dailyTokensUsed rd)
  else 0.

(** The estimated tokens of a selection. *)
Definition tokensOf (sel : list (nat * Chunk)) : Z := sumTokens (map snd sel).

(** A derived array is faithful to [cs] when every entry names a position
    of [cs] holding that very chunk, and no position occurs twice. *)
Definition faithful (cs : list Chunk) (sel : list (nat * Chunk)) : Prop :=
  NoDup (map fst sel) /\ forall i c, In (i, c) sel -> cs !! i = Some c.

(** The chunks of [cs] that are still pending, in array order. *)
Definition stillPending (cs : list Chunk) : list Chunk :=
  List.filter (fun c => is_pending (status c)) cs.

(** A run in which only the upload stage is entered, always under the
    budget [m]. *)
Definition uploadsOnly (m : Z) (steps : list Step) : Prop :=
  Forall (fun s => match s with
                   | EnterUpload env => maxTokensPerDay env = m
                   | OtherStage _ => False
                   end) steps.

End ResultGenUpload.

(** ** runner/batch/stages/result-gen-preparation.js *)

Module ResultGenPreparation.

(** A batch request.  Its JSON text is produced by [JSON.stringify]; the
    stage only uses the length of the user prompt and the byte length of
    the whole request, which are read from the configuration record below. *)
Record Request := mkRequest {
  custom_id : string;
  registration : Registration;
  publication : Publication
}.

Record Config := mkConfig {
  systemPromptLength : N;                (* systemPrompt.length *)
  maxRequestsPerBatch : Z;               (* batch.maxRequestsPerBatch *)
  maxBytesPerBatch : Z;                  (* batch.maxBytesPerBatch *)
  safetyBuffer : Q;                      (* batch.safetyBuffer *)
  userPromptLength : Registration -> Publication -> N;
                                         (* JSON.stringify({registration, publication}).length *)
  requestByteLength : Request -> N;      (* Buffer.byteLength(JSON.stringify(request), "utf8") *)
  today : string                         (* new Date().toISOString().split("T")[0] *)
}.

(** [Math.floor(maxBytesPerBatch * safetyBuffer)] *)
Definition effectiveMaxBytes (cfg : Config) : Z :=
  Qfloor (inject_Z (maxBytesPerBatch cfg) * safetyBuffer cfg).

(** [Math.ceil(n / 4)] *)
Definition ceilQuarter (n : N) : Z := - ((- Z.of_N n) / 4).

Definition systemTokensPerRequest (cfg : Config) : Z :=
  ceilQuarter (systemPromptLength cfg).

(** The registration without [hasResults]. *)
Definition cleanedRegistration (r : Registration) : Registration :=
  {| trialId := trialId r; startDate := startDate r; hasResults := None;
     linkedPubmedIds := linkedPubmedIds r; references := references r |}.

Definition requestTotalTokens (cfg : Config) (req : Request) : Z :=
  systemTokensPerRequest cfg
  + ceilQuarter (userPromptLength cfg (registration req) (publication req)).

Definition requestBytes (cfg : Config) (req : Request) : Z :=
  Z.of_N (requestByteLength cfg req).

(** The requests of one row, in the order the inner loop builds them. *)
Definition requestsOfRow (registrations : gmap string Registration)
    (pubs : gmap string PubData) (row : Row) : list Request :=
  let trialId := extractTrialId row in
  if String.eqb trialId "" then []
  else
    match registrations !! trialId, pubs !! trialId with
    | Some registration, Some pubData =>
        let publications := default [] (publications pubData) in
        let publicationsWithPmids :=
          List.filter (fun pub => Js.truthy (pmid pub)) publications in
        map (fun pub =>
               {| custom_id :=
                    String.append trialId (String.append "__" (default "" (pmid pub)));
                  registration := cleanedRegistration registration;
                  publication := pub |})
            publicationsWithPmids
    | _, _ => []
    end.

(** All requests, in the order of the two nested loops. *)
Definition allRequests (registrations : gmap string Registration)
    (pubs : gmap string PubData) (rows : list Row) : list Request :=
  concat (map (requestsOfRow registrations pubs) rows).

(** A chunk under construction. *)
Record WorkChunk := mkWorkChunk {
  index : Z;
  requests : list Request;
  tokens : Z;
  bytes : Z
}.

(** The array [chunks] is [sealed] followed by [currentChunk]: the chunk
    being filled is always its last element. *)
Record Packing := mkPacking {
  sealed : list WorkChunk;
  currentChunk : WorkChunk
}.

Definition initialPacking : Packing :=
  {| sealed := [];
     currentChunk := {| index := 0; requests := []; tokens := 0; bytes := 0 |} |}.

(** The test made before a request is added. *)
Definition overflows (cfg : Config) (cur : WorkChunk) (req : Request) : bool :=
  (maxRequestsPerBatch cfg <=? Z.of_nat (length (requests cur)))
  || (effectiveMaxBytes cfg <? bytes cur + requestBytes cfg req).

(** One turn of the inner loop: seal the current chunk (its file is
    written) and start a new one when the request would overflow, then add
    the request to the current chunk. *)
Definition addRequest (cfg : Config) (st : Packing) (req : Request) : Packing :=
  let st1 :=
    if overflows cfg (currentChunk st) req
    then {| sealed := sealed st ++ [currentChunk st];
            currentChunk :=
              {| index := Z.of_nat (length (sealed st) + 1);
                 requests := []; tokens := 0; bytes := 0 |} |}
    else st in
  {| sealed := sealed st1;
     currentChunk :=
       {| index := index (currentChunk st1);
          requests := requests (currentChunk st1) ++ [req];
          tokens := tokens (currentChunk st1) + requestTotalTokens cfg req;
          bytes := bytes (currentChunk st1) + requestBytes cfg req |} |}.

Definition pack (cfg : Config) (reqs : list Request) : Packing :=
  fold_left (addRequest cfg) reqs initialPacking.

(** The array [chunks] at the end: the last chunk is written when it has
    requests and dropped otherwise.  Every chunk of the result has had its
    JSONL file written. *)
Definition writtenChunks (st : Packing) : list WorkChunk :=
  match requests (currentChunk st) with
  | [] => sealed st
  | _ :: _ => sealed st ++ [currentChunk st]
  end.

Definition chunkFileName (i : Z) : string :=
  String.append "result_gen_input_chunk_"
    (String.append (DecimalString.NilZero.string_of_int (Z.to_int i)) ".jsonl").

(** The metadata record kept in Progress for a chunk. *)
Definition chunkMetadata (chunk : WorkChunk) : Chunk :=
  mkChunk (index chunk) (chunkFileName (index chunk))
    (Z.of_nat (length (requests chunk))) (tokens chunk) (bytes chunk)
    pending None None None.

(** The stage has no [throw] of its own, so [Threw] is never produced; it
    stands for an exception reaching the caller. *)
Inductive Outcome :=
| Threw (message : string)
| Saved (written : list WorkChunk) (resultDetection : option ResultDetection)
    (next : Stage).

Definition stageResultGenPreparation (cfg : Config) (rows : list Row)
    (registrations : gmap string Registration) (pubs : gmap string PubData)
  : Outcome :=
  let chunks := writtenChunks (pack cfg (allRequests registrations pubs rows)) in
  match chunks with
  | [] => Saved [] None FINALIZE
  | _ :: _ =>
      let chunksMetadata := map chunkMetadata chunks in
      Saved chunks
        (Some (mkResultDetection chunksMetadata
                 (mkDailyTokens (today cfg) 0)
                 (sumTokens chunksMetadata)))
        RESULT_GEN_UPLOAD
  end.

(** *** Vocabulary of the statements about the packing *)

Definition sumBytes (cfg : Config) (reqs : list Request) : Z :=
  fold_right (fun r acc => requestBytes cfg r + acc) 0 reqs.

(** What holds of a chunk at every moment of the packing: its byte count is
    the sum over its requests, and it either holds at most one request or
    is within both limits. *)
Definition chunkInv (cfg : Config) (c : WorkChunk) : Prop :=
  bytes c = sumBytes cfg (requests c)
  /\ ((length (requests c) <= 1)%nat
      \/ (Z.of_nat (length (requests c)) <= maxRequestsPerBatch cfg
          /\ bytes c <= effectiveMaxBytes cfg)).

Definition allChunks (st : Packing) : list WorkChunk :=
  sealed st ++ [currentChunk st].

(** The state of the packing after the requests [done]. *)
Definition packInv (cfg : Config) (done : list Request) (st : Packing) : Prop :=
  (forall c, In c (allChunks st) -> chunkInv cfg c /\ incl (requests c) done)
  /\ (forall r, In r done -> exists c, In c (allChunks st) /\ In r (requests c))
  /\ (done <> [] -> requests (currentChunk st) <> []).

(** The estimated tokens of a list of requests. *)
Definition sumRequestTokens (cfg : Config) (reqs : list Request) : Z :=
  fold_right (fun r acc => requestTotalTokens cfg r + acc) 0 reqs.

(** Every chunk of an array sits at the position its [index] names. *)
Definition indexed (chunks : list WorkChunk) : Prop :=
  forall (i : nat) (c : WorkChunk), chunks !! i = Some c -> index c = Z.of_nat i.

End ResultGenPreparation.

(** ** runner/batch/stages: stageFinalize *)

Module Finalize.

(** The parsed [content] of a stored classification. *)
Record Content := mkContent {
  hasResults : option bool;
  reason : option string
}.

(** A stored classification file [{content, tokens, success}]. *)
Record Detection := mkDetection {
  content : option Content;
  tokens : option Z;
  success : option bool
}.

(** What [result_results/<trialId>__<pmid>.json] holds when it exists:
    text that [JSON.parse] rejects, or a classification. *)
Inductive ResultFile :=
| Garbled (parseError : string)
| Json (detection : Detection).

(** The directory [result_results], by file name without the extension. *)
Definition ResultDir : Type := gmap string ResultFile.

Record DetectionResult := mkDetectionResult {
  pmid : option string;
  publicationDate : option string;
  sources : list string;
  result : option Content;
  positive : bool;                        (* the field hasResults *)
  usage : option Z;                       (* the field tokens *)
  succeeded : bool;                       (* the field success *)
  error : option string
}.

Record Summary := mkSummary {
  nct_id : string;
  trial_id : string;
  tool_results : bool;
  has_error : bool;
  tool_prompted_pmids : string;
  tool_result_pmids : string;
  tool_ident_steps : string;
  earliest_result_publication : string;
  earliest_result_publication_date : string;
  failed_publication_discoveries : string;
  failed_result_discoveries : string;
  reasons : string
}.

Definition resultKey (trialId : string) (pub : Publication) : string :=
  String.append trialId (String.append "__" (default "" (Data.pmid pub))).

(** [x || null] on an optional string. *)
Definition orNull (x : option string) : option string :=
  if Js.truthy x then x else None.

(** One turn of the loop over [publicationsWithPmids]: the detection
    result pushed, and whether the PMID is pushed on
    [failedResultDiscoveries]. *)
Definition loadDetection (dir : ResultDir) (trialId : string) (pub : Publication)
  : DetectionResult * bool :=
  let loaded :=
    match dir !! resultKey trialId pub with
    | Some (Json d) => (Some d, None, false)
    | Some (Garbled msg) => (None, Some (String.append "Parse error: " msg), true)
    | None => (None, None, true)
    end in
  let '(detection, loadError, missing) := loaded in
  let content := detection ≫= content in
  ({| pmid := Data.pmid pub;
      publicationDate := orNull (Data.publicationDate pub);
      sources := Data.sources pub;
      result := content;
      positive :=
        match content ≫= hasResults with Some true => true | _ => false end;
      usage := detection ≫= tokens;
      succeeded := default false (detection ≫= success);
      error := loadError |},
   missing).

Definition publicationsWithPmids (pubData : PubData) : list Publication :=
  List.filter (fun pub => Js.truthy (Data.pmid pub))
    (default [] (publications pubData)).

Definition detectionResults (dir : ResultDir) (trialId : string) (pubData : PubData)
  : list DetectionResult :=
  map (fun pub => fst (loadDetection dir trialId pub)) (publicationsWithPmids pubData).

Definition failedResultDiscoveries (dir : ResultDir) (trialId : string)
    (pubData : PubData) : list (option string) :=
  map Data.pmid
    (List.filter (fun pub => snd (loadDetection dir trialId pub))
       (publicationsWithPmids pubData)).

Definition promptedPmids (drs : list DetectionResult) : list string :=
  Js.filterTruthy (map pmid drs).

Definition positives (drs : list DetectionResult) : list DetectionResult :=
  List.filter positive drs.

Definition toolResultPmids (drs : list DetectionResult) : list string :=
  Js.filterTruthy (map pmid (positives drs)).

(** [[...new Set(positives.flatMap(res => res.sources || []))].filter(Boolean)] *)
Definition toolIdentSteps (drs : list DetectionResult) : list string :=
  List.filter (fun s => negb (String.eqb s ""))
    (Js.uniq (flat_map sources (positives drs))).

Definition positivesWithDates (drs : list DetectionResult) : list DetectionResult :=
  List.filter (fun res => Js.truthy (pmid res) && Js.truthy (publicationDate res))
    (positives drs).

Definition dateOf (res : DetectionResult) : string := default "" (publicationDate res).

(** The comparator of the sort is negative when [dateA < dateB] and
    positive when [dateA > dateB]. *)
Definition sortedByDate (drs : list DetectionResult) : list DetectionResult :=
  Js.sort (fun a b => Js.str_lt (dateOf a) (dateOf b)) (positivesWithDates drs).

(** [sorted[0]] when there is a positive with a PMID and a date. *)
Definition earliest (drs : list DetectionResult) : option DetectionResult :=
  head (sortedByDate drs).

Definition reasonsOf (drs : list DetectionResult) : string :=
  Js.join "; "
    (List.filter (fun s => negb (String.eqb s ""))
       (map (fun res =>
               match result res ≫= reason with
               | Some r =>
                   if String.eqb r "" then ""
                   else String.append "PMID"
                          (String.append (default "" (pmid res))
                             (String.append ": " r))
               | None => ""
               end)
            (positives drs))).

Definition failedPubDiscoveries (pubData : PubData) : list string :=
  List.filter (fun s => negb (String.eqb s ""))
    (map (fun err => if Js.truthy (fn err) then default "" (fn err) else "unknown")
       (default [] (errors pubData))).

Definition summaryOf (dir : ResultDir) (trialId : string) (pubData : PubData)
  : Summary :=
  let drs := detectionResults dir trialId pubData in
  let failedPmids := failedResultDiscoveries dir trialId pubData in
  {| nct_id := trialId;
     trial_id := trialId;
     tool_results := negb (Nat.eqb (length (positives drs)) 0);
     has_error :=
       negb (Nat.eqb (length (default [] (errors pubData))) 0)
       || negb (Nat.eqb (length failedPmids) 0);
     tool_prompted_pmids := Js.join "," (promptedPmids drs);
     tool_result_pmids := Js.join "," (toolResultPmids drs);
     tool_ident_steps := Js.join "," (toolIdentSteps drs);
     earliest_result_publication :=
       match earliest drs with
       | Some e => default "" (pmid e)
       | None => ""
       end;
     earliest_result_publication_date :=
       match earliest drs with
       | Some e => dateOf e
       | None => ""
       end;
     failed_publication_discoveries := Js.join "," (failedPubDiscoveries pubData);
     failed_result_discoveries := Js.join "," (map (default "") failedPmids);
     reasons := reasonsOf drs |}.

(** The rows for which a summary is written, with their index. *)
Fixpoint finalizeRows (dir : ResultDir) (registrations : gmap string Registration)
    (pubs : gmap string PubData) (i : nat) (rows : list Row)
  : list (nat * Summary) :=
  match rows with
  | [] => []
  | row :: rest =>
      let trialId := extractTrialId row in
      let others := finalizeRows dir registrations pubs (S i) rest in
      if String.eqb trialId "" then others
      else
        match registrations !! trialId, pubs !! trialId with
        | Some _, Some pubData => (i, summaryOf dir trialId pubData) :: others
        | _, _ => others
        end
  end.

(** The summaries appended to the output table, and the next stage. *)
Definition stageFinalize (dir : ResultDir) (rows : list Row)
    (registrations : gmap string Registration) (pubs : gmap string PubData)
  : list (nat * Summary) * Stage :=
  (finalizeRows dir registrations pubs 0 rows, COST_CALCULATION).

(** *** Vocabulary of the statements about the summary *)

(** A publication is classified positive when its stored classification
    parses and carries [hasResults = true]. *)
Definition classifiedPositive (dir : ResultDir) (trialId : string) (pub : Publication)
  : Prop :=
  positive (loadDetection dir trialId pub).1 = true.

(** A positive classification carrying both a PMID and a publication date. *)
Definition datedPositive (dir : ResultDir) (trialId : string) (pubData : PubData)
    (pub : Publication) : Prop :=
  In pub (publicationsWithPmids pubData)
  /\ classifiedPositive dir trialId pub
  /\ Js.truthy (Data.publicationDate pub) = true.

(** The stored classification of a publication cannot be used: the file
    is missing, or its text is not JSON. *)
Definition unreadable (dir : ResultDir) (trialId : string) (pub : Publication)
  : Prop :=
  match dir !! resultKey trialId pub with
  | Some (Json _) => False
  | Some (Garbled _) | None => True
  end.

(** A row for which the stage writes a summary: it names a trial that has
    both a registration and a publications entry. *)
Definition ready (registrations : gmap string Registration)
    (pubs : gmap string PubData) (row : Row) : option (string * PubData) :=
  let trialId := extractTrialId row in
  if String.eqb trialId "" then None
  else
    match registrations !! trialId, pubs !! trialId with
    | Some _, Some pubData => Some (trialId, pubData)
    | _, _ => None
    end.

End Finalize.

(** ** utils/utils.js: removeDuplicatePublications, maxDateFilter, minDateFilter *)

Module Utils.

(** The entry kept for a PMID seen again: its [sources] become
    [[...new Set([...cur.sources, ...prev[curPmid].sources])]]. *)
Definition withMergedSources (cur kept : Publication) : Publication :=
  {| pmid := pmid kept; doi := doi kept; title := title kept;
     abstract := abstract kept; publicationDate := publicationDate kept;
     sources := Js.uniq (sources cur ++ sources kept) |}.

(** The [reduce] over the publications, from the accumulator [prev]. *)
Fixpoint uniquePubSet (prev : Js.Object Publication) (publications : list Publication)
  : Js.Result (Js.Object Publication) :=
  match publications with
  | [] => Js.Returned prev
  | cur :: rest =>
      match pmid cur with
      | Some curPmid =>
          if String.eqb curPmid "" then Js.Threw "No pmid found in publication"
          else
            match Js.get prev curPmid with
            | Some kept =>
                uniquePubSet (Js.set prev curPmid (withMergedSources cur kept)) rest
            | None => uniquePubSet (Js.set prev curPmid cur) rest
            end
      | None => Js.Threw "No pmid found in publication"
      end
  end.

Definition removeDuplicatePublications (publications : list Publication)
  : Js.Result (list Publication) :=
  match uniquePubSet [] publications with
  | Js.Threw message => Js.Threw message
  | Js.Returned o => Js.Returned (Js.values o)
  end.

(** *** Vocabulary of the statements about the deduplication *)

(** The accumulator of the [reduce]: every entry sits under its own PMID,
    no key occurs twice, and the entries are in enumeration order. *)
Definition wellFormed (o : Js.Object Publication) : Prop :=
  NoDup (Js.keys o)
  /\ StronglySorted Js.inOrder o
  /\ forall k v, In (k, v) o -> pmid v = Some k /\ k <> "".

(** Two entries that agree on every field but [sources]. *)
Definition samePayload (a b : Publication) : Prop :=
  pmid a = pmid b /\ doi a = doi b /\ title a = title b
  /\ abstract a = abstract b /\ publicationDate a = publicationDate b.

(** The array index a PMID denotes when it is a canonical decimal numeral
    (below 2^32 - 1), as the PMIDs of PubMed are. *)
Definition pmidIndex (p : Publication) : option N := pmid p ≫= Js.arrayIndex.

(** The two arrays returned by a date filter.  An element of the input
    array is a publication object or [null]/[undefined] ([None]). *)
Record Filtered := mkFiltered {
  eligible : list (option Publication);
  filtered : list (option Publication)
}.

Section DateFilters.

(** [new Date(s).getTime()], [None] for an invalid date. *)
Variable parseDate : string -> option Z.

(** The two filters run the same loop, written out twice in the source;
    they differ in the test [keep pubDate] that sends a dated publication to
    [eligible] ([pubDate < cutoffDate] or [pubDate >= cutoffDate]).  The
    loop is written once here, with the test as an argument. *)
Fixpoint splitByDate (keep : Z -> bool) (publications : list (option Publication))
  : Filtered :=
  match publications with
  | [] => {| eligible := []; filtered := [] |}
  | publication :: rest =>
      let r := splitByDate keep rest in
      match publication ≫= publicationDate with
      | Some d =>
          if String.eqb d ""
          then {| eligible := publication :: eligible r; filtered := filtered r |}
          else
            match parseDate d with
            | None => r
            | Some pubDate =>
                if keep pubDate
                then {| eligible := publication :: eligible r; filtered := filtered r |}
                else {| eligible := eligible r; filtered := publication :: filtered r |}
            end
      | None => {| eligible := publication :: eligible r; filtered := filtered r |}
      end
  end.

Definition maxDateFilter (publications : list (option Publication))
    (maxDate : option string) : Js.Result Filtered :=
  if negb (Js.truthy maxDate) then Js.Threw "Max date is required"
  else
    match parseDate (default "" maxDate) with
    | None => Js.Threw "Invalid trial date format"
    | Some cutoffDate =>
        Js.Returned (splitByDate (fun pubDate => pubDate <? cutoffDate) publications)
    end.

Definition minDateFilter (publications : list (option Publication))
    (minDate : option string) : Js.Result Filtered :=
  if negb (Js.truthy minDate) then Js.Threw "Min date is required"
  else
    match parseDate (default "" minDate) with
    | None => Js.Threw "Invalid trial date format"
    | Some cutoffDate =>
        Js.Returned (splitByDate (fun pubDate => cutoffDate <=? pubDate) publications)
    end.

(** *** Vocabulary of the statements about the filters *)

(** Where the loop sends an element, given the test on its parsed date:
    to [eligible] ([Some true]), to [filtered] ([Some false]) or nowhere. *)
Definition destination (keep : Z -> bool) (publication : option Publication)
  : option bool :=
  match publication ≫= publicationDate with
  | Some d =>
      if String.eqb d "" then Some true
      else match parseDate d with
           | Some pubDate => Some (keep pubDate)
           | None => None
           end
  | None => Some true
  end.

(** An element with a (truthy) publication date. *)
Definition hasDate (publication : option Publication) : bool :=
  Js.truthy (publication ≫= publicationDate).

(** An element whose publication date is present but is not a date; the
    loop puts it in neither array. *)
Definition unparseable (publication : option Publication) : bool :=
  match publication ≫= publicationDate with
  | Some d => negb (String.eqb d "") && negb (bool_decide (is_Some (parseDate d)))
  | None => false
  end.

End DateFilters.

End Utils.

(** ** discovery/publication/index.js: discoverPublications *)

Module Discovery.

(** What a call of a strategy function does: it throws an error with a
    message, or returns [{results, error}] (either field may be missing). *)
Inductive StrategyOutcome :=
| Throws (message : string)
| Returns (results : option (list Publication)) (error : option string).

(** A strategy function: its [name] property and what a call with the
    registration (and the overrides, fixed for a run) does. *)
Record StrategyFn := mkStrategyFn {
  name : string;
  call : option Registration -> StrategyOutcome
}.

(** Modelled from the spec: strategies/constants.js is not among the
    sources; the value of [PUB_SOURCE.LINKED_AT_REGISTRATION] is the
    strategy identifier of the specification's strategy table. *)
Definition LINKED_AT_REGISTRATION : string := "linked_at_registration".

(** [{...pub, sources: [strategyName]}] *)
Definition withSource (strategyName : string) (pub : Publication) : Publication :=
  {| pmid := pmid pub; doi := doi pub; title := title pub;
     abstract := abstract pub; publicationDate := publicationDate pub;
     sources := [strategyName] |}.

(** The first [map]: each strategy name is looked up in [SEARCH_FUNCTIONS];
    an unknown name throws. *)
Fixpoint searchFunctionsWithNames (SEARCH_FUNCTIONS : gmap string StrategyFn)
    (strategies : list string) : Js.Result (list (StrategyFn * string)) :=
  match strategies with
  | [] => Js.Returned []
  | strategyName :: rest =>
      match SEARCH_FUNCTIONS !! strategyName with
      | None => Js.Threw (String.append "Unknown strategy: " strategyName)
      | Some f =>
          match searchFunctionsWithNames SEARCH_FUNCTIONS rest with
          | Js.Threw message => Js.Threw message
          | Js.Returned fns => Js.Returned ((f, strategyName) :: fns)
          end
      end
  end.

(** The wrapper around a strategy function: source tagging inside a
    [try], the error message in the [catch].  Calling [map] on a missing
    [results] throws inside the [try]. *)
Definition wrapper (f : StrategyFn) (strategyName : string)
    (registration : option Registration) : SearchResult :=
  match call f registration with
  | Returns (Some rs) err =>
      {| results := map (withSource strategyName) rs;
         fn := Some (name f); error := err |}
  | Returns None _ =>
      {| results := []; fn := Some (name f);
         error := Some "Cannot read properties of undefined (reading 'map')" |}
  | Throws message =>
      {| results := []; fn := Some (name f); error := Some message |}
  end.

Record Discovered := mkDiscovered {
  discoveredPublications : list Publication;
  errors : list SearchResult
}.

Definition discoverPublications (SEARCH_FUNCTIONS : gmap string StrategyFn)
    (registration : option Registration) (strategies : list string)
  : Js.Result Discovered :=
  match searchFunctionsWithNames SEARCH_FUNCTIONS strategies with
  | Js.Threw message => Js.Threw message
  | Js.Returned fns =>
      let searchResults :=
        map (fun fs => wrapper (fst fs) (snd fs) registration) fns in
      Js.Returned
        {| discoveredPublications := concat (map results searchResults);
           errors := List.filter (fun s => Js.truthy (error s)) searchResults |}
  end.

(** *** strategies/linked-at-registration.js *)

Definition candidate (id : option string) : Publication :=
  {| pmid := id; doi := None; title := None; abstract := None;
     publicationDate := None; sources := [] |}.

Definition searchLinkedAtRegistration : StrategyFn :=
  {| name := "searchLinkedAtRegistration";
     call := fun registration =>
       match registration with
       | None => Throws "searchLinkedAtRegistration failed, null registration"
       | Some r =>
           match linkedPubmedIds r, references r with
           | Some (id :: ids), _ =>
               Returns (Some (map (fun i => candidate (Some i)) (id :: ids))) None
           | _, Some (ref :: refs) =>
               Returns
                 (Some (map (fun x => candidate (ref_pmid x))
                          (List.filter (fun x => Js.truthy (ref_pmid x)) (ref :: refs))))
                 None
           | _, _ => Returns (Some []) None
           end
       end |}.

(** The first strategy name of the list that the registry does not know. *)
Definition firstUnknown (SEARCH_FUNCTIONS : gmap string StrategyFn)
    (strategies : list string) : option string :=
  List.find (fun s => negb (bool_decide (is_Some (SEARCH_FUNCTIONS !! s)))) strategies.

End Discovery.

(** ** runner/batch/utils/progress.js: loadProgress *)

Module ProgressFile.

(** A value produced by [JSON.parse]. *)
#[warnings="-register-all"]
Inductive Json :=
| JNull
| JBool (b : bool)
| JNumber (z : Z)
| JString (s : string)
| JArray (items : list Json)
| JObject (fields : list (string * Json)).

Definition truthy (v : option Json) : bool :=
  match v with
  | None | Some JNull => false
  | Some (JBool b) => b
  | Some (JNumber z) => negb (z =? 0)
  | Some (JString s) => negb (String.eqb s "")
  | Some (JArray _) | Some (JObject _) => true
  end.

Fixpoint field (fields : list (string * Json)) (name : string) : option Json :=
  match fields with
  | [] => None
  | (k, v) :: rest => if String.eqb k name then Some v else field rest name
  end.

(** [v.name] for one of the property names read by [loadProgress]: a
    [TypeError] on [null], the member of an object, [undefined] on any
    other value. *)
Definition prop (v : Json) (name : string) : Js.Result (option Json) :=
  match v with
  | JNull => Js.Threw "Cannot read properties of null"
  | JObject fields => Js.Returned (field fields name)
  | _ => Js.Returned None
  end.

(** [a || b] *)
Definition orElse (a : option Json) (b : Json) : Json :=
  match a with
  | Some v => if truthy a then v else b
  | None => b
  end.

(** [parsed.input !== inputPath] *)
Definition differsFrom (recorded : option Json) (inputPath : string) : bool :=
  match recorded with
  | Some (JString s) => negb (String.eqb s inputPath)
  | _ => true
  end.

(** The progress file as [loadProgress] finds it. *)
Inductive File :=
| Absent                                  (* fs.existsSync is false *)
| Unparseable                             (* reading or JSON.parse throws *)
| Parsed (parsed : Json).

Record Progress := mkProgress {
  input : string;
  stage : Json;
  batchJobs : Json;
  rows : Json;
  registrations : Json;
  publications : Json;
  skippedCounts : Json;
  startedAt : Json
}.

(** Modelled from the spec: constants.js is not among the sources;
    [STAGES.PREP] is taken to be the stage name of the data model. *)
Definition STAGES_PREP : Json := JString "PREP".

Definition noSkips : Json :=
  JObject [("noTrialId", JNumber 0); ("noRegistration", JNumber 0)].

(** The object literal returned on the three "start fresh" paths; [now] is
    [new Date().toISOString()]. *)
Definition freshProgress (inputPath now : string) : Progress :=
  {| input := inputPath;
     stage := STAGES_PREP;
     batchJobs := JObject [];
     rows := JObject [];
     registrations := JObject [];
     publications := JObject [];
     skippedCounts := noSkips;
     startedAt := JString now |}.

(** A further property read of a value whose [input] has been read
    without a [TypeError]. *)
Definition member (parsed : Json) (name : string) : option Json :=
  match prop parsed name with
  | Js.Returned v => v
  | Js.Threw _ => None
  end.

(** The body of the [try] after [JSON.parse]; a [Threw] is caught by the
    [catch]. *)
Definition resume (parsed : Json) (inputPath now : string) : Js.Result Progress :=
  match prop parsed "input" with
  | Js.Threw message => Js.Threw message
  | Js.Returned recorded =>
      if truthy recorded && differsFrom recorded inputPath
      then Js.Returned (freshProgress inputPath now)
      else
        Js.Returned
          {| input := inputPath;
             stage := orElse (member parsed "stage") STAGES_PREP;
             batchJobs := orElse (member parsed "batchJobs") (JObject []);
             rows := orElse (member parsed "rows") (JObject []);
             registrations := orElse (member parsed "registrations") (JObject []);
             publications := orElse (member parsed "publications") (JObject []);
             skippedCounts := orElse (member parsed "skippedCounts") noSkips;
             startedAt := orElse (member parsed "startedAt") (JString now) |}
  end.

Definition loadProgress (progressFile : File) (inputPath now : string) : Progress :=
  match progressFile with
  | Absent => freshProgress inputPath now
  | Unparseable => freshProgress inputPath now
  | Parsed parsed =>
      match resume parsed inputPath now with
      | Js.Returned progress => progress
      | Js.Threw _ => freshProgress inputPath now
      end
  end.

(** *** saveProgress

    [fs.writeFileSync(progressFile, JSON.stringify(progress, null, 2))]:
    the file then holds the JSON text of the record, which [JSON.parse]
    reads back as the object with the eight properties in the order of the
    object literal of [loadProgress]. *)
Definition saveProgress (progress : Progress) : File :=
  Parsed
    (JObject
       [ ("input", JString (input progress));
         ("stage", stage progress);
         ("batchJobs", batchJobs progress);
         ("rows", rows progress);
         ("registrations", registrations progress);
         ("publications", publications progress);
         ("skippedCounts", skippedCounts progress);
         ("startedAt", startedAt progress) ]).

(** The record has no falsy member: [loadProgress] would replace such a
    member by its default. *)
Definition noFalsyMember (progress : Progress) : Prop :=
  truthy (Some (stage progress)) = true
  /\ truthy (Some (batchJobs progress)) = true
  /\ truthy (Some (rows progress)) = true
  /\ truthy (Some (registrations progress)) = true
  /\ truthy (Some (publications progress)) = true
  /\ truthy (Some (skippedCounts progress)) = true
  /\ truthy (Some (startedAt progress)) = true.

End ProgressFile.

(** ** runner/batch/stages/result-gen-poll.js: stageResultGenPoll *)

Module ResultGenPoll.

(** What [openai.batches.retrieve] answers, as far as the stage reads
    it. *)
Module Service.

Record Batch := mkBatch {
  status : string;
  output_file_id : option string
}.

End Service.

(** A chunk record as the poll and process stages read and write it.  The
    stage stores whatever status string the service reports, so [status]
    is kept as the string it is; the fields written by the other stages
    and not read here are left out. *)
Record Chunk := mkChunk {
  index : Z;
  status : string;
  batchId : option string;
  outputFileId : option string;
  completedAt : option string;
  processedAt : option string
}.

(** One turn of the [while (true)] loop: the time of the turn and what the
    service answers for a batch id. *)
Record Round := mkRound {
  now : string;                                   (* new Date().toISOString() *)
  retrieve : option string -> Js.Result Service.Batch
}.

(** The stage throws (the record stays as it was last saved, at stage
    RESULT_GEN_POLL), saves and moves on, or is still in its loop when the
    rounds given are used up (it has saved and sleeps before the next
    poll). *)
Inductive Outcome :=
| Threw (message : string) (lastSaved : option (list Chunk))
| Saved (chunks : list Chunk) (next : Stage)
| Polling (lastSaved : list Chunk).

(** The test of the [filter] that builds [uploadedChunks]. *)
Definition isPolled (c : Chunk) : bool :=
  String.eqb (status c) "uploaded" || String.eqb (status c) "in_progress"
  || String.eqb (status c) "finalizing" || String.eqb (status c) "validating".

(** [uploadedChunks]: its elements are the chunk objects of [chunks]
    themselves, so the array is kept as the positions they have there. *)
Definition uploadedChunks (cs : list Chunk) : list nat :=
  map fst (List.filter (fun ic => isPolled (snd ic)) (combine (seq 0 (length cs)) cs)).

(** [Promise.all(uploadedChunks.map(chunk => openai.batches.retrieve(chunk.batchId)))] *)
Fixpoint retrieveAll (r : Round) (positions : list nat) (cs : list Chunk)
  : Js.Result (list Service.Batch) :=
  match positions with
  | [] => Js.Returned []
  | i :: rest =>
      match retrieve r (cs !! i ≫= batchId) with
      | Js.Threw message => Js.Threw message
      | Js.Returned batch =>
          match retrieveAll r rest cs with
          | Js.Threw message => Js.Threw message
          | Js.Returned statuses => Js.Returned (batch :: statuses)
          end
      end
  end.

Definition isFailure (s : string) : bool :=
  String.eqb s "failed" || String.eqb s "expired" || String.eqb s "cancelled".

(** The body of [statuses.forEach] for one chunk: the chunk rewritten and
    whether it is completed, or the exception thrown. *)
Definition update (nowIso : string) (batch : Service.Batch) (chunk : Chunk)
  : Js.Result (Chunk * bool) :=
  if String.eqb (Service.status batch) "completed" then
    if negb (Js.truthy (Service.output_file_id batch))
    then Js.Threw "Batch completed but output_file_id is missing"
    else
      Js.Returned
        ({| index := index chunk; status := "completed"; batchId := batchId chunk;
            outputFileId := Service.output_file_id batch;
            completedAt := Some nowIso; processedAt := processedAt chunk |},
         true)
  else if isFailure (Service.status batch) then
    Js.Threw (String.append "Chunk batch " (Service.status batch))
  else
    Js.Returned
      ({| index := index chunk; status := Service.status batch;
          batchId := batchId chunk; outputFileId := outputFileId chunk;
          completedAt := completedAt chunk; processedAt := processedAt chunk |},
       false).

(** [statuses.forEach((batch, idx) => ...)] on [uploadedChunks[idx]], with
    the flag [allCompleted]. *)
Fixpoint updateAll (nowIso : string) (polled : list (nat * Service.Batch))
    (cs : list Chunk) (allCompleted : bool) : Js.Result (list Chunk * bool) :=
  match polled with
  | [] => Js.Returned (cs, allCompleted)
  | (i, batch) :: rest =>
      match cs !! i with
      | None => updateAll nowIso rest cs allCompleted
      | Some chunk =>
          match update nowIso batch chunk with
          | Js.Threw message => Js.Threw message
          | Js.Returned (chunk', done) =>
              updateAll nowIso rest (<[i := chunk']> cs) (allCompleted && done)
          end
      end
  end.

(** The loop, for the rounds given. *)
Fixpoint pollLoop (rounds : list Round) (positions : list nat) (cs : list Chunk)
  : Outcome :=
  match rounds with
  | [] => Polling cs
  | r :: rest =>
      match retrieveAll r positions cs with
      | Js.Threw message => Threw message (Some cs)
      | Js.Returned statuses =>
          match updateAll (now r) (combine positions statuses) cs true with
          | Js.Threw message => Threw message (Some cs)
          | Js.Returned (cs', allCompleted) =>
              if allCompleted then Saved cs' RESULT_GEN_PROCESS
              else pollLoop rest positions cs'
          end
      end
  end.

(** [chunks] is [progress.batchJobs.resultDetection.chunks], [None] when
    the record or its chunks are missing. *)
Definition stageResultGenPoll (rounds : list Round) (chunks : option (list Chunk))
  : Outcome :=
  match chunks with
  | None => Threw "No result detection chunks found in progress" None
  | Some cs =>
      match uploadedChunks cs with
      | [] => Saved cs RESULT_GEN_PROCESS
      | _ :: _ => pollLoop rounds (uploadedChunks cs) cs
      end
  end.

(** *** Vocabulary of the statements about the stage *)

(** The record of a chunk whose batch has completed: the chunk it was,
    with the status, the output file and the completion time set. *)
Definition completedFrom (c c' : Chunk) : Prop :=
  index c' = index c /\ batchId c' = batchId c /\ processedAt c' = processedAt c
  /\ status c' = "completed" /\ Js.truthy (outputFileId c') = true
  /\ is_Some (completedAt c').

End ResultGenPoll.

(** ** runner/batch/stages/result-gen-process.js: stageResultGenProcess *)

Module ResultGenProcess.
Import ResultGenPoll.

(** A line of a downloaded output file, as the loop over the lines treats
    it. *)
Inductive Line :=
| NotJson (parseError : string)     (* JSON.parse(line) throws *)
| Failed (custom_id : string)       (* result.error is truthy *)
| Unusable (custom_id : string)     (* no message text, or a text that is not JSON *)
| Classified (custom_id : string) (parsed : option Finalize.Content)
    (usage : option Z).             (* the text parsed; usage is
                                       response.body.usage, as the finalize
                                       stage reads the tokens member back *)

Record Env := mkEnv {
  now : string;                              (* new Date().toISOString() *)
  download : string -> Js.Result (list Line) (* the lines of openai.files.content(id) *)
}.

(** The stage throws after having written what it wrote, or saves. *)
Inductive Outcome :=
| Threw (message : string) (lastSaved : option (list Chunk)) (dir : Finalize.ResultDir)
| Saved (chunks : list Chunk) (dir : Finalize.ResultDir) (next : Stage).

(** The file written for a response whose text parsed. *)
Definition resultFile (parsed : option Finalize.Content) (usage : option Z)
  : Finalize.ResultFile :=
  Finalize.Json
    {| Finalize.content := parsed; Finalize.tokens := usage;
       Finalize.success := Some true |}.

(** The loop over the lines of one file: the directory after it, and the
    message of the exception that ended it, if any. *)
Fixpoint writeResults (lines : list Line) (dir : Finalize.ResultDir)
  : Finalize.ResultDir * option string :=
  match lines with
  | [] => (dir, None)
  | NotJson parseError :: _ => (dir, Some parseError)
  | Failed _ :: rest => writeResults rest dir
  | Unusable _ :: rest => writeResults rest dir
  | Classified customId parsed usage :: rest =>
      writeResults rest (<[customId := resultFile parsed usage]> dir)
  end.

Definition markProcessed (env : Env) (chunk : Chunk) : Chunk :=
  {| index := index chunk; status := "processed"; batchId := batchId chunk;
     outputFileId := outputFileId chunk; completedAt := completedAt chunk;
     processedAt := Some (now env) |}.

(** [chunks.filter(c => c.status === "completed")], as positions. *)
Definition completedChunks (cs : list Chunk) : list nat :=
  map fst (List.filter (fun ic => String.eqb (status (snd ic)) "completed")
             (combine (seq 0 (length cs)) cs)).

(** The loop over the completed chunks; the chunks are saved after each
    one. *)
Fixpoint processChunks (env : Env) (positions : list nat) (cs : list Chunk)
    (dir : Finalize.ResultDir) : list Chunk * Finalize.ResultDir * option string :=
  match positions with
  | [] => (cs, dir, None)
  | i :: rest =>
      match cs !! i with
      | None => processChunks env rest cs dir
      | Some chunk =>
          if negb (Js.truthy (outputFileId chunk))
          then (cs, dir, Some "Chunk has no output file ID")
          else
            match download env (default "" (outputFileId chunk)) with
            | Js.Threw message => (cs, dir, Some message)
            | Js.Returned lines =>
                match writeResults lines dir with
                | (dir', Some message) => (cs, dir', Some message)
                | (dir', None) =>
                    processChunks env rest (<[i := markProcessed env chunk]> cs) dir'
                end
            end
      end
  end.

(** The stage that follows: back to the upload while a chunk is pending. *)
Definition nextStage (cs : list Chunk) : Stage :=
  if existsb (fun c => String.eqb (status c) "pending") cs
  then RESULT_GEN_UPLOAD else FINALIZE.

Definition stageResultGenProcess (env : Env) (chunks : option (list Chunk))
    (dir : Finalize.ResultDir) : Outcome :=
  match chunks with
  | None => Threw "No result detection chunks found in progress" None dir
  | Some cs =>
      match completedChunks cs with
      | [] => Saved cs dir (nextStage cs)
      | _ :: _ =>
          match processChunks env (completedChunks cs) cs dir with
          | (cs', dir', Some message) => Threw message (Some cs') dir'
          | (cs', dir', None) => Saved cs' dir' (nextStage cs')
          end
      end
  end.

(** *** Vocabulary of the statements about the stage *)

(** The last classification written under [key] by the lines, if any. *)
Fixpoint lastClassified (key : string) (lines : list Line)
  : option (option Finalize.Content * option Z) :=
  match lines with
  | [] => None
  | Classified customId parsed usage :: rest =>
      match lastClassified key rest with
      | Some found => Some found
      | None => if String.eqb customId key then Some (parsed, usage) else None
      end
  | _ :: rest => lastClassified key rest
  end.

(** The lines of the output file of a chunk, none when the download
    throws. *)
Definition linesOfChunk (env : Env) (c : Chunk) : list Line :=
  match download env (default "" (outputFileId c)) with
  | Js.Returned lines => lines
  | Js.Threw _ => []
  end.

(** The lines of the output files of the completed chunks, in the order
    the stage reads them. *)
Definition linesOf (env : Env) (cs : list Chunk) : list Line :=
  flat_map (linesOfChunk env)
    (List.filter (fun c => String.eqb (status c) "completed") cs).

(** What the directory holds under [key] once the lines are written. *)
Definition written (key : string) (lines : list Line) (dir : Finalize.ResultDir)
  : option Finalize.ResultFile :=
  match lastClassified key lines with
  | Some (parsed, usage) => Some (resultFile parsed usage)
  | None => dir !! key
  end.

End ResultGenProcess.
(** ** runner/batch/stages/pub-discovery.js: stagePubDiscovery *)

Module PubDiscovery.

(** The record stored in [progress.publications[trialId]].  The arrays are
    the ones returned by the date filters. *)
Record Stored := mkStored {
  publications : list (option Publication);
  filteredPublications : list (option Publication);
  errors : list SearchResult
}.

(** What the stage reads from outside the Progress record. *)
Record Env := mkEnv {
  validationRun : bool;                      (* options.validationRun *)
  publicationDiscovery :
    string -> Js.Result (list Publication * list SearchResult);
                                             (* publicationDiscovery(trialId, batchStrategies) *)
  parseDate : string -> option Z             (* new Date(s).getTime() *)
}.

(** The part of the Progress record the stage writes: the publications
    entries, the counter of trials without registration, and the calls of
    [recordRowStatus] (row index, trial id, error text), latest first. *)
Record Progress := mkProgress {
  stored : gmap string Stored;
  noRegistration : Z;
  rowErrors : list (nat * string * string)
}.

(** [row.dataset || row.Dataset] *)
Definition datasetOf (row : Row) : option string :=
  if Js.truthy (Js.get row "dataset") then Js.get row "dataset"
  else Js.get row "Dataset".

(** [dataset === "iv" ? "2020-11-17" : "2023-02-15"] *)
Definition maxDateOf (row : Row) : string :=
  match datasetOf row with
  | Some dataset => if String.eqb dataset "iv" then "2020-11-17" else "2023-02-15"
  | None => "2023-02-15"
  end.

(** The body of the [try]: discovery, then the two date filters. *)
Definition discoverAndFilter (env : Env) (row : Row) (registration : Registration)
    (trialId : string) : Js.Result Stored :=
  match publicationDiscovery env trialId with
  | Js.Threw message => Js.Threw message
  | Js.Returned (found, pubErrors) =>
      let afterMax :=
        if validationRun env
        then Utils.maxDateFilter (parseDate env) (map Some found) (Some (maxDateOf row))
        else Js.Returned (Utils.mkFiltered (map Some found) []) in
      match afterMax with
      | Js.Threw message => Js.Threw message
      | Js.Returned r1 =>
          let afterMin :=
            if Js.truthy (startDate registration)
            then Utils.minDateFilter (parseDate env) (Utils.eligible r1)
                   (startDate registration)
            else Js.Returned (Utils.mkFiltered (Utils.eligible r1) []) in
          match afterMin with
          | Js.Threw message => Js.Threw message
          | Js.Returned r2 =>
              Js.Returned
                {| publications := Utils.eligible r2;
                   filteredPublications := Utils.filtered r1 ++ Utils.filtered r2;
                   errors := pubErrors |}
          end
      end
  end.

(** One turn of the loop over the rows. *)
Definition discoverRow (env : Env) (registrations : gmap string Registration)
    (i : nat) (row : Row) (progress : Progress) : Progress :=
  let trialId := extractTrialId row in
  if String.eqb trialId "" then progress
  else
    match stored progress !! trialId with
    | Some _ => progress
    | None =>
        match registrations !! trialId with
        | None =>
            {| stored := stored progress;
               noRegistration := noRegistration progress + 1;
               rowErrors := rowErrors progress |}
        | Some registration =>
            match discoverAndFilter env row registration trialId with
            | Js.Returned entry =>
                {| stored := <[trialId := entry]> (stored progress);
                   noRegistration := noRegistration progress;
                   rowErrors := rowErrors progress |}
            | Js.Threw message =>
                {| stored := stored progress;
                   noRegistration := noRegistration progress;
                   rowErrors :=
                     (i, trialId,
                      String.append "Publication discovery failed: " message)
                     :: rowErrors progress |}
            end
        end
    end.

Fixpoint discoverRows (env : Env) (registrations : gmap string Registration)
    (i : nat) (rows : list Row) (progress : Progress) : Progress :=
  match rows with
  | [] => progress
  | row :: rest =>
      discoverRows env registrations (S i) rest
        (discoverRow env registrations i row progress)
  end.

(** The stage catches every exception of a row, so it always saves. *)
Definition stagePubDiscovery (env : Env) (rows : list Row)
    (registrations : gmap string Registration) (progress : Progress)
  : Progress * Stage :=
  (discoverRows env registrations 0 rows progress, RESULT_GEN_PREPARATION).

(** *** Vocabulary of the statements about the stage *)

(** The parsed publication date of an entry, when it has one that
    parses. *)
Definition dateOf (env : Env) (publication : option Publication) : option Z :=
  match publication ≫= publicationDate with
  | Some d => if String.eqb d "" then None else parseDate env d
  | None => None
  end.

End PubDiscovery.
(** ** registry/utils.js: detectRegistryType, validateTrialId, normalizeTrialId *)

Module Registry.

Definition CTGOV : string := "ctgov".
Definition EUCTR : string := "euctr".
Definition DRKS : string := "drks".
Definition UNKNOWN : string := "unknown".

Definition upperAscii (c : ascii) : ascii :=
  let n := nat_of_ascii c in
  if ((97 <=? n) && (n <=? 122))%nat then ascii_of_nat (n - 32) else c.

(** [s.toUpperCase()] on the ASCII letters. *)
Fixpoint toUpperCase (s : string) : string :=
  match s with
  | EmptyString => EmptyString
  | String c rest => String (upperAscii c) (toUpperCase rest)
  end.

(** The three patterns are anchored sequences of single-character
    classes: a digit ([\d]), a letter in either case (a letter of a pattern
    with the flag [i]) or one given character. *)
Inductive Atom :=
| Digit
| Letter (lower : ascii)
| Exactly (c : ascii).

Definition atomOk (a : Atom) (c : ascii) : bool :=
  match a with
  | Digit => let n := nat_of_ascii c in ((48 <=? n) && (n <=? 57))%nat
  | Letter lower => Ascii.eqb (lowerAscii c) lower
  | Exactly x => Ascii.eqb c x
  end.

(** [pattern.test(s)] for a pattern [/^ ... $/] made of the atoms. *)
Fixpoint test (pattern : list Atom) (s : string) : bool :=
  match pattern, s with
  | [], EmptyString => true
  | a :: atoms, String c rest => atomOk a c && test atoms rest
  | _, _ => false
  end.

(** [/^NCT\d{8}$/i] *)
Definition ctgovPattern : list Atom :=
  [Letter "n"; Letter "c"; Letter "t"] ++ repeat Digit 8.

(** [/^\d{4}-\d{6}-\d{2}$/] *)
Definition euctrPattern : list Atom :=
  repeat Digit 4 ++ [Exactly "-"] ++ repeat Digit 6 ++ [Exactly "-"] ++ repeat Digit 2.

(** [/^DRKS\d{8}$/i] *)
Definition drksPattern : list Atom :=
  [Letter "d"; Letter "r"; Letter "k"; Letter "s"] ++ repeat Digit 8.

(** [REGISTRY_PATTERNS[registryType]], [None] for a type without pattern.
    (Names inherited from [Object.prototype] are not modelled.) *)
Definition REGISTRY_PATTERNS (registryType : string) : option (list Atom) :=
  if String.eqb registryType CTGOV then Some ctgovPattern
  else if String.eqb registryType EUCTR then Some euctrPattern
  else if String.eqb registryType DRKS then Some drksPattern
  else None.

(** The argument is [None] for a value that is not a string. *)
Definition detectRegistryType (trialId : option string) : string :=
  if negb (Js.truthy trialId) then UNKNOWN
  else
    let normalized := trim (default "" trialId) in
    if test ctgovPattern normalized then CTGOV
    else if test euctrPattern normalized then EUCTR
    else if test drksPattern normalized then DRKS
    else UNKNOWN.

Definition validateTrialId (trialId : option string) (registryType : string) : bool :=
  if negb (Js.truthy trialId) then false
  else
    match REGISTRY_PATTERNS registryType with
    | None => false
    | Some pattern => test pattern (trim (default "" trialId))
    end.

Definition normalizeTrialId (trialId : option string) : string :=
  if negb (Js.truthy trialId) then ""
  else
    let trimmed := trim (default "" trialId) in
    let registryType := detectRegistryType (Some trimmed) in
    if String.eqb registryType CTGOV then toUpperCase trimmed
    else if String.eqb registryType DRKS then toUpperCase trimmed
    else trimmed.

(** *** Vocabulary of the statements about the identifiers *)

(** No character of the string is white space. *)
Fixpoint noSpace (s : string) : bool :=
  match s with
  | EmptyString => true
  | String c rest => negb (isSpace c) && noSpace rest
  end.

(** An atom that accepts no white space and accepts the upper-case form
    of what it accepts. *)
Definition solid (a : Atom) : Prop :=
  forall c, atomOk a c = true ->
    isSpace c = false /\ atomOk a (upperAscii c) = true.

(** Two atoms that accept no character in common. *)
Definition exclusive (a b : Atom) : Prop :=
  forall c, atomOk a c = true -> atomOk b c = false.

End Registry.
(** ** utils/cache.js: getCacheTTL, isCacheValid, cacheResultToFile *)

Module Cache.

(** The [timestamp] of a stored entry as [isCacheValid] reads it: a falsy
    value, a string that is not a date, or the instant (in milliseconds)
    that [new Date(timestamp).getTime()] gives.  An entry is written with
    [new Date().toISOString()], which reads back as the instant of the
    write. *)
Inductive Stamp :=
| NoStamp
| BadStamp
| At (time : Z).

(** The cache file as [cacheResultToFile] finds it.  In an entry, [ttl] is
    [None] for [null]. *)
Inductive CacheFile :=
| Missing                                  (* fs.existsSync is false *)
| Unreadable                               (* reading or JSON.parse throws, or the value is null *)
| Legacy (data : ProgressFile.Json)        (* a value without timestamp property *)
| Entry (timestamp : Stamp) (ttl : option Z) (data : ProgressFile.Json).

Record Env := mkEnv {
  now : Z;                                 (* Date.now() at the validity check *)
  writeTime : Z;                           (* new Date() when the entry is written *)
  ttlConfig : option (gmap string Z);      (* config.get("cache.ttl"), None when it throws *)
  canWrite : bool                          (* fs.writeFileSync does not throw *)
}.

(** [a || b] on numbers that may be missing. *)
Definition orNumber (a b : option Z) : option Z :=
  match a with
  | Some n => if n =? 0 then b else a
  | None => b
  end.

(** [cacheType] is [None] for [null], which reads the property "null". *)
Definition getCacheTTL (env : Env) (cacheType : option string) : option Z :=
  match ttlConfig env with
  | None => Some 604800
  | Some cfg =>
      orNumber (cfg !! default "null" cacheType)
        (orNumber (cfg !! "default") None)
  end.

Definition isCacheValid (env : Env) (timestamp : Stamp) (ttl : option Z) : bool :=
  match timestamp with
  | NoStamp => false
  | BadStamp =>
      match orNumber ttl None with
      | None => true
      | Some _ => false                    (* NaN < ttlMs *)
      end
  | At time =>
      match orNumber ttl None with
      | None => true
      | Some seconds => now env - time <? seconds * 1000
      end
  end.

(** [func] is what calling the function does; the result is what the call
    resolves or rejects with, and the file afterwards. *)
Definition cacheResultToFile (env : Env) (func : Js.Result ProgressFile.Json)
    (file : CacheFile) (cacheType : option string)
  : Js.Result ProgressFile.Json * CacheFile :=
  let regenerate :=
    match func with
    | Js.Threw message => (Js.Threw message, file)
    | Js.Returned result =>
        (Js.Returned result,
         if canWrite env
         then Entry (At (writeTime env)) (getCacheTTL env cacheType) result
         else file)
    end in
  match file with
  | Missing => regenerate
  | Unreadable => regenerate
  | Legacy data => (Js.Returned data, file)
  | Entry timestamp ttl data =>
      if isCacheValid env timestamp ttl then (Js.Returned data, file)
      else regenerate
  end.

(** *** Vocabulary of the statements about the cache *)

(** A file from which nothing is served at the time of [env]. *)
Definition stale (env : Env) (file : CacheFile) : Prop :=
  match file with
  | Missing | Unreadable => True
  | Legacy _ => False
  | Entry timestamp ttl _ => isCacheValid env timestamp ttl = false
  end.

(** The time of [later] is within the time to live that [env] records for
    the type, counted from the write of [env]. *)
Definition within (env later : Env) (cacheType : option string) : Prop :=
  match orNumber (getCacheTTL env cacheType) None with
  | None => True
  | Some seconds => now later - writeTime env < seconds * 1000
  end.

End Cache.
(** ** discovery/registration.js and runner/batch/stages/prep.js *)

Module Prep.

(** The registry clients: what fetching and parsing the registration of
    an identifier gives, for each of the three registries.  A client may
    resolve with no registration ([None]). *)
Record Env := mkEnv {
  fetchCtgov : string -> Js.Result (option Registration);
  discoverEuctr : string -> Js.Result (option Registration);
  discoverDrks : string -> Js.Result (option Registration)
}.

(** The [switch] on the detected registry type. *)
Definition registrationDiscovery (env : Env) (trialId : string)
  : Js.Result (option Registration) :=
  let registryType := Registry.detectRegistryType (Some trialId) in
  if String.eqb registryType Registry.CTGOV then fetchCtgov env trialId
  else if String.eqb registryType Registry.EUCTR then discoverEuctr env trialId
  else if String.eqb registryType Registry.DRKS then discoverDrks env trialId
  else Js.Threw (String.append "Unsupported registry type: " registryType).

(** The part of the Progress record the stage writes: the registrations,
    the counter of rows without trial id, and the calls of
    [recordRowStatus] (row index, trial id, error text), latest first. *)
Record Progress := mkProgress {
  registrations : gmap string Registration;
  noTrialId : Z;
  rowErrors : list (nat * string * string)
}.

(** One turn of the loop over the rows. *)
Definition prepRow (env : Env) (i : nat) (row : Row) (progress : Progress)
  : Progress :=
  let trialId := extractTrialId row in
  if String.eqb trialId "" then
    {| registrations := registrations progress;
       noTrialId := noTrialId progress + 1;
       rowErrors := rowErrors progress |}
  else
    match registrations progress !! trialId with
    | Some _ => progress
    | None =>
        match registrationDiscovery env trialId with
        | Js.Returned (Some trialData) =>
            {| registrations := <[trialId := trialData]> (registrations progress);
               noTrialId := noTrialId progress;
               rowErrors := rowErrors progress |}
        | Js.Returned None => progress
        | Js.Threw message =>
            {| registrations := registrations progress;
               noTrialId := noTrialId progress;
               rowErrors :=
                 (i, trialId, String.append "Registration fetch failed: " message)
                 :: rowErrors progress |}
        end
    end.

Fixpoint prepRows (env : Env) (i : nat) (rows : list Row) (progress : Progress)
  : Progress :=
  match rows with
  | [] => progress
  | row :: rest => prepRows env (S i) rest (prepRow env i row progress)
  end.

Definition stagePrepRegistrations (env : Env) (rows : list Row)
    (progress : Progress) : Progress * Stage :=
  (prepRows env 0 rows progress, QUERY_GEN_UPLOAD).

(** *** Vocabulary of the statements about the stage *)

(** The rows without a trial id. *)
Definition withoutTrialId (rows : list Row) : list Row :=
  List.filter (fun row => String.eqb (extractTrialId row) "") rows.

End Prep.

(** ** utils/pubmed_utils.js: the publication date of a parsed record *)

Module PubmedUtils.

(** The texts of a date element of a PubMed record. *)
Record DateParts := mkDateParts {
  Year : option string;
  Month : option string;
  Day : option string
}.

(** [acceptedDate || dateCompleted || dateRevised] *)
Definition chosenDate (acceptedDate dateCompleted dateRevised : option DateParts)
  : option DateParts :=
  match acceptedDate, dateCompleted with
  | Some date, _ => Some date
  | None, Some date => Some date
  | None, None => dateRevised
  end.

(** The template string of [parsePubmedRecord]. *)
Definition publicationDate (date : option DateParts) : string :=
  let year := date ≫= Year in
  let month := date ≫= Month in
  let day := date ≫= Day in
  String.append (if Js.truthy year then default "" year else "")
    (String.append
       (if Js.truthy month
        then String.append "-"
               (if (1 <? String.length (default "" month))%nat
                then default "" month
                else String.append "0" (default "" month))
        else "")
       (if Js.truthy day && Js.truthy month
        then String.append "-"
               (if (1 <? String.length (default "" day))%nat
                then default "" day
                else String.append "0" (default "" month))
        else "")).

(** The template string of [extractMetadata], which does not pad. *)
Definition metadataPublicationDate (date : option DateParts) : string :=
  let year := date ≫= Year in
  let month := date ≫= Month in
  let day := date ≫= Day in
  String.append (if Js.truthy year then default "" year else "")
    (String.append
       (if Js.truthy month then String.append "-" (default "" month) else "")
       (if Js.truthy day && Js.truthy month
        then String.append "-" (default "" day)
        else "")).

End PubmedUtils.
(** ** Sample inputs

    Concrete records on which the functions above are evaluated in Part II. *)

Module Samples.
Import ResultGenUpload.

Definition pendingChunk (i tok : Z) : Chunk :=
  {| index := i; inputFile := "result_gen_input_chunk.jsonl";
     requestCount := 1; estimatedTokens := tok; sizeBytes := 10;
     status := pending; batchId := None; inputFileId := None;
     uploadedAt := None |}.

(** Three pending chunks of 60 tokens, written the day before. *)
Definition threeChunks : ResultDetection :=
  {| chunks := [pendingChunk 2 60; pendingChunk 0 60; pendingChunk 1 60];
     dailyTokensUsed := {| date := "2026-01-01"; tokens := 0 |};
     totalEstimatedTokens := 180 |}.

Definition envOn (day : string) (budget : Z) : Env :=
  {| today := day; nowIso := String.append day "T08:00:00.000Z";
     maxTokensPerDay := budget;
     uploadFile := fun c => String.append "file-" (inputFile c);
     createBatch := fun c => String.append "batch-" (inputFile c) |}.

(** Two entries on one day, one on the next, polling in between. *)
Definition twoDays : list Step :=
  [ EnterUpload (envOn "2026-01-02" 100); OtherStage (fun cs => cs);
    EnterUpload (envOn "2026-01-02" 100);
    EnterUpload (envOn "2026-01-03" 100) ].

(** A first pending chunk too large for what is left, followed by a small
    one. *)
Definition largeThenSmall : ResultDetection :=
  {| chunks := [pendingChunk 0 60; pendingChunk 1 10];
     dailyTokensUsed := {| date := "2026-01-02"; tokens := 50 |};
     totalEstimatedTokens := 70 |}.

(** One trial with one linked publication. *)
Definition trial1 : Registration :=
  {| trialId := "NCT00000001"; startDate := Some "2005-06-01";
     hasResults := Some false; linkedPubmedIds := None;
     references := Some [ {| ref_pmid := Some "111"; citation := None |} ] |}.

Definition pub (id : string) (published : option string) (srcs : list string)
  : Publication :=
  {| pmid := Some id; doi := None; title := Some "A trial"; abstract := None;
     publicationDate := published; sources := srcs |}.

Definition oneRow : list Row := [ [("nct_id", " NCT00000001 ")] ].

Definition oneRegistration : gmap string Registration :=
  {[ "NCT00000001" := trial1 ]}.

Definition onePublication : gmap string PubData :=
  {[ "NCT00000001" :=
       {| publications := Some [pub "111" None ["linked_at_registration"]];
          errors := None |} ]}.

(** A byte cap of floor(1000 * 9/10) = 900 and requests of 1200 bytes. *)
Definition smallCap : ResultGenPreparation.Config :=
  {| ResultGenPreparation.systemPromptLength := 400;
     ResultGenPreparation.maxRequestsPerBatch := 50000;
     ResultGenPreparation.maxBytesPerBatch := 1000;
     ResultGenPreparation.safetyBuffer := 9 # 10;
     ResultGenPreparation.userPromptLength := fun _ _ => 800%N;
     ResultGenPreparation.requestByteLength := fun _ => 1200%N;
     ResultGenPreparation.today := "2026-01-01" |}.

Definition request111 : ResultGenPreparation.Request :=
  {| ResultGenPreparation.custom_id := "NCT00000001__111";
     ResultGenPreparation.registration :=
       ResultGenPreparation.cleanedRegistration trial1;
     ResultGenPreparation.publication := pub "111" None ["linked_at_registration"] |}.

(** Four candidate publications of the sample trial and their stored
    classifications: 111 and 222 positive, 333 negative, 444 unreadable. *)
Definition fourPublications : gmap string PubData :=
  {[ "NCT00000001" :=
       {| publications :=
            Some [ pub "111" (Some "2020-01") ["linked_at_registration"; "pubmed_naive"];
                   pub "222" (Some "2020") ["pubmed_naive"];
                   pub "333" (Some "2019") ["google_scholar"];
                   pub "444" None ["google_scholar"] ];
          errors := None |} ]}.

Definition classification (yes : bool) : Finalize.ResultFile :=
  Finalize.Json
    {| Finalize.content :=
         Some {| Finalize.hasResults := Some yes;
                 Finalize.reason := Some "Same trial." |};
       Finalize.tokens := Some 1200;
       Finalize.success := Some true |}.

Definition fourResults : Finalize.ResultDir :=
  {[ "NCT00000001__111" := classification true;
     "NCT00000001__222" := classification true;
     "NCT00000001__333" := classification false;
     "NCT00000001__444" := Finalize.Garbled "Unexpected end of JSON input" ]}.

Definition fourSummary : Finalize.Summary :=
  {| Finalize.nct_id := "NCT00000001";
     Finalize.trial_id := "NCT00000001";
     Finalize.tool_results := true;
     Finalize.has_error := true;
     Finalize.tool_prompted_pmids := "111,222,333,444";
     Finalize.tool_result_pmids := "111,222";
     Finalize.tool_ident_steps := "linked_at_registration,pubmed_naive";
     Finalize.earliest_result_publication := "222";
     Finalize.earliest_result_publication_date := "2020";
     Finalize.failed_publication_discoveries := "";
     Finalize.failed_result_discoveries := "444";
     Finalize.reasons := "PMID111: Same trial.; PMID222: Same trial." |}.

(** The candidates of the min-date scenario of the specification, and a
    candidate whose date is not a date. *)
Definition pubA : Publication := pub "A" (Some "2009-12") ["pubmed_naive"].
Definition pubB : Publication := pub "B" (Some "2012") ["pubmed_naive"].
Definition pubC : Publication := pub "C" None ["linked_at_registration"].
Definition pubU : Publication := pub "555" (Some "unknown") ["google_scholar"].

(** A registry of two strategies: the registry-link strategy of the
    sources, and a stand-in for the PubMed search that returns PMID 222. *)
Definition searchPubmedNaive : Discovery.StrategyFn :=
  {| Discovery.name := "searchPubmedNaive";
     Discovery.call := fun _ =>
       Discovery.Returns
         (Some [ {| pmid := Some "222"; doi := None; title := None;
                    abstract := None; publicationDate := Some "2012-05-01";
                    sources := [] |} ])
         None |}.

Definition twoStrategies : gmap string Discovery.StrategyFn :=
  {[ Discovery.LINKED_AT_REGISTRATION := Discovery.searchLinkedAtRegistration;
     "pubmed_naive" := searchPubmedNaive ]}.

Definition nullRegistrationError : SearchResult :=
  {| results := [];
     fn := Some "searchLinkedAtRegistration";
     error := Some "searchLinkedAtRegistration failed, null registration" |}.

(** A progress file that records a stage and a registration but no input
    path. *)
Definition fileWithoutInput : ProgressFile.Json :=
  ProgressFile.JObject
    [ ("stage", ProgressFile.JString "FINALIZE");
      ("registrations",
       ProgressFile.JObject [("NCT00000001", ProgressFile.JObject [])]) ].

(** A progress file written for another input. *)
Definition fileForOtherInput : ProgressFile.Json :=
  ProgressFile.JObject
    [ ("input", ProgressFile.JString "other.csv");
      ("stage", ProgressFile.JString "FINALIZE") ].

(** A progress file written for the current input. *)
Definition fileForThisInput : ProgressFile.Json :=
  ProgressFile.JObject
    [ ("input", ProgressFile.JString "trials.csv");
      ("stage", ProgressFile.JString "PUB_DISCOVERY");
      ("registrations",
       ProgressFile.JObject [("NCT00000001", ProgressFile.JObject [])]) ].

(** A byte cap of floor(10000 * 9/10) = 9000: a chunk holds up to seven of
    the 1200-byte requests, and at most three requests in any case. *)
Definition roomyCap : ResultGenPreparation.Config :=
  {| ResultGenPreparation.systemPromptLength := 400;
     ResultGenPreparation.maxRequestsPerBatch := 3;
     ResultGenPreparation.maxBytesPerBatch := 10000;
     ResultGenPreparation.safetyBuffer := 9 # 10;
     ResultGenPreparation.userPromptLength := fun _ _ => 800%N;
     ResultGenPreparation.requestByteLength := fun _ => 1200%N;
     ResultGenPreparation.today := "2026-01-01" |}.

(** A chunk of 200 tokens ahead of a small one, under a budget of 100. *)
Definition hugeThenSmall : ResultDetection :=
  {| chunks := [pendingChunk 0 200; pendingChunk 1 10];
     dailyTokensUsed := {| date := "2026-01-01"; tokens := 0 |};
     totalEstimatedTokens := 210 |}.

Definition threeMornings : list Step :=
  [ EnterUpload (envOn "2026-01-02" 100); EnterUpload (envOn "2026-01-03" 100);
    EnterUpload (envOn "2026-01-04" 100) ].

(** PMID 222 found twice, with different dates, around PMID 111. *)
Definition foundTwice : list Publication :=
  [ pub "222" (Some "2012") ["pubmed_naive"];
    pub "111" None ["linked_at_registration"];
    pub "222" (Some "1999") ["google_scholar"] ].

(** The record of a run that has reached publication discovery. *)
Definition midRun : ProgressFile.Progress :=
  {| ProgressFile.input := "trials.csv";
     ProgressFile.stage := ProgressFile.JString "PUB_DISCOVERY";
     ProgressFile.batchJobs := ProgressFile.JObject [];
     ProgressFile.rows := ProgressFile.JObject [];
     ProgressFile.registrations :=
       ProgressFile.JObject [("NCT00000001", ProgressFile.JObject [])];
     ProgressFile.publications := ProgressFile.JObject [];
     ProgressFile.skippedCounts := ProgressFile.noSkips;
     ProgressFile.startedAt := ProgressFile.JString "2026-01-01T08:00:00.000Z" |}.

(** Three chunk records as the poll stage finds them: one uploaded, one
    still pending and one already processed. *)
Definition polledChunk (i : Z) (st : string) (batch : option string)
  : ResultGenPoll.Chunk :=
  {| ResultGenPoll.index := i; ResultGenPoll.status := st;
     ResultGenPoll.batchId := batch; ResultGenPoll.outputFileId := None;
     ResultGenPoll.completedAt := None; ResultGenPoll.processedAt := None |}.

Definition oneUploaded : list ResultGenPoll.Chunk :=
  [ polledChunk 0 "uploaded" (Some "batch-0"); polledChunk 1 "pending" None;
    polledChunk 2 "processed" (Some "batch-2") ].

(** A service that reports every batch with the given status. *)
Definition answering (time st : string) (file : option string) : ResultGenPoll.Round :=
  {| ResultGenPoll.now := time;
     ResultGenPoll.retrieve := fun _ =>
       Js.Returned
         {| ResultGenPoll.Service.status := st;
            ResultGenPoll.Service.output_file_id := file |} |}.

(** In progress at the first poll, completed at the second. *)
Definition twoPolls : list ResultGenPoll.Round :=
  [ answering "2026-01-02T09:00:00.000Z" "in_progress" None;
    answering "2026-01-02T09:01:00.000Z" "completed" (Some "file-out-0") ].

(** Chunk 0 completed with an output file of three lines; chunk 1 still
    pending. *)
Definition oneCompleted : list ResultGenPoll.Chunk :=
  [ {| ResultGenPoll.index := 0; ResultGenPoll.status := "completed";
       ResultGenPoll.batchId := Some "batch-0";
       ResultGenPoll.outputFileId := Some "file-out-0";
       ResultGenPoll.completedAt := Some "2026-01-02T09:01:00.000Z";
       ResultGenPoll.processedAt := None |};
    polledChunk 1 "pending" None ].

Definition outputLines : list ResultGenProcess.Line :=
  [ ResultGenProcess.Classified "NCT00000001__111"
      (Some {| Finalize.hasResults := Some true;
               Finalize.reason := Some "Same trial." |})
      (Some 1200);
    ResultGenProcess.Failed "NCT00000001__222";
    ResultGenProcess.Classified "NCT00000001__333"
      (Some {| Finalize.hasResults := Some false; Finalize.reason := None |})
      (Some 900) ].

Definition processEnv : ResultGenProcess.Env :=
  {| ResultGenProcess.now := "2026-01-02T09:02:00.000Z";
     ResultGenProcess.download := fun _ => Js.Returned outputLines |}.

(** A discovery that finds, for every trial, a publication from 2001 and the
    publications A (2009-12) and C (undated), in a run without validation. *)
Definition pubOld : Publication := pub "100" (Some "2001-05") ["pubmed_naive"].

Definition discoveryEnv : PubDiscovery.Env :=
  {| PubDiscovery.validationRun := false;
     PubDiscovery.publicationDiscovery := fun _ => Js.Returned ([pubOld; pubA; pubC], []);
     PubDiscovery.parseDate := Js.isoDateTime |}.

Definition noProgress : PubDiscovery.Progress :=
  {| PubDiscovery.stored := ∅; PubDiscovery.noRegistration := 0;
     PubDiscovery.rowErrors := [] |}.

(** The sample trial with a start date that is not a date. *)
Definition trialWithBadStart : gmap string Registration :=
  {[ "NCT00000001" :=
       {| trialId := "NCT00000001"; startDate := Some "unknown";
          hasResults := None; linkedPubmedIds := None; references := None |} ]}.

(** A cache configured to keep PubMed searches for an hour, at the given
    instant (in milliseconds). *)
Definition cacheAt (time : Z) : Cache.Env :=
  {| Cache.now := time; Cache.writeTime := time;
     Cache.ttlConfig := Some {[ "pubmed_naive" := 3600; "default" := 604800 ]};
     Cache.canWrite := true |}.

Definition searchResult : ProgressFile.Json :=
  ProgressFile.JObject
    [("results", ProgressFile.JArray [ProgressFile.JObject [("pmid", ProgressFile.JString "222")]])].

(** Registry clients that know the sample trial only. *)
Definition registryClients : Prep.Env :=
  {| Prep.fetchCtgov := fun id =>
       if String.eqb id "NCT00000001" then Js.Returned (Some trial1)
       else Js.Threw "Not found";
     Prep.discoverEuctr := fun _ => Js.Threw "Not found";
     Prep.discoverDrks := fun _ => Js.Threw "Not found" |}.

(** A row of the sample trial, a row without trial id and a row with an
    identifier of another registry. *)
Definition threeRows : list Row :=
  [ [("nct_id", " NCT00000001 ")]; [("title", "A trial")];
    [("trial_id", "ISRCTN12345678")] ].

Definition nothingPrepared : Prep.Progress :=
  {| Prep.registrations := ∅; Prep.noTrialId := 0; Prep.rowErrors := [] |}.

End Samples.

(* ===================================================================== *)
(** * Part II: lemmas and theorems                                         *)
(* ===================================================================== *)

(** ** The JavaScript helpers *)

Section SortFacts.
Context {A : Type} (lt : A -> A -> bool).

Lemma insert_sorted_perm (x : A) (l : list A) :
  Permutation (x :: l) (Js.insert_sorted lt x l).
Proof.
  induction l as [|y l IH]; simpl; [reflexivity|].
  destruct (lt y x); [|reflexivity].
  rewrite perm_swap. now apply perm_skip.
Qed.

Lemma sort_perm (l : list A) : Permutation l (Js.sort lt l).
Proof.
  induction l as [|x l IH]; simpl; [constructor|].
  rewrite <- insert_sorted_perm. now apply perm_skip.
Qed.

Lemma sort_In (l : list A) (x : A) : In x (Js.sort lt l) <-> In x l.
Proof.
  split; apply Permutation_in; [symmetry|]; apply sort_perm.
Qed.

Lemma sort_nil_inv (l : list A) : Js.sort lt l = [] -> l = [].
Proof.
  intros H. apply Permutation_nil. rewrite <- H. symmetry. apply sort_perm.
Qed.
End SortFacts.

Section SortOrder.
Context {A : Type} (lt : A -> A -> bool).
Hypothesis lt_asym : forall a b, lt a b = true -> lt b a = false.

(** [a] may stand before [b]. *)
Let ordered (a b : A) : Prop := lt b a = false.

Lemma insert_sorted_Sorted (x : A) (l : list A) :
  Sorted ordered l -> Sorted ordered (Js.insert_sorted lt x l).
Proof.
  induction 1 as [|y l Hl IH Hhd]; simpl.
  - repeat constructor.
  - destruct (lt y x) eqn:E.
    + constructor; [exact IH|].
      destruct Hhd as [|z l' Hz]; simpl.
      * constructor. now apply lt_asym.
      * destruct (lt z x); constructor; [exact Hz|now apply lt_asym].
    + constructor; [now constructor|]. constructor. exact E.
Qed.

Lemma sort_Sorted (l : list A) : Sorted ordered (Js.sort lt l).
Proof.
  induction l as [|x l IH]; simpl; [constructor|].
  now apply insert_sorted_Sorted.
Qed.
End SortOrder.


(** *** The order of strings under [<] *)

Lemma ascii_compare_lt_trans (x y z : ascii) :
  Ascii.compare x y = Lt -> Ascii.compare y z = Lt -> Ascii.compare x z = Lt.
Proof.
  unfold Ascii.compare. rewrite !N.compare_lt_iff. lia.
Qed.

Lemma string_compare_refl (s : string) : String.compare s s = Eq.
Proof.
  induction s as [|c s IH]; simpl; [reflexivity|].
  unfold Ascii.compare. now rewrite N.compare_refl.
Qed.

(** [a <= b] and [b <= c] give [a <= c], where [s <= t] says that [t < s]
    is false. *)
Lemma string_compare_le_trans (a b c : string) :
  String.compare a b <> Gt -> String.compare b c <> Gt ->
  String.compare a c <> Gt.
Proof.
  revert b c. induction a as [|x a IH]; intros b c Hab Hbc.
  - destruct c; simpl; congruence.
  - destruct b as [|y b]; simpl in Hab; [congruence|].
    destruct c as [|z c]; simpl in Hbc; [congruence|]. simpl.
    destruct (Ascii.compare x y) eqn:Exy; [| |congruence].
    + apply Ascii.compare_eq_iff in Exy. subst y.
      destruct (Ascii.compare x z) eqn:Exz; [|congruence|congruence].
      now apply IH with b.
    + destruct (Ascii.compare y z) eqn:Eyz; [| |congruence].
      * apply Ascii.compare_eq_iff in Eyz. subst z. rewrite Exy. congruence.
      * rewrite (ascii_compare_lt_trans x y z Exy Eyz). congruence.
Qed.

Lemma str_lt_false_iff (a b : string) :
  Js.str_lt a b = false <-> String.compare b a <> Gt.
Proof.
  unfold Js.str_lt, String.ltb. rewrite (String.compare_antisym b a).
  destruct (String.compare a b); simpl; split; congruence.
Qed.

Lemma str_lt_asym (a b : string) :
  Js.str_lt a b = true -> Js.str_lt b a = false.
Proof.
  unfold Js.str_lt, String.ltb. rewrite (String.compare_antisym a b).
  destruct (String.compare b a); simpl; congruence.
Qed.

Lemma str_lt_irrefl (a : string) : Js.str_lt a a = false.
Proof. unfold Js.str_lt, String.ltb. now rewrite string_compare_refl. Qed.

(** *** The head of a sorted array is a least element *)

Section SortHead.
Context {A : Type} (key : A -> string).

Let byKey (a b : A) : bool := Js.str_lt (key a) (key b).

Lemma sort_head_least (l : list A) (e : A) :
  head (Js.sort byKey l) = Some e ->
  In e l /\ forall r, In r l -> Js.str_lt (key r) (key e) = false.
Proof.
  intros Hhd.
  assert (Sorted (fun a b => byKey b a = false) (Js.sort byKey l)) as Hs.
  { apply sort_Sorted. intros a b. apply str_lt_asym. }
  apply Sorted_StronglySorted in Hs.
  - destruct (Js.sort byKey l) as [|x rest] eqn:E; [discriminate|].
    injection Hhd as ->. split.
    + apply (sort_In byKey). rewrite E. now left.
    + intros r Hr. apply (sort_In byKey) in Hr. rewrite E in Hr.
      destruct Hr as [<-|Hr]; [apply str_lt_irrefl|].
      inversion Hs as [|? ? _ Hall]; subst.
      rewrite List.Forall_forall in Hall. now apply Hall.
  - intros a b c Hab Hbc. unfold byKey in *.
    rewrite str_lt_false_iff in *.
    now apply string_compare_le_trans with (key b).
Qed.

Lemma sort_head_some (l : list A) :
  l <> [] -> exists e, head (Js.sort byKey l) = Some e.
Proof.
  intros Hne. destruct (Js.sort byKey l) as [|x rest] eqn:E.
  - apply sort_nil_inv in E. contradiction.
  - now exists x.
Qed.
End SortHead.

(** *** [filter(Boolean)], [new Set] and [join] *)

Lemma filterTruthy_In (xs : list (option string)) (s : string) :
  In s (Js.filterTruthy xs) <-> s <> "" /\ In (Some s) xs.
Proof.
  induction xs as [|[x|] xs IH]; simpl.
  - tauto.
  - destruct (String.eqb_spec x "") as [->|Hx]; simpl; rewrite IH.
    + split; [tauto|]. intros [Hs [H|H]]; [congruence|tauto].
    + split.
      * intros [<-|[? ?]]; tauto.
      * intros [Hs [H|H]]; [left; congruence|tauto].
  - rewrite IH. split; [tauto|]. intros [Hs [H|H]]; [congruence|tauto].
Qed.

Lemma filterTruthy_all (xs : list (option string)) :
  Forall (fun x => Js.truthy x = true) xs ->
  length (Js.filterTruthy xs) = length xs.
Proof.
  induction 1 as [|x xs Hx _ IH]; simpl; [reflexivity|].
  destruct x as [x|]; simpl in Hx; [|discriminate].
  destruct (String.eqb x ""); simpl in *; [discriminate|]. now rewrite IH.
Qed.

Lemma existsb_eqb_In (x : string) (seen : list string) :
  existsb (String.eqb x) seen = true <-> In x seen.
Proof.
  rewrite existsb_exists. split.
  - intros (y & Hy & E). apply String.eqb_eq in E. now subst.
  - intros H. exists x. split; [exact H|apply String.eqb_refl].
Qed.

Lemma uniq_acc_In (seen xs : list string) (s : string) :
  In s (Js.uniq_acc seen xs) <-> In s xs /\ ~ In s seen.
Proof.
  revert seen. induction xs as [|x xs IH]; intros seen; simpl; [tauto|].
  destruct (existsb (String.eqb x) seen) eqn:E.
  - apply existsb_eqb_In in E. rewrite IH. split; [tauto|].
    intros [[<-|H] Hn]; tauto.
  - assert (~ In x seen) as Hx.
    { intros H. apply existsb_eqb_In in H. congruence. }
    simpl. rewrite IH. simpl. split.
    + intros [<-|[H Hn]]; tauto.
    + intros [[<-|H] Hn]; [now left|].
      destruct (String.eqb_spec x s) as [->|Hne]; [now left|]. right. tauto.
Qed.

Lemma uniq_acc_NoDup (seen xs : list string) : NoDup (Js.uniq_acc seen xs).
Proof.
  revert seen. induction xs as [|x xs IH]; intros seen; simpl; [constructor|].
  destruct (existsb (String.eqb x) seen); [apply IH|].
  apply NoDup_cons. split; [|apply IH].
  rewrite list_elem_of_In, uniq_acc_In. simpl. tauto.
Qed.

Lemma uniq_In (xs : list string) (s : string) : In s (Js.uniq xs) <-> In s xs.
Proof. unfold Js.uniq. rewrite uniq_acc_In. simpl. tauto. Qed.

Lemma uniq_NoDup (xs : list string) : NoDup (Js.uniq xs).
Proof. apply uniq_acc_NoDup. Qed.

Lemma NoDup_List_filter {X : Type} (p : X -> bool) (l : list X) :
  NoDup l -> NoDup (List.filter p l).
Proof.
  induction 1 as [|x l Hx Hl IH]; simpl; [constructor|].
  destruct (p x); [|exact IH].
  apply NoDup_cons. split; [|exact IH].
  rewrite list_elem_of_In, filter_In. rewrite list_elem_of_In in Hx. tauto.
Qed.

Lemma append_nil_inv (a b : string) : String.append a b = "" -> a = "".
Proof. destruct a; simpl; [reflexivity|discriminate]. Qed.

(** Joining a non-empty array whose first element is not empty gives a
    non-empty string. *)
Lemma join_nonempty (sep x : string) (rest : list string) :
  x <> "" -> Js.join sep (x :: rest) <> "".
Proof.
  intros Hx. unfold Js.join. simpl. destruct rest as [|y rest]; [exact Hx|].
  intros H. apply append_nil_inv in H. contradiction.
Qed.
(** ** stageResultGenUpload *)

Section UploadFacts.
Import ResultGenUpload.

Lemma sumTokens_app (a b : list Chunk) :
  sumTokens (a ++ b) = sumTokens a + sumTokens b.
Proof. induction a as [|c a IH]; simpl; [reflexivity|]. rewrite IH. lia. Qed.

Lemma sumTokens_nonneg (cs : list Chunk) :
  Forall (fun c => 0 <= estimatedTokens c) cs -> 0 <= sumTokens cs.
Proof. induction 1; simpl; lia. Qed.

Lemma chunksToUpload_prefix (b : Z) (pend : list (nat * Chunk)) :
  chunksToUpload b pend `prefix_of` pend.
Proof.
  revert b. induction pend as [|pc rest IH]; intros b; simpl.
  - reflexivity.
  - destruct (estimatedTokens pc.2 <=? b).
    + apply prefix_cons, IH.
    + apply prefix_nil.
Qed.

(** Whatever is selected fits the budget the loop started with. *)
Lemma chunksToUpload_fits (b : Z) (pend : list (nat * Chunk)) :
  chunksToUpload b pend <> [] -> tokensOf (chunksToUpload b pend) <= b.
Proof.
  revert b. induction pend as [|pc rest IH]; intros b; simpl; [congruence|].
  destruct (Z.leb_spec (estimatedTokens pc.2) b) as [Hle|Hgt]; [|congruence].
  intros _. unfold tokensOf in *. simpl.
  destruct (chunksToUpload (b - estimatedTokens pc.2) rest) eqn:E.
  - simpl. lia.
  - assert (chunksToUpload (b - estimatedTokens pc.2) rest <> []) as Hne
    by (rewrite E; congruence).
    specialize (IH _ Hne). rewrite E in IH. lia.
Qed.

(** With non-negative estimates no longer prefix fits. *)
Lemma chunksToUpload_maximal (b : Z) (pend p : list (nat * Chunk)) :
  Forall (fun pc => 0 <= estimatedTokens pc.2) pend ->
  p `prefix_of` pend -> tokensOf p <= b ->
  p `prefix_of` chunksToUpload b pend.
Proof.
  intros Hnn. revert b p.
  induction Hnn as [|pc rest Hpc Hrest IH]; intros b p Hpre Hsum.
  - apply prefix_nil_inv in Hpre. subst. reflexivity.
  - destruct p as [|q p']; [apply prefix_nil|].
    destruct Hpre as [k Hk]. simpl in Hk. injection Hk as -> Hk'.
    assert (Forall (fun pc => 0 <= estimatedTokens pc.2) p') as Hp'.
    { subst rest. now apply Forall_app in Hrest as [? _]. }
    assert (0 <= tokensOf p') as Hp'nn.
    { unfold tokensOf. apply sumTokens_nonneg.
      rewrite Forall_map. exact Hp'. }
    unfold tokensOf in *. simpl in Hsum. simpl.
    destruct (Z.leb_spec (estimatedTokens q.2) b) as [Hle|Hgt]; [|lia].
    apply prefix_cons, IH; [exists k; exact Hk'|lia].
Qed.

Lemma chunksToUpload_nil_iff (b : Z) (pc : nat * Chunk) (rest : list (nat * Chunk)) :
  chunksToUpload b (pc :: rest) = [] <-> b < estimatedTokens pc.2.
Proof.
  simpl. destruct (Z.leb_spec (estimatedTokens pc.2) b); split;
  intros; try congruence; lia.
Qed.

Lemma uploadAll_tokens (env : Env) (sel : list (nat * Chunk))
(cs : list Chunk) (d : DailyTokens) :
tokens (uploadAll env sel cs d).2 = tokens d + tokensOf sel
/\ date (uploadAll env sel cs d).2 = date d.
Proof.
revert cs d. induction sel as [|[i c] sel IH]; intros cs d; simpl.
- unfold tokensOf. simpl. split; [lia|reflexivity].
- destruct (IH (<[i:=markUploaded env c]> cs)
        {| date := date d; tokens := tokens d + estimatedTokens c |})
as [Ht Hd].
rewrite Ht, Hd. unfold tokensOf. simpl. split; [lia|reflexivity].
Qed.

Lemma withPositions_In (cs : list Chunk) (i : nat) (c : Chunk) :
  In (i, c) (withPositions cs) -> In c cs.
Proof. unfold withPositions. apply in_combine_r. Qed.

Lemma pendingChunks_In (cs : list Chunk) (pc : nat * Chunk) :
  In pc (pendingChunks cs) -> In pc.2 cs /\ status pc.2 = pending.
Proof.
  unfold pendingChunks. rewrite sort_In, filter_In.
  intros [Hin Hp]. destruct pc as [i c]. simpl in *. split.
  - eapply withPositions_In; eassumption.
  - destruct (status c); simpl in Hp; congruence.
Qed.

Lemma pendingChunks_nonneg (cs : list Chunk) :
  Forall (fun c => 0 <= estimatedTokens c) cs ->
  Forall (fun pc => 0 <= estimatedTokens pc.2) (pendingChunks cs).
Proof.
  intros H. apply List.Forall_forall. intros pc Hin.
  apply pendingChunks_In in Hin as [Hin _].
  rewrite List.Forall_forall in H. now apply H.
Qed.

Lemma resetIfNewDay_date (t : string) (d : DailyTokens) :
  date (resetIfNewDay t d) = t.
Proof.
  unfold resetIfNewDay. destruct (String.eqb_spec (date d) t); [assumption|reflexivity].
Qed.

Lemma resetIfNewDay_tokens (t : string) (d : DailyTokens) :
  tokens (resetIfNewDay t d) = if String.eqb (date d) t then tokens d else 0.
Proof. unfold resetIfNewDay. now destruct (String.eqb (date d) t). Qed.

(** What one entry of the stage saves, in terms of the budget. *)
Lemma stage_saved (env : Env) (rd rd' : ResultDetection) (next : Stage)
  (ups : list Chunk) :
  stageResultGenUpload env (Some rd) = Saved rd' next ups ->
  let d := resetIfNewDay (today env) (dailyTokensUsed rd) in
  date (dailyTokensUsed rd') = today env
  /\ tokens (dailyTokensUsed rd') = tokens d + sumTokens ups
  /\ (ups = [] \/ sumTokens ups <= maxTokensPerDay env - tokens d).
Proof.
  intros H d. unfold stageResultGenUpload in H. fold d in H.
  destruct (pendingChunks (chunks rd)) as [|nx pend] eqn:Ep.
  - injection H as <- <- <-. simpl.
    split; [apply resetIfNewDay_date|]. split; [lia|now left].
  - destruct (chunksToUpload (maxTokensPerDay env - tokens d) (nx :: pend))
    as [|s sel] eqn:Es; [discriminate|].
    destruct (uploadAll env (s :: sel) (chunks rd) d) as [cs' d'] eqn:Eu.
    injection H as <- <- <-. simpl.
    pose proof (uploadAll_tokens env (s :: sel) (chunks rd) d) as [Ht Hd].
    rewrite Eu in Ht, Hd. simpl in Ht, Hd.
    split; [rewrite Hd; apply resetIfNewDay_date|].
    split; [exact Ht|]. right.
    pose proof (chunksToUpload_fits (maxTokensPerDay env - tokens d) (nx :: pend)) as Hf.
    rewrite Es in Hf. apply Hf. congruence.
Qed.

End UploadFacts.


Section UploadAliasing.
Import ResultGenUpload.

Lemma withPositions_lookup (cs : list Chunk) (k i : nat) (c : Chunk) :
  In (i, c) (combine (seq k (length cs)) cs) -> (k <= i)%nat /\ cs !! (i - k)%nat = Some c.
Proof.
  revert k. induction cs as [|x cs IH]; intros k; simpl; [tauto|].
  intros [H|H].
  - injection H as <- <-. split; [lia|]. now rewrite Nat.sub_diag.
  - apply IH in H as [Hle Hl]. split; [lia|].
    replace (i - k)%nat with (S (i - S k)) by lia. exact Hl.
Qed.

Lemma withPositions_fst (cs : list Chunk) (k : nat) :
  map fst (combine (seq k (length cs)) cs) = seq k (length cs).
Proof.
  revert k. induction cs as [|x cs IH]; intros k; simpl; [reflexivity|].
  now rewrite IH.
Qed.

Lemma withPositions_faithful (cs : list Chunk) : faithful cs (withPositions cs).
Proof.
  split.
  - unfold withPositions. rewrite withPositions_fst. apply NoDup_seq.
  - intros i c H. apply withPositions_lookup in H as [_ H].
    now rewrite Nat.sub_0_r in H.
Qed.

Lemma NoDup_map_filter {X Y : Type} (f : X -> Y) (p : X -> bool) (l : list X) :
  NoDup (map f l) -> NoDup (map f (List.filter p l)).
Proof.
  induction l as [|x l IH]; simpl; [trivial|].
  rewrite NoDup_cons. intros [Hx Hl].
  destruct (p x); simpl; [|now apply IH].
  apply NoDup_cons. split; [|now apply IH].
  intros Hin. apply Hx.
  apply list_elem_of_In in Hin. apply list_elem_of_In.
  apply in_map_iff in Hin as (y & Hy & Hin). apply in_map_iff.
  exists y. split; [exact Hy|]. now apply filter_In in Hin as [? _].
Qed.

Lemma pendingChunks_faithful (cs : list Chunk) : faithful cs (pendingChunks cs).
Proof.
  destruct (withPositions_faithful cs) as [Hnd Hl]. split.
  - unfold pendingChunks.
    match goal with |- NoDup (map fst (Js.sort ?lt ?l)) =>
    pose proof (Permutation_map fst (sort_perm lt l)) as HP end.
    rewrite <- HP. now apply NoDup_map_filter.
  - intros i c H. apply Hl. unfold pendingChunks in H.
    rewrite sort_In, filter_In in H. tauto.
Qed.

Lemma faithful_prefix (cs : list Chunk) (sel pend : list (nat * Chunk)) :
  sel `prefix_of` pend -> faithful cs pend -> faithful cs sel.
Proof.
  intros [k ->] [Hnd Hl]. split.
  - rewrite map_app in Hnd. now apply NoDup_app in Hnd as [? _].
  - intros i c H. apply Hl. apply in_or_app. now left.
Qed.

(** The upload tasks rewrite exactly the selected chunk objects. *)
Lemma uploadAll_chunks (env : Env) (sel : list (nat * Chunk))
    (cs : list Chunk) (d : DailyTokens) :
  faithful cs sel ->
  (forall i c, In (i, c) sel ->
     (uploadAll env sel cs d).1 !! i = Some (markUploaded env c))
  /\ (forall i, ~ In i (map fst sel) -> (uploadAll env sel cs d).1 !! i = cs !! i).
Proof.
  revert cs d. induction sel as [|[j x] sel IH]; intros cs d [Hnd Hl]; simpl.
  - split; [tauto|reflexivity].
  - simpl in Hnd. apply NoDup_cons in Hnd as [Hj Hnd].
    assert (faithful (<[j:=markUploaded env x]> cs) sel) as Hf.
    { split; [exact Hnd|]. intros i c Hin.
      rewrite list_lookup_insert_ne.
      - apply Hl. now right.
      - intros ->. apply Hj. apply list_elem_of_In.
        apply in_map_iff. now exists (i, c). }
    destruct (IH (<[j:=markUploaded env x]> cs)
                {| date := date d; tokens := tokens d + estimatedTokens x |} Hf)
      as [IH1 IH2].
    split.
    + intros i c [H|H].
      * injection H as Hi Hc. subst j x. rewrite IH2.
        -- apply list_lookup_insert_eq.
           apply lookup_lt_Some with c. apply Hl. now left.
        -- intros Hin. apply Hj. now apply list_elem_of_In.
      * now apply IH1.
    + intros i Hni. rewrite IH2 by tauto.
      apply list_lookup_insert_ne. intros ->. apply Hni. now left.
Qed.

End UploadAliasing.

Arguments ResultGenUpload.stageResultGenUpload : simpl never.

Section UploadRuns.
Import ResultGenUpload.

Lemma uploadedOn_absent (d : string) (steps : list Step) (rd : ResultDetection) :
  ~ In d (days steps) -> uploadedOn d (run steps rd) = 0.
Proof.
  revert rd. induction steps as [|[env|f] steps IH]; intros rd Hni; simpl in *.
  - reflexivity.
  - destruct (stageResultGenUpload env (Some rd)) as [e|rd' next ups].
    + apply IH. tauto.
    + simpl. destruct (String.eqb_spec (today env) d) as [E|_]; [tauto|].
      rewrite IH by tauto. reflexivity.
  - now apply IH.
Qed.

Lemma chronological_tail (a : string) (ds : list string) :
  chronological (a :: ds) -> chronological ds.
Proof. intros H. now inversion H. Qed.

Lemma chronological_skip (a b : string) (ds : list string) :
  chronological (a :: b :: ds) -> chronological (a :: ds).
Proof.
  intros H. inversion H as [|? ? Hs Hf]; subst.
  inversion Hs; subst. inversion Hf; subst. now constructor.
Qed.

(** A day that was left does not come back. *)
Lemma chronological_left (a b : string) (ds : list string) :
  chronological (a :: b :: ds) -> a <> b -> ~ In a ds.
Proof.
  intros H Hne Hin. inversion H as [|? ? Hs Hf]; subst.
  inversion Hf as [|? ? Hab _]; subst.
  inversion Hs as [|? ? _ Hb]; subst.
  rewrite List.Forall_forall in Hb. specialize (Hb _ Hin).
  apply Hne. now apply String.leb_antisym.
Qed.

(** The running total of a day never passes what the counter of that day
    leaves of the budget. *)
Lemma run_bound (m : Z) (steps : list Step) :
  0 <= m ->
  forall (rd : ResultDetection) (d : string),
    sameBudget m steps ->
    chronological (date (dailyTokensUsed rd) :: days steps) ->
    uploadedOn d (run steps rd)
    <= if String.eqb d (date (dailyTokensUsed rd))
       then Z.max 0 (m - tokens (dailyTokensUsed rd)) else m.
Proof.
  intros Hm. induction steps as [|[env|f] steps IH]; intros rd d Hsb Hch; simpl.
  - destruct (String.eqb d (date (dailyTokensUsed rd))); lia.
  - inversion Hsb as [|? ? Hmax Hsb']; subst. simpl in Hch.
    destruct (stageResultGenUpload env (Some rd)) as [e|rd' next ups] eqn:Est.
    + apply IH; [exact Hsb'|]. eapply chronological_skip; eassumption.
    + apply stage_saved in Est as (Hdate & Htok & Hfit).
      rewrite resetIfNewDay_tokens in Htok, Hfit.
      assert (chronological (date (dailyTokensUsed rd') :: days steps)) as Hch'.
      { rewrite Hdate. eapply chronological_tail; eassumption. }
      pose proof (IH rd' d Hsb' Hch') as Hrest. rewrite Hdate in Hrest.
      simpl.
      destruct (String.eqb_spec (today env) d) as [Htd|Htd].
      * subst d. rewrite String.eqb_refl in Hrest.
        destruct (String.eqb_spec (today env) (date (dailyTokensUsed rd)))
          as [Hsame|Hnew].
        -- rewrite <- Hsame, String.eqb_refl in Htok, Hfit.
           destruct Hfit as [->|Hfit]; simpl in *; lia.
        -- destruct (String.eqb_spec (date (dailyTokensUsed rd)) (today env))
             as [E|_]; [congruence|].
           destruct Hfit as [->|Hfit]; simpl in *; lia.
      * destruct (String.eqb_spec d (today env)) as [E|_]; [congruence|].
        destruct (String.eqb_spec d (date (dailyTokensUsed rd))) as [Hd|Hd]; [|lia].
        subst d. rewrite uploadedOn_absent; [lia|].
        eapply chronological_left; [eassumption|congruence].
  - apply (IH {| chunks := f (chunks rd);
                 dailyTokensUsed := dailyTokensUsed rd;
                 totalEstimatedTokens := totalEstimatedTokens rd |} d).
    + now inversion Hsb.
    + exact Hch.
Qed.

End UploadRuns.


(** The daily-budget scenario of the specification: a budget of 100 and
    three pending chunks of 60.  Each day takes one chunk, lowest index
    first; the second entry on the same day raises the quota error and
    uploads nothing. *)
Example upload_one_chunk_per_day :
  ResultGenUpload.run Samples.twoDays Samples.threeChunks
  = [ ("2026-01-02", [Samples.pendingChunk 0 60]);
      ("2026-01-03", [Samples.pendingChunk 1 60]) ].
Proof. vm_compute. reflexivity. Qed.

(** The selection stops at the first pending chunk that does not fit: with
    40 tokens left, a chunk of 60 at the head raises the error although the
    chunk of 10 behind it would fit on its own. *)
Example upload_stops_at_first_misfit :
  ResultGenUpload.stageResultGenUpload (Samples.envOn "2026-01-02" 90)
    (Some Samples.largeThenSmall)
  = ResultGenUpload.Threw
      (ResultGenUpload.DailyQuotaExhausted 50 (Samples.pendingChunk 0 60)).
Proof. vm_compute. reflexivity. Qed.


(** ** stageResultGenPreparation *)

Section PreparationFacts.
Import ResultGenPreparation.
Variable cfg : Config.

Lemma sumBytes_app (a b : list Request) :
  sumBytes cfg (a ++ b) = sumBytes cfg a + sumBytes cfg b.
Proof. induction a as [|r a IH]; simpl; [reflexivity|]. rewrite IH. lia. Qed.

Lemma requestBytes_nonneg (r : Request) : 0 <= requestBytes cfg r.
Proof. unfold requestBytes. lia. Qed.

Lemma sumBytes_nonneg (reqs : list Request) : 0 <= sumBytes cfg reqs.
Proof.
  induction reqs as [|r reqs IH]; simpl; [lia|].
  pose proof (requestBytes_nonneg r). lia.
Qed.

Lemma sumBytes_member (reqs : list Request) (r : Request) :
  In r reqs -> requestBytes cfg r <= sumBytes cfg reqs.
Proof.
  induction reqs as [|x reqs IH]; simpl; [tauto|].
  pose proof (requestBytes_nonneg x) as Hx. pose proof (sumBytes_nonneg reqs) as Hs.
  intros [->|Hin]; [lia|]. specialize (IH Hin). lia.
Qed.

Lemma packInv_initial : packInv cfg [] initialPacking.
Proof.
  split; [|split].
  - intros c [<-|[]]. split.
    + split; [reflexivity|]. left. simpl. lia.
    + intros r [].
  - intros r [].
  - congruence.
Qed.

Lemma packInv_step (done : list Request) (st : Packing) (r : Request) :
  packInv cfg done st -> packInv cfg (done ++ [r]) (addRequest cfg st r).
Proof.
  intros (Hc & Hd & _). unfold addRequest, allChunks in *.
  destruct (overflows cfg (currentChunk st) r) eqn:Eo; simpl.
  - (* sealed, new chunk holding r alone *)
    split; [|split].
    + intros c Hin. apply in_app_or in Hin as [Hin|[<-|[]]].
      * destruct (Hc c Hin) as [Hi Hs]. split; [exact Hi|].
        intros x Hx. apply in_or_app. left. now apply Hs.
      * split.
        -- split; simpl; [lia|]. left. lia.
        -- intros x [<-|[]]. apply in_or_app. right. now left.
    + intros x Hx. apply in_app_or in Hx as [Hx|[<-|[]]].
      * destruct (Hd x Hx) as (c & Hin & Hxc).
        exists c. split; [|exact Hxc]. apply in_or_app. now left.
      * eexists. split; [apply in_or_app; right; left; reflexivity|].
        simpl. now left.
    + simpl. congruence.
  - (* added to the current chunk *)
    unfold overflows in Eo. apply orb_false_iff in Eo as [Ecnt Ebytes].
    apply Z.leb_gt in Ecnt. apply Z.ltb_ge in Ebytes.
    split; [|split].
    + intros c Hin. apply in_app_or in Hin as [Hin|[<-|[]]].
      * assert (In c (sealed st ++ [currentChunk st])) as Hin'
          by (apply in_or_app; now left).
        destruct (Hc c Hin') as [Hi Hs].
        split; [exact Hi|]. intros x Hx. apply in_or_app. left. now apply Hs.
      * assert (In (currentChunk st) (sealed st ++ [currentChunk st])) as Hin'
          by (apply in_or_app; right; now left).
        destruct (Hc (currentChunk st) Hin') as [[Hb _] Hs].
        split.
        -- split; simpl.
           ++ rewrite sumBytes_app, Hb. simpl. lia.
           ++ right. rewrite length_app. simpl. lia.
        -- simpl. intros x Hx. apply in_app_or in Hx as [Hx|[<-|[]]];
             apply in_or_app; [left; now apply Hs|right; now left].
    + intros x Hx. apply in_app_or in Hx as [Hx|[<-|[]]].
      * destruct (Hd x Hx) as (c & Hin & Hxc).
        apply in_app_or in Hin as [Hin|[<-|[]]].
        -- exists c. split; [apply in_or_app; now left|exact Hxc].
        -- eexists. split; [apply in_or_app; right; left; reflexivity|].
           simpl. apply in_or_app. now left.
      * eexists. split; [apply in_or_app; right; left; reflexivity|].
        simpl. apply in_or_app. right. now left.
    + simpl. intros _ H. now apply app_eq_nil in H as [_ ?].
Qed.

Lemma packInv_fold (reqs done : list Request) (st : Packing) :
  packInv cfg done st -> packInv cfg (done ++ reqs) (fold_left (addRequest cfg) reqs st).
Proof.
  revert done st. induction reqs as [|r reqs IH]; intros done st H; simpl.
  - now rewrite app_nil_r.
  - replace (done ++ r :: reqs) with ((done ++ [r]) ++ reqs)
      by now rewrite <- app_assoc.
    apply IH. now apply packInv_step.
Qed.

Lemma packInv_pack (reqs : list Request) : packInv cfg reqs (pack cfg reqs).
Proof. apply (packInv_fold reqs [] initialPacking), packInv_initial. Qed.

Lemma writtenChunks_incl (st : Packing) (c : WorkChunk) :
  In c (writtenChunks st) -> In c (allChunks st).
Proof.
  unfold writtenChunks, allChunks. destruct (requests (currentChunk st)); [|trivial].
  intros H. apply in_or_app. now left.
Qed.

(** A chunk with requests is among the written ones. *)
Lemma writtenChunks_nonempty (st : Packing) (c : WorkChunk) :
  In c (allChunks st) -> requests c <> [] -> In c (writtenChunks st).
Proof.
  unfold writtenChunks, allChunks. intros Hin Hne.
  destruct (requests (currentChunk st)) eqn:E; [|exact Hin].
  apply in_app_or in Hin as [Hin|[<-|[]]]; [exact Hin|congruence].
Qed.

(** A request larger than the cap is the only request of its chunk. *)
Lemma oversized_alone (c : WorkChunk) (r : Request) :
  chunkInv cfg c -> In r (requests c) ->
  effectiveMaxBytes cfg < requestBytes cfg r -> requests c = [r].
Proof.
  intros [Hb [Hlen|[_ Hfit]]] Hin Hbig.
  - destruct (requests c) as [|x [|y l]]; simpl in *; [tauto| |lia].
    destruct Hin as [->|[]]. reflexivity.
  - pose proof (sumBytes_member _ _ Hin). lia.
Qed.

(** When every request fits on its own and a chunk may hold at least one
    request, every written chunk is within both limits. *)
Lemma writtenChunks_within_limits (reqs : list Request) :
  1 <= maxRequestsPerBatch cfg ->
  (forall r, In r reqs -> requestBytes cfg r <= effectiveMaxBytes cfg) ->
  forall c, In c (writtenChunks (pack cfg reqs)) ->
    Z.of_nat (length (requests c)) <= maxRequestsPerBatch cfg
    /\ bytes c <= effectiveMaxBytes cfg.
Proof.
  intros Hmax Hfit c Hw. pose proof (writtenChunks_incl _ _ Hw) as Hin.
  destruct (packInv_pack reqs) as (Hc & Hd & Hne).
  destruct (Hc c Hin) as [[Hb [Hlen|Hok]] Hs]; [|exact Hok].
  destruct (requests c) as [|x [|y l]] eqn:E; simpl in *; [| |lia].
  - split; [lia|]. destruct reqs as [|r0 reqs'].
    + (* no request at all: nothing is written *)
      exfalso. exact Hw.
    + rewrite Hb. simpl. pose proof (Hfit r0 (or_introl eq_refl)).
      pose proof (requestBytes_nonneg r0). lia.
  - split; [lia|]. rewrite Hb. simpl.
    pose proof (Hfit x (Hs x (or_introl eq_refl))). lia.
Qed.

End PreparationFacts.

Lemma stageResultGenPreparation_Saved (cfg : ResultGenPreparation.Config)
    (rows : list Row) (registrations : gmap string Registration)
    (pubs : gmap string PubData) :
  exists rd next,
    ResultGenPreparation.stageResultGenPreparation cfg rows registrations pubs
    = ResultGenPreparation.Saved
        (ResultGenPreparation.writtenChunks
           (ResultGenPreparation.pack cfg
              (ResultGenPreparation.allRequests registrations pubs rows)))
        rd next.
Proof.
  unfold ResultGenPreparation.stageResultGenPreparation.
  destruct (ResultGenPreparation.writtenChunks _); eauto.
Qed.

(** The sample row yields the single request for PMID 111. *)
Example allRequests_oneRow :
  ResultGenPreparation.allRequests Samples.oneRegistration Samples.onePublication
    Samples.oneRow
  = [Samples.request111].
Proof. vm_compute. reflexivity. Qed.

(** C2.  At a request larger than the effective byte cap the stage writes a
    chunk that breaks the sizing invariant: with a cap of 900 bytes and one
    request of 1200 bytes it first seals the empty chunk 0 and then writes
    chunk 1 with [sizeBytes] = 1200. *)
Theorem stageResultGenPreparation_oversized_chunk :
  ResultGenPreparation.effectiveMaxBytes Samples.smallCap = 900
  /\ ResultGenPreparation.stageResultGenPreparation Samples.smallCap
       Samples.oneRow Samples.oneRegistration Samples.onePublication
     = ResultGenPreparation.Saved
         [ ResultGenPreparation.mkWorkChunk 0 [] 0 0;
           ResultGenPreparation.mkWorkChunk 1 [Samples.request111] 300 1200 ]
         (Some
            {| chunks :=
                 [ mkChunk 0 "result_gen_input_chunk_0.jsonl" 0 0 0 pending
                     None None None;
                   mkChunk 1 "result_gen_input_chunk_1.jsonl" 1 300 1200 pending
                     None None None ];
               dailyTokensUsed := {| date := "2026-01-01"; tokens := 0 |};
               totalEstimatedTokens := 300 |})
         RESULT_GEN_UPLOAD
  /\ ~ (1200 <= ResultGenPreparation.effectiveMaxBytes Samples.smallCap).
Proof.
  split; [reflexivity|]. split; [vm_compute; reflexivity|].
  vm_compute. intros H. apply H. reflexivity.
Qed.




(** ** stageFinalize *)

Section FinalizeFacts.
Import Finalize.
Variable dir : ResultDir.

Lemma loadDetection_pmid (trialId : string) (pub : Publication) :
  pmid (loadDetection dir trialId pub).1 = Data.pmid pub.
Proof.
  unfold loadDetection. destruct (dir !! resultKey trialId pub) as [[m|d]|]; reflexivity.
Qed.

Lemma loadDetection_sources (trialId : string) (pub : Publication) :
  sources (loadDetection dir trialId pub).1 = Data.sources pub.
Proof.
  unfold loadDetection. destruct (dir !! resultKey trialId pub) as [[m|d]|]; reflexivity.
Qed.

Lemma loadDetection_positive (trialId : string) (pub : Publication) :
  Finalize.classifiedPositive dir trialId pub <->
  exists d c, dir !! resultKey trialId pub = Some (Json d)
              /\ content d = Some c /\ hasResults c = Some true.
Proof.
  unfold Finalize.classifiedPositive, loadDetection.
  destruct (dir !! resultKey trialId pub) as [[m|d]|]; simpl.
  - split; [discriminate|]. intros (d & c & H & _). discriminate.
  - destruct (content d) as [c|] eqn:Ec; simpl.
    + destruct (hasResults c) as [[|]|] eqn:Eh; split; try discriminate.
      * intros _. now exists d, c.
      * reflexivity.
      * intros (d' & c' & H & Hc & Hh). congruence.
      * intros (d' & c' & H & Hc & Hh). congruence.
    + split; [discriminate|]. intros (d' & c' & H & Hc & _). congruence.
  - split; [discriminate|]. intros (d & c & H & _). discriminate.
Qed.

Lemma detectionResults_In (trialId : string) (pubData : PubData) (r : DetectionResult) :
  In r (detectionResults dir trialId pubData) <->
  exists pub, In pub (publicationsWithPmids pubData)
              /\ r = (loadDetection dir trialId pub).1.
Proof.
  unfold detectionResults. rewrite in_map_iff. split; intros (pub & H1 & H2).
  - exists pub. split; [exact H2|now symmetry].
  - exists pub. split; [now symmetry|exact H1].
Qed.

Lemma detectionResults_truthy (trialId : string) (pubData : PubData) :
  Forall (fun r => Js.truthy (pmid r) = true) (detectionResults dir trialId pubData).
Proof.
  apply List.Forall_forall. intros r Hr.
  apply detectionResults_In in Hr as (pub & Hin & ->).
  rewrite loadDetection_pmid. unfold publicationsWithPmids in Hin.
  now apply filter_In in Hin as [_ ?].
Qed.

Lemma positives_In (drs : list DetectionResult) (r : DetectionResult) :
  In r (positives drs) <-> In r drs /\ positive r = true.
Proof. unfold positives. apply filter_In. Qed.

Lemma positives_truthy (drs : list DetectionResult) :
  Forall (fun r => Js.truthy (pmid r) = true) drs ->
  Forall (fun x => Js.truthy x = true) (map pmid (positives drs)).
Proof.
  intros H. apply List.Forall_forall. intros x Hx.
  apply in_map_iff in Hx as (r & <- & Hr). apply positives_In in Hr as [Hr _].
  rewrite List.Forall_forall in H. now apply H.
Qed.

Lemma toolResultPmids_prompted (drs : list DetectionResult) (p : string) :
  In p (toolResultPmids drs) -> In p (promptedPmids drs).
Proof.
  unfold toolResultPmids, promptedPmids. rewrite !filterTruthy_In.
  intros [Hp Hin]. split; [exact Hp|].
  apply in_map_iff in Hin as (r & E & Hr). apply positives_In in Hr as [Hr _].
  apply in_map_iff. now exists r.
Qed.

Lemma toolIdentSteps_In (drs : list DetectionResult) (s : string) :
  In s (toolIdentSteps drs) <->
  s <> "" /\ exists r, In r (positives drs) /\ In s (sources r).
Proof.
  unfold toolIdentSteps. rewrite filter_In, uniq_In, in_flat_map.
  destruct (String.eqb_spec s "") as [->|Hs]; simpl; split.
  - intros [_ H]. discriminate.
  - intros [H _]. congruence.
  - intros [H _]. split; [exact Hs|exact H].
  - intros [_ H]. split; [exact H|reflexivity].
Qed.

Lemma finalizeRows_In (registrations : gmap string Registration)
    (pubs : gmap string PubData) (rows : list Row) (k i : nat) (s : Summary) :
  In (i, s) (finalizeRows dir registrations pubs k rows) ->
  exists row trialId pubData,
    rows !! (i - k)%nat = Some row /\ (k <= i)%nat
    /\ trialId = extractTrialId row /\ trialId <> ""
    /\ is_Some (registrations !! trialId)
    /\ pubs !! trialId = Some pubData
    /\ s = summaryOf dir trialId pubData.
Proof.
  revert k. induction rows as [|row rows IH]; intros k; simpl; [tauto|].
  assert (In (i, s) (finalizeRows dir registrations pubs (S k) rows) ->
          exists row0 trialId pubData,
            (row :: rows) !! (i - k)%nat = Some row0 /\ (k <= i)%nat
            /\ trialId = extractTrialId row0 /\ trialId <> ""
            /\ is_Some (registrations !! trialId)
            /\ pubs !! trialId = Some pubData
            /\ s = summaryOf dir trialId pubData) as Hrest.
  { intros H. apply IH in H as (row0 & t & pd & Hl & Hle & Hrest).
    exists row0, t, pd. split; [|split; [lia|exact Hrest]].
    replace (i - k)%nat with (S (i - S k)) by lia. exact Hl. }
  destruct (String.eqb_spec (extractTrialId row) "") as [E|E]; [exact Hrest|].
  destruct (registrations !! extractTrialId row) as [reg|] eqn:Er; [|exact Hrest].
  destruct (pubs !! extractTrialId row) as [pd|] eqn:Ep; [|exact Hrest].
  intros [H|H]; [|now apply Hrest].
  injection H as <- <-. exists row, (extractTrialId row), pd.
  rewrite Nat.sub_diag. rewrite Er. repeat split; eauto.
Qed.

End FinalizeFacts.

(** C4.  Every summary written by stage FINALIZE belongs to a trial of the
    Progress record and its three list columns are the comma-joined lists
    [promptedPmids], [toolResultPmids] and [toolIdentSteps].  When
    [tool_results] is true the list of result PMIDs has at least one entry
    (and the column is not empty); every result PMID is also a prompted
    PMID; and the identification steps are, without repetition, exactly the
    source tags of the publications classified positive: a non-empty tag is
    listed if and only if some positive publication carries it, so when no
    source tag is the empty string the steps are the set-union of the
    sources over exactly the positives. *)
Theorem stageFinalize_summary_invariants :
  forall (dir : Finalize.ResultDir) (rows : list Row)
         (registrations : gmap string Registration) (pubs : gmap string PubData)
         (i : nat) (s : Finalize.Summary),
    In (i, s) (Finalize.stageFinalize dir rows registrations pubs).1 ->
    exists trialId pubData,
      pubs !! trialId = Some pubData
      /\ s = Finalize.summaryOf dir trialId pubData
      /\ let drs := Finalize.detectionResults dir trialId pubData in
         Finalize.tool_prompted_pmids s = Js.join "," (Finalize.promptedPmids drs)
         /\ Finalize.tool_result_pmids s = Js.join "," (Finalize.toolResultPmids drs)
         /\ Finalize.tool_ident_steps s = Js.join "," (Finalize.toolIdentSteps drs)
         /\ (Finalize.tool_results s = true ->
             (1 <= length (Finalize.toolResultPmids drs))%nat
             /\ Finalize.tool_result_pmids s <> "")
         /\ (forall p, In p (Finalize.toolResultPmids drs) ->
                       In p (Finalize.promptedPmids drs))
         /\ NoDup (Finalize.toolIdentSteps drs)
         /\ (forall step,
               In step (Finalize.toolIdentSteps drs) <->
               step <> ""
               /\ exists pub,
                   In pub (Finalize.publicationsWithPmids pubData)
                   /\ Finalize.classifiedPositive dir trialId pub
                   /\ In step (sources pub))
         /\ ((forall pub, In pub (Finalize.publicationsWithPmids pubData) ->
                          ~ In "" (sources pub)) ->
             forall step,
               In step (Finalize.toolIdentSteps drs) <->
               exists pub,
                 In pub (Finalize.publicationsWithPmids pubData)
                 /\ Finalize.classifiedPositive dir trialId pub
                 /\ In step (sources pub)).
Proof.
  intros dir rows registrations pubs i s Hin. simpl in Hin.
  apply finalizeRows_In in Hin
    as (row & trialId & pubData & _ & _ & _ & _ & _ & Hp & ->).
  exists trialId, pubData. split; [exact Hp|]. split; [reflexivity|].
  intros drs.
  assert (forall step,
             In step (Finalize.toolIdentSteps drs) <->
             step <> ""
             /\ exists pub,
                 In pub (Finalize.publicationsWithPmids pubData)
                 /\ Finalize.classifiedPositive dir trialId pub
                 /\ In step (sources pub)) as Hsteps.
  { intros step. rewrite toolIdentSteps_In. split; intros [Hne H]; (split; [exact Hne|]).
    - destruct H as (r & Hr & Hs). apply positives_In in Hr as [Hr Hpos].
      apply detectionResults_In in Hr as (pub & Hpub & ->).
      exists pub. rewrite loadDetection_sources in Hs. now repeat split.
    - destruct H as (pub & Hpub & Hpos & Hs).
      exists (Finalize.loadDetection dir trialId pub).1. split.
      + apply positives_In. split; [|exact Hpos].
        apply detectionResults_In. now exists pub.
      + now rewrite loadDetection_sources. }
  split; [reflexivity|]. split; [reflexivity|]. split; [reflexivity|].
  split; [|split; [apply toolResultPmids_prompted|split; [|split; [exact Hsteps|]]]].
  - cbn [Finalize.summaryOf Finalize.tool_results Finalize.tool_result_pmids].
    fold drs. intros Hres.
    assert (length (Finalize.toolResultPmids drs)
            = length (Finalize.positives drs)) as Hlen.
    { unfold Finalize.toolResultPmids. rewrite filterTruthy_all.
      - apply length_map.
      - apply positives_truthy, detectionResults_truthy. }
    destruct (Finalize.positives drs) as [|r rest] eqn:Epos; [discriminate|].
    split; [rewrite Hlen; simpl; lia|].
    destruct (Finalize.toolResultPmids drs) as [|x xs] eqn:Ex; [discriminate|].
    apply join_nonempty.
    assert (In x (Finalize.toolResultPmids drs)) as Hx by (rewrite Ex; now left).
    unfold Finalize.toolResultPmids in Hx. now apply filterTruthy_In in Hx as [? _].
  - unfold Finalize.toolIdentSteps. apply NoDup_List_filter, uniq_NoDup.
  - intros Hnn step. rewrite Hsteps. split; [tauto|].
    intros (pub & Hpub & Hpos & Hs). split; [|now exists pub].
    intros ->. now apply (Hnn pub).
Qed.

(** The summary of the sample trial. *)
Example stageFinalize_fourPublications :
  Finalize.stageFinalize Samples.fourResults Samples.oneRow
    Samples.oneRegistration Samples.fourPublications
  = ([(0%nat, Samples.fourSummary)], COST_CALCULATION).
Proof. vm_compute. reflexivity. Qed.

Lemma stageFinalize_summary_invariants_witness :
  exists trialId pubData,
    Samples.fourPublications !! trialId = Some pubData
    /\ Samples.fourSummary = Finalize.summaryOf Samples.fourResults trialId pubData
    /\ (forall p,
          In p (Finalize.toolResultPmids
                  (Finalize.detectionResults Samples.fourResults trialId pubData)) ->
          In p (Finalize.promptedPmids
                  (Finalize.detectionResults Samples.fourResults trialId pubData))).
Proof.
  assert (In (0%nat, Samples.fourSummary)
            (Finalize.stageFinalize Samples.fourResults Samples.oneRow
               Samples.oneRegistration Samples.fourPublications).1) as H
    by (vm_compute; left; reflexivity).
  destruct (stageFinalize_summary_invariants Samples.fourResults Samples.oneRow
              Samples.oneRegistration Samples.fourPublications 0%nat
              Samples.fourSummary H)
    as (trialId & pubData & Hp & Hs & Hrest).
  cbv zeta in Hrest. destruct Hrest as (_ & _ & _ & _ & Hsub & _).
  exists trialId, pubData. split; [exact Hp|]. split; [exact Hs|exact Hsub].
Defined.

Section EarliestFacts.
Import Finalize.
Variable dir : ResultDir.

Lemma loadDetection_date (trialId : string) (pub : Publication) :
  publicationDate (loadDetection dir trialId pub).1
  = orNull (Data.publicationDate pub).
Proof.
  unfold loadDetection. destruct (dir !! resultKey trialId pub) as [[m|d]|]; reflexivity.
Qed.

Lemma truthy_orNull (x : option string) : Js.truthy (orNull x) = Js.truthy x.
Proof. unfold orNull. destruct (Js.truthy x) eqn:E; [exact E|reflexivity]. Qed.

Lemma orNull_truthy (x : option string) : Js.truthy x = true -> orNull x = x.
Proof. unfold orNull. now intros ->. Qed.

Lemma positivesWithDates_In (trialId : string) (pubData : PubData)
    (r : DetectionResult) :
  In r (positivesWithDates (detectionResults dir trialId pubData)) <->
  exists pub, Finalize.datedPositive dir trialId pubData pub
              /\ r = (loadDetection dir trialId pub).1.
Proof.
  unfold positivesWithDates. rewrite filter_In, positives_In, detectionResults_In.
  split.
  - intros [[(pub & Hpub & ->) Hpos] Ht]. exists pub. split; [|reflexivity].
    apply andb_true_iff in Ht as [_ Hd].
    rewrite loadDetection_date, truthy_orNull in Hd. now repeat split.
  - intros (pub & (Hpub & Hpos & Hd) & ->). split; [split|].
    + now exists pub.
    + exact Hpos.
    + rewrite loadDetection_pmid, loadDetection_date, truthy_orNull, Hd.
      unfold publicationsWithPmids in Hpub.
      apply filter_In in Hpub as [_ ->]. reflexivity.
Qed.

End EarliestFacts.

(** C5.  For every summary written by stage FINALIZE: when some positive
    classification of the trial carries both a PMID and a publication date,
    [earliest_result_publication] and [earliest_result_publication_date]
    are the PMID and the date of one such positive publication, and no such
    publication has a date string that is smaller under [<] on strings
    (lexicographic order); in that order "2020" precedes "2020-01", which
    precedes "2020-01-01".  When there is no such positive, both fields are
    the empty string. *)
Theorem stageFinalize_earliest_publication :
  forall (dir : Finalize.ResultDir) (rows : list Row)
         (registrations : gmap string Registration) (pubs : gmap string PubData)
         (i : nat) (s : Finalize.Summary),
    In (i, s) (Finalize.stageFinalize dir rows registrations pubs).1 ->
    exists trialId pubData,
      pubs !! trialId = Some pubData
      /\ s = Finalize.summaryOf dir trialId pubData
      /\ ((exists pub, Finalize.datedPositive dir trialId pubData pub) ->
          exists e,
            Finalize.datedPositive dir trialId pubData e
            /\ pmid e = Some (Finalize.earliest_result_publication s)
            /\ publicationDate e = Some (Finalize.earliest_result_publication_date s)
            /\ forall pub d,
                 Finalize.datedPositive dir trialId pubData pub ->
                 publicationDate pub = Some d ->
                 Js.str_lt d (Finalize.earliest_result_publication_date s) = false)
      /\ (~ (exists pub, Finalize.datedPositive dir trialId pubData pub) ->
          Finalize.earliest_result_publication s = ""
          /\ Finalize.earliest_result_publication_date s = "")
      /\ Js.str_lt "2020" "2020-01" = true
      /\ Js.str_lt "2020-01" "2020-01-01" = true.
Proof.
  intros dir rows registrations pubs i s Hin. simpl in Hin.
  apply finalizeRows_In in Hin
    as (row & trialId & pubData & _ & _ & _ & _ & _ & Hp & ->).
  exists trialId, pubData. split; [exact Hp|]. split; [reflexivity|].
  set (drs := Finalize.detectionResults dir trialId pubData).
  cbn [Finalize.summaryOf Finalize.earliest_result_publication
         Finalize.earliest_result_publication_date]. fold drs.
  split; [|split; [|split; reflexivity]].
  - intros (pub0 & Hpub0).
    assert (Finalize.positivesWithDates drs <> []) as Hne.
    { intros E.
      assert (In (Finalize.loadDetection dir trialId pub0).1
                (Finalize.positivesWithDates drs)) as H
        by (apply positivesWithDates_In; now exists pub0).
      rewrite E in H. destruct H. }
    destruct (sort_head_some Finalize.dateOf _ Hne) as (r & Hr).
    unfold Finalize.earliest, Finalize.sortedByDate. rewrite Hr.
    apply sort_head_least in Hr as [Hr Hleast].
    apply positivesWithDates_In in Hr as (e & He & ->).
    assert (Hd := He). destruct Hd as (Hpub & _ & Hd).
    assert (Js.truthy (pmid e) = true) as Hpm.
    { unfold Finalize.publicationsWithPmids in Hpub.
      now apply filter_In in Hpub as [_ ?]. }
    assert (forall pub d,
               Finalize.datedPositive dir trialId pubData pub ->
               publicationDate pub = Some d ->
               Js.str_lt d (default "" (publicationDate e)) = false) as Hmin.
    { intros pub d Hpub' Hdate.
      assert (In (Finalize.loadDetection dir trialId pub).1
                (Finalize.positivesWithDates drs)) as Hin
        by (apply positivesWithDates_In; now exists pub).
      specialize (Hleast _ Hin).
      destruct Hpub' as (_ & _ & Hd').
      unfold Finalize.dateOf in Hleast.
      rewrite !loadDetection_date, (orNull_truthy _ Hd), (orNull_truthy _ Hd'),
        Hdate in Hleast.
      exact Hleast. }
    exists e. split; [exact He|].
    unfold Finalize.dateOf.
    rewrite loadDetection_pmid, loadDetection_date, (orNull_truthy _ Hd).
    destruct (pmid e) as [pm|]; [|discriminate].
    destruct (publicationDate e) as [de|] eqn:Ede; [|discriminate]. simpl.
    split; [reflexivity|]. split; [reflexivity|]. exact Hmin.
  - intros Hnone.
    assert (Finalize.positivesWithDates drs = []) as E.
    { destruct (Finalize.positivesWithDates drs) as [|r rest] eqn:E; [reflexivity|].
      exfalso. apply Hnone.
      assert (In r (Finalize.positivesWithDates drs)) as H by (rewrite E; now left).
      apply positivesWithDates_In in H as (pub & Hpub & _). now exists pub. }
    unfold Finalize.earliest, Finalize.sortedByDate. rewrite E. simpl. now split.
Qed.

Lemma stageFinalize_earliest_publication_witness :
  exists e,
    Finalize.datedPositive Samples.fourResults "NCT00000001"
      {| publications :=
           Some [ Samples.pub "111" (Some "2020-01") ["linked_at_registration"; "pubmed_naive"];
                  Samples.pub "222" (Some "2020") ["pubmed_naive"];
                  Samples.pub "333" (Some "2019") ["google_scholar"];
                  Samples.pub "444" None ["google_scholar"] ];
         errors := None |} e
    /\ pmid e = Some "222" /\ publicationDate e = Some "2020".
Proof.
  assert (In (0%nat, Samples.fourSummary)
            (Finalize.stageFinalize Samples.fourResults Samples.oneRow
               Samples.oneRegistration Samples.fourPublications).1) as H
    by (vm_compute; left; reflexivity).
  destruct (stageFinalize_earliest_publication Samples.fourResults Samples.oneRow
              Samples.oneRegistration Samples.fourPublications 0%nat
              Samples.fourSummary H)
    as (trialId & pubData & Hp & Hs & Hsome & _).
  assert ("NCT00000001" = trialId) as <-
    by exact (f_equal Finalize.nct_id Hs).
  assert (Samples.fourPublications !! "NCT00000001"
          = Some {| publications :=
                      Some [ Samples.pub "111" (Some "2020-01")
                               ["linked_at_registration"; "pubmed_naive"];
                             Samples.pub "222" (Some "2020") ["pubmed_naive"];
                             Samples.pub "333" (Some "2019") ["google_scholar"];
                             Samples.pub "444" None ["google_scholar"] ];
                    errors := None |}) as Hl by (vm_compute; reflexivity).
  rewrite Hl in Hp. injection Hp as <-.
  destruct Hsome as (e & He & Hpm & Hdate & _).
  - exists (Samples.pub "222" (Some "2020") ["pubmed_naive"]).
    split; [right; left; reflexivity|]. split; [|reflexivity].
    unfold Finalize.classifiedPositive. vm_compute. reflexivity.
  - exists e. split; [exact He|]. split; [exact Hpm|exact Hdate].
Defined.

(** ** maxDateFilter and minDateFilter *)

Section DateFilterFacts.
Import Utils.
Variable parseDate : string -> option Z.

Lemma splitByDate_eligible (keep : Z -> bool) (pubs : list (option Publication))
    (x : option Publication) :
  In x (eligible (splitByDate parseDate keep pubs)) <->
  In x pubs /\ destination parseDate keep x = Some true.
Proof.
  induction pubs as [|y pubs IH]; simpl; [tauto|].
  unfold Utils.destination in *.
  destruct (y ≫= publicationDate) as [d|] eqn:Ed.
  - destruct (String.eqb d "") eqn:Ee; simpl.
    + rewrite IH. split; [intros [->|Hx]; [rewrite Ed, Ee|]; tauto|tauto].
    + destruct (parseDate d) as [t|] eqn:Ep.
      * destruct (keep t) eqn:Ek; simpl; rewrite IH.
        -- split; [intros [->|Hx]; [rewrite Ed, Ee, Ep, Ek|]; tauto|tauto].
        -- split; [tauto|]. intros [[->|Hx] Hy]; [|tauto].
           rewrite Ed, Ee, Ep, Ek in Hy. discriminate.
      * rewrite IH. split; [tauto|]. intros [[->|Hx] Hy]; [|tauto].
        rewrite Ed, Ee, Ep in Hy. discriminate.
  - simpl. rewrite IH. split; [intros [->|Hx]; [rewrite Ed|]; tauto|tauto].
Qed.

Lemma splitByDate_filtered (keep : Z -> bool) (pubs : list (option Publication))
    (x : option Publication) :
  In x (filtered (splitByDate parseDate keep pubs)) <->
  In x pubs /\ destination parseDate keep x = Some false.
Proof.
  induction pubs as [|y pubs IH]; simpl; [tauto|].
  unfold Utils.destination in *.
  destruct (y ≫= publicationDate) as [d|] eqn:Ed.
  - destruct (String.eqb d "") eqn:Ee; simpl.
    + rewrite IH. split; [tauto|]. intros [[->|Hx] Hy]; [|tauto].
      rewrite Ed, Ee in Hy. discriminate.
    + destruct (parseDate d) as [t|] eqn:Ep.
      * destruct (keep t) eqn:Ek; simpl; rewrite IH.
        -- split; [tauto|]. intros [[->|Hx] Hy]; [|tauto].
           rewrite Ed, Ee, Ep, Ek in Hy. discriminate.
        -- split; [intros [->|Hx]; [rewrite Ed, Ee, Ep, Ek|]; tauto|tauto].
      * rewrite IH. split; [tauto|]. intros [[->|Hx] Hy]; [|tauto].
        rewrite Ed, Ee, Ep in Hy. discriminate.
  - simpl. rewrite IH. split; [tauto|]. intros [[->|Hx] Hy]; [|tauto].
    rewrite Ed in Hy. discriminate.
Qed.

Lemma minDateFilter_Returned (pubs : list (option Publication))
    (minDate : string) (cutoff : Z) :
  minDate <> "" -> parseDate minDate = Some cutoff ->
  minDateFilter parseDate pubs (Some minDate)
  = Js.Returned (splitByDate parseDate (fun pubDate => cutoff <=? pubDate) pubs).
Proof.
  intros Hne Hp. unfold minDateFilter. simpl.
  destruct (String.eqb_spec minDate ""); [contradiction|]. simpl.
  now rewrite Hp.
Qed.

Lemma maxDateFilter_Returned (pubs : list (option Publication))
    (maxDate : string) (cutoff : Z) :
  maxDate <> "" -> parseDate maxDate = Some cutoff ->
  maxDateFilter parseDate pubs (Some maxDate)
  = Js.Returned (splitByDate parseDate (fun pubDate => pubDate <? cutoff) pubs).
Proof.
  intros Hne Hp. unfold maxDateFilter. simpl.
  destruct (String.eqb_spec maxDate ""); [contradiction|]. simpl.
  now rewrite Hp.
Qed.

End DateFilterFacts.

(** C7.  For every array of publications and every minimum date that is
    given and parses to a valid date, [minDateFilter] returns (it raises
    nothing) a pair [{eligible, filtered}] in which no publication whose
    [publicationDate] parses to a valid date earlier than the minimum date
    is in [eligible], and every publication of the input without a
    [publicationDate] is in [eligible]. *)
Theorem minDateFilter_keeps_undated_drops_earlier :
  forall (parseDate : string -> option Z) (pubs : list (option Publication))
         (minDate : string) (cutoff : Z),
    minDate <> "" ->
    parseDate minDate = Some cutoff ->
    exists r,
      Utils.minDateFilter parseDate pubs (Some minDate) = Js.Returned r
      /\ (forall p d t,
            publicationDate p = Some d -> d <> "" ->
            parseDate d = Some t -> t < cutoff ->
            ~ In (Some p) (Utils.eligible r))
      /\ (forall p,
            In (Some p) pubs -> Js.truthy (publicationDate p) = false ->
            In (Some p) (Utils.eligible r)).
Proof.
  intros parseDate pubs minDate cutoff Hne Hp.
  eexists. split; [exact (minDateFilter_Returned parseDate pubs minDate cutoff Hne Hp)|]. split.
  - intros p d t Hd Hdne Ht Hlt Hin.
    apply splitByDate_eligible in Hin as [_ Hdest].
    unfold Utils.destination in Hdest. simpl in Hdest. rewrite Hd in Hdest.
    destruct (String.eqb_spec d ""); [contradiction|].
    rewrite Ht in Hdest. injection Hdest as Hk. apply Z.leb_le in Hk. lia.
  - intros p Hin Hfalsy. apply splitByDate_eligible. split; [exact Hin|].
    unfold Utils.destination. simpl. destruct (publicationDate p) as [d|]; [|reflexivity].
    simpl in Hfalsy. destruct (String.eqb d ""); [reflexivity|discriminate].
Qed.

(** The min-date scenario of the specification: with a start date of
    2010-01-01, A (2009-12) is filtered, B (2012) and the undated C are
    eligible. *)
Example minDateFilter_scenario :
  Utils.minDateFilter Js.isoDateTime
    [Some Samples.pubA; Some Samples.pubB; Some Samples.pubC] (Some "2010-01-01")
  = Js.Returned {| Utils.eligible := [Some Samples.pubB; Some Samples.pubC];
                   Utils.filtered := [Some Samples.pubA] |}.
Proof. vm_compute. reflexivity. Qed.

Lemma minDateFilter_keeps_undated_drops_earlier_witness :
  exists r,
    Utils.minDateFilter Js.isoDateTime
      [Some Samples.pubA; Some Samples.pubB; Some Samples.pubC] (Some "2010-01-01")
    = Js.Returned r
    /\ ~ In (Some Samples.pubA) (Utils.eligible r)
    /\ In (Some Samples.pubC) (Utils.eligible r).
Proof.
  assert ("2010-01-01" <> "") as H1 by discriminate.
  assert (Js.isoDateTime "2010-01-01" = Some 1262304000000) as H2
    by (vm_compute; reflexivity).
  destruct (minDateFilter_keeps_undated_drops_earlier Js.isoDateTime
              [Some Samples.pubA; Some Samples.pubB; Some Samples.pubC]
              "2010-01-01" 1262304000000 H1 H2)
    as (r & Hr & Hearlier & Hundated).
  exists r. split; [exact Hr|]. split.
  - apply (Hearlier Samples.pubA "2009-12" 1259625600000).
    + reflexivity.
    + discriminate.
    + vm_compute. reflexivity.
    + lia.
  - apply Hundated.
    + right. right. left. reflexivity.
    + reflexivity.
Defined.

(** A publication whose date is a non-empty string that is not a date is
    not retained by [minDateFilter]: it is in neither array. *)
Lemma minDateFilter_drops_unparseable_date :
  Js.isoDateTime "unknown" = None
  /\ Utils.minDateFilter Js.isoDateTime [Some Samples.pubU] (Some "2010-01-01")
     = Js.Returned {| Utils.eligible := []; Utils.filtered := [] |}
  /\ ~ (forall r,
          Utils.minDateFilter Js.isoDateTime [Some Samples.pubU] (Some "2010-01-01")
          = Js.Returned r ->
          In (Some Samples.pubU) (Utils.eligible r)).
Proof.
  split; [vm_compute; reflexivity|]. split; [vm_compute; reflexivity|].
  intros H. specialize (H _ eq_refl). exact H.
Qed.

(** C8 (as amended).  A publication whose [publicationDate] is a non-empty
    string that does not parse to a valid date is dropped by both filters:
    with a valid cutoff, it is in neither [eligible] nor [filtered] of
    [maxDateFilter], and in neither [eligible] nor [filtered] of
    [minDateFilter]. *)
Theorem dateFilters_drop_unparseable_date :
  forall (parseDate : string -> option Z) (pubs : list (option Publication))
         (p : Publication) (d cutoffDate : string) (cutoff : Z),
    publicationDate p = Some d -> d <> "" -> parseDate d = None ->
    cutoffDate <> "" -> parseDate cutoffDate = Some cutoff ->
    (exists r,
        Utils.maxDateFilter parseDate pubs (Some cutoffDate) = Js.Returned r
        /\ ~ In (Some p) (Utils.eligible r) /\ ~ In (Some p) (Utils.filtered r))
    /\ (exists r,
        Utils.minDateFilter parseDate pubs (Some cutoffDate) = Js.Returned r
        /\ ~ In (Some p) (Utils.eligible r) /\ ~ In (Some p) (Utils.filtered r)).
Proof.
  intros parseDate pubs p d cutoffDate cutoff Hd Hdne Hbad Hcne Hc.
  assert (forall keep, Utils.destination parseDate keep (Some p) = None) as Hdest.
  { intros keep. unfold Utils.destination. simpl. rewrite Hd.
    destruct (String.eqb_spec d ""); [contradiction|]. now rewrite Hbad. }
  split; eexists;
    (split; [first [exact (maxDateFilter_Returned parseDate pubs cutoffDate cutoff Hcne Hc)
                   |exact (minDateFilter_Returned parseDate pubs cutoffDate cutoff Hcne Hc)]|]);
    (split; intros Hin;
      [apply splitByDate_eligible in Hin as [_ H]
      |apply splitByDate_filtered in Hin as [_ H]];
      rewrite Hdest in H; discriminate).
Qed.

Lemma dateFilters_drop_unparseable_date_witness :
  (exists r,
      Utils.maxDateFilter Js.isoDateTime [Some Samples.pubU; Some Samples.pubB]
        (Some "2023-02-15") = Js.Returned r
      /\ ~ In (Some Samples.pubU) (Utils.eligible r)
      /\ ~ In (Some Samples.pubU) (Utils.filtered r))
  /\ (exists r,
      Utils.minDateFilter Js.isoDateTime [Some Samples.pubU; Some Samples.pubB]
        (Some "2023-02-15") = Js.Returned r
      /\ ~ In (Some Samples.pubU) (Utils.eligible r)
      /\ ~ In (Some Samples.pubU) (Utils.filtered r)).
Proof.
  apply (dateFilters_drop_unparseable_date Js.isoDateTime
           [Some Samples.pubU; Some Samples.pubB] Samples.pubU
           "unknown" "2023-02-15" 1676419200000).
  - reflexivity.
  - discriminate.
  - vm_compute. reflexivity.
  - discriminate.
  - vm_compute. reflexivity.
Defined.

(** ** Objects used as maps *)

Section ObjectFacts.
Context {V : Type}.
Implicit Types (o : Js.Object V) (k key : string) (v : V).

Lemma get_None o k : Js.get o k = None <-> ~ In k (Js.keys o).
Proof.
  induction o as [|[k' v'] o IH]; simpl; [tauto|].
  destruct (String.eqb_spec k' k) as [->|Hne].
  - split; [discriminate|tauto].
  - rewrite IH. tauto.
Qed.

Lemma get_In o k v : Js.get o k = Some v -> In (k, v) o.
Proof.
  induction o as [|[k' v'] o IH]; simpl; [discriminate|].
  destruct (String.eqb_spec k' k) as [->|Hne].
  - intros [= ->]. now left.
  - intros H. right. now apply IH.
Qed.

Lemma In_get o k v : NoDup (Js.keys o) -> In (k, v) o -> Js.get o k = Some v.
Proof.
  induction o as [|[k' v'] o IH]; simpl; [tauto|].
  rewrite NoDup_cons, list_elem_of_In. intros [Hk Hnd] [H|H].
  - injection H as -> ->. now rewrite String.eqb_refl.
  - destruct (String.eqb_spec k' k) as [->|Hne]; [|now apply IH].
    exfalso. apply Hk. unfold Js.keys. apply in_map_iff. now exists (k, v).
Qed.

Lemma overwrite_keys o k v : Js.keys (Js.overwrite k v o) = Js.keys o.
Proof.
  induction o as [|[k' v'] o IH]; simpl; [reflexivity|].
  destruct (String.eqb k' k); simpl; [reflexivity|]. now rewrite IH.
Qed.

Lemma overwrite_In o k v (x : string * V) :
  In x (Js.overwrite k v o) -> x = (k, v) \/ In x o.
Proof.
  induction o as [|[k' v'] o IH]; simpl; [tauto|].
  destruct (String.eqb_spec k' k) as [->|Hne]; simpl.
  - intros [<-|H]; tauto.
  - intros [<-|H]; [tauto|]. destruct (IH H); tauto.
Qed.

Lemma get_overwrite o k v k' :
  Js.get (Js.overwrite k v o) k'
  = if String.eqb k k'
    then match Js.get o k with Some _ => Some v | None => None end
    else Js.get o k'.
Proof.
  induction o as [|[k0 v0] o IH]; simpl.
  - now destruct (String.eqb k k').
  - destruct (String.eqb_spec k0 k) as [->|Hne]; simpl.
    + destruct (String.eqb_spec k k') as [->|Hne']; [reflexivity|reflexivity].
    + destruct (String.eqb_spec k0 k') as [->|Hne'].
      * destruct (String.eqb_spec k k'); [congruence|reflexivity].
      * exact IH.
Qed.

Lemma create_In (n : option N) o k v (x : string * V) :
  In x (Js.create n k v o) <-> x = (k, v) \/ In x o.
Proof.
  induction o as [|[k' v'] o IH]; simpl.
  - split; intros [H|H]; auto.
  - destruct (Js.precedes n k'); simpl; [split; intros [H|H]; auto|].
    rewrite IH. split; intros [H|[H|H]]; auto.
Qed.

Lemma create_keys_perm (n : option N) o k v :
  Permutation (k :: Js.keys o) (Js.keys (Js.create n k v o)).
Proof.
  induction o as [|[k' v'] o IH]; simpl; [reflexivity|].
  destruct (Js.precedes n k'); simpl; [reflexivity|].
  rewrite perm_swap. now apply perm_skip.
Qed.

Lemma get_create (n : option N) o k v k' :
  Js.get o k = None ->
  Js.get (Js.create n k v o) k' = if String.eqb k k' then Some v else Js.get o k'.
Proof.
  induction o as [|[k0 v0] o IH]; simpl; [reflexivity|].
  destruct (String.eqb_spec k0 k) as [->|Hne]; [discriminate|].
  intros Hnone. destruct (Js.precedes n k0); simpl.
  - destruct (String.eqb_spec k k'); reflexivity.
  - rewrite (IH Hnone).
    destruct (String.eqb_spec k0 k') as [->|Hne']; [|reflexivity].
    destruct (String.eqb_spec k k'); [congruence|reflexivity].
Qed.

Lemma get_set o k v k' :
  Js.get (Js.set o k v) k' = if String.eqb k k' then Some v else Js.get o k'.
Proof.
  unfold Js.set. destruct (Js.get o k) as [v0|] eqn:E.
  - rewrite get_overwrite, E. reflexivity.
  - now apply get_create.
Qed.

Lemma set_In o k v (x : string * V) :
  In x (Js.set o k v) -> x = (k, v) \/ In x o.
Proof.
  unfold Js.set. destruct (Js.get o k).
  - apply overwrite_In.
  - apply create_In.
Qed.

Lemma set_keys_NoDup o k v : NoDup (Js.keys o) -> NoDup (Js.keys (Js.set o k v)).
Proof.
  unfold Js.set. destruct (Js.get o k) as [v0|] eqn:E; intros Hnd.
  - now rewrite overwrite_keys.
  - rewrite <- create_keys_perm. apply NoDup_cons. split; [|exact Hnd].
    rewrite list_elem_of_In. now apply get_None.
Qed.

(** *** The enumeration order *)

Lemma precedes_later (k k' k2 : string) :
  Js.precedes (Js.arrayIndex k) k' = true ->
  Js.precedes (Js.arrayIndex k2) k' = false ->
  Js.precedes (Js.arrayIndex k2) k = false.
Proof.
  unfold Js.precedes.
  destruct (Js.arrayIndex k) as [a|]; [|discriminate].
  destruct (Js.arrayIndex k2) as [c|]; [|reflexivity].
  destruct (Js.arrayIndex k') as [b|]; [|discriminate].
  rewrite !N.ltb_lt, !N.ltb_ge. lia.
Qed.

Lemma precedes_self (k k' : string) :
  Js.precedes (Js.arrayIndex k) k' = true ->
  Js.precedes (Js.arrayIndex k') k = false.
Proof.
  unfold Js.precedes.
  destruct (Js.arrayIndex k) as [a|]; [|discriminate].
  destruct (Js.arrayIndex k') as [b|]; [|reflexivity].
  rewrite N.ltb_lt, N.ltb_ge. lia.
Qed.

Lemma create_ordered o k v :
  StronglySorted Js.inOrder o ->
  StronglySorted Js.inOrder (Js.create (Js.arrayIndex k) k v o).
Proof.
  induction 1 as [|[k' v'] o Hs IH Hall]; simpl.
  - repeat constructor.
  - destruct (Js.precedes (Js.arrayIndex k) k') eqn:E.
    + constructor; [now constructor|]. constructor.
      * unfold Js.inOrder. simpl. now apply precedes_self.
      * rewrite List.Forall_forall in *. intros x Hx. unfold Js.inOrder. simpl.
        apply precedes_later with k'; [exact E|]. now apply (Hall x).
    + constructor; [exact IH|].
      rewrite List.Forall_forall in *. intros x Hx.
      apply create_In in Hx as [->|Hx]; [exact E|now apply Hall].
Qed.

Lemma overwrite_In_key o k v (x : string * V) :
  In x (Js.overwrite k v o) -> exists x', In x' o /\ x'.1 = x.1.
Proof.
  induction o as [|[k' v'] o IH]; simpl; [tauto|].
  destruct (String.eqb_spec k' k) as [->|Hne]; simpl.
  - intros [<-|H]; [exists (k, v'); split; [now left|reflexivity]|].
    exists x. split; [now right|reflexivity].
  - intros [<-|H]; [exists (k', v'); split; [now left|reflexivity]|].
    destruct (IH H) as (x' & Hin & E). exists x'. split; [now right|exact E].
Qed.

Lemma overwrite_ordered o k v :
  StronglySorted Js.inOrder o -> StronglySorted Js.inOrder (Js.overwrite k v o).
Proof.
  induction 1 as [|[k' v'] o Hs IH Hall]; simpl; [constructor|].
  destruct (String.eqb_spec k' k) as [->|Hne].
  - constructor; [exact Hs|exact Hall].
  - constructor; [exact IH|].
    rewrite List.Forall_forall in *. intros x Hx.
    apply overwrite_In_key in Hx as (x' & Hin & E).
    specialize (Hall x' Hin). unfold Js.inOrder in *. now rewrite <- E.
Qed.

Lemma set_ordered o k v :
  StronglySorted Js.inOrder o -> StronglySorted Js.inOrder (Js.set o k v).
Proof.
  unfold Js.set. destruct (Js.get o k).
  - apply overwrite_ordered.
  - apply create_ordered.
Qed.

(** A key that no existing key has to follow is created at the end. *)
Lemma create_last o k v :
  Forall (fun x => Js.inOrder x (k, v)) o ->
  Js.create (Js.arrayIndex k) k v o = o ++ [(k, v)].
Proof.
  induction 1 as [|[k' v'] o Hx Hall IH]; simpl; [reflexivity|].
  unfold Js.inOrder in Hx. simpl in Hx. rewrite Hx. now rewrite IH.
Qed.

End ObjectFacts.

(** ** removeDuplicatePublications *)

Section DedupFacts.
Import Utils.

Lemma wellFormed_empty : Utils.wellFormed [].
Proof. split; [constructor|]. split; [constructor|]. intros k v []. Qed.

Lemma wellFormed_set (o : Js.Object Publication) (k : string) (v : Publication) :
  Utils.wellFormed o -> pmid v = Some k -> k <> "" -> Utils.wellFormed (Js.set o k v).
Proof.
  intros (Hnd & Hord & Hval) Hv Hk. split; [now apply set_keys_NoDup|].
  split; [now apply set_ordered|].
  intros k0 v0 Hin. apply set_In in Hin as [[= -> ->]|Hin]; [now split|].
  now apply Hval.
Qed.

Lemma truthy_pmid (p : Publication) :
  Js.truthy (pmid p) = true -> exists k, pmid p = Some k /\ k <> "".
Proof.
  destruct (pmid p) as [k|]; simpl; [|discriminate].
  destruct (String.eqb_spec k ""); [discriminate|]. intros _. now exists k.
Qed.

Lemma withMergedSources_sources (cur kept : Publication) (s : string) :
  In s (sources (withMergedSources cur kept)) <->
  In s (sources cur) \/ In s (sources kept).
Proof. simpl. rewrite uniq_In. apply in_app_iff. Qed.

(** What the [reduce] computes from a well-formed accumulator. *)
Lemma uniquePubSet_spec (pubs : list Publication) :
  forall prev : Js.Object Publication,
    Utils.wellFormed prev ->
    Forall (fun p => Js.truthy (pmid p) = true) pubs ->
    exists o,
      uniquePubSet prev pubs = Js.Returned o
      /\ Utils.wellFormed o
      /\ (forall k, is_Some (Js.get o k) <->
                    is_Some (Js.get prev k) \/ In (Some k) (map pmid pubs))
      /\ (forall k e s,
             Js.get o k = Some e ->
             (In s (sources e) <->
              (exists e0, Js.get prev k = Some e0 /\ In s (sources e0))
              \/ (exists p, In p pubs /\ pmid p = Some k /\ In s (sources p)))).
Proof.
  induction pubs as [|cur rest IH]; intros prev Hwf Hall.
  - exists prev. split; [reflexivity|]. split; [exact Hwf|]. split.
    + intros k. simpl. tauto.
    + intros k e s He. split.
      * intros Hs. left. now exists e.
      * intros [(e0 & He0 & Hs)|(p & [] & _)]. congruence.
  - inversion Hall as [|? ? Hcur Hrest]; subst.
    destruct (truthy_pmid cur Hcur) as (k & Hk & Hne).
    set (v' := match Js.get prev k with
               | Some kept => withMergedSources cur kept
               | None => cur
               end).
    assert (uniquePubSet prev (cur :: rest) = uniquePubSet (Js.set prev k v') rest)
      as Hstep.
    { simpl. rewrite Hk. destruct (String.eqb_spec k ""); [contradiction|].
      subst v'. now destruct (Js.get prev k). }
    assert (pmid v' = Some k) as Hv'.
    { subst v'. destruct (Js.get prev k) as [kept|] eqn:E; [|exact Hk].
      simpl. apply get_In in E. destruct Hwf as (_ & _ & Hval).
      now apply (Hval k kept). }
    assert (forall s, In s (sources v') <->
                      In s (sources cur)
                      \/ exists e0, Js.get prev k = Some e0 /\ In s (sources e0))
      as Hsrc.
    { intros s. subst v'. destruct (Js.get prev k) as [kept|] eqn:E.
      - rewrite withMergedSources_sources. split.
        + intros [H|H]; [now left|right; now exists kept].
        + intros [H|(e0 & [= <-] & H)]; tauto.
      - split; [tauto|]. intros [H|(e0 & He0 & _)]; [exact H|discriminate]. }
    destruct (IH (Js.set prev k v') (wellFormed_set _ _ _ Hwf Hv' Hne) Hrest)
      as (o & Ho & Hwfo & Hdom & Hsources).
    exists o. split; [now rewrite Hstep|]. split; [exact Hwfo|]. split.
    + intros k0. rewrite Hdom, get_set. simpl. rewrite Hk.
      destruct (String.eqb_spec k k0) as [->|Hkk].
      * split; intros _; [right; now left|left; now eexists].
      * split; intros [H|H]; auto.
        destruct H as [[= H]|H]; [contradiction|auto].
    + intros k0 e s He. rewrite (Hsources k0 e s He), get_set.
      destruct (String.eqb_spec k k0) as [<-|Hkk].
      * split.
        -- intros [(e0 & [= <-] & Hs)|(p & Hp & Hpk & Hs)].
           ++ apply Hsrc in Hs as [Hs|Hs]; [|now left].
              right. exists cur. split; [now left|now split].
           ++ right. exists p. split; [now right|now split].
        -- intros [Hprev|(p & [<-|Hp] & Hpk & Hs)].
           ++ left. exists v'. split; [reflexivity|]. apply Hsrc. now right.
           ++ left. exists v'. split; [reflexivity|]. apply Hsrc. now left.
           ++ right. now exists p.
      * split.
        -- intros [H|(p & Hp & Hpk & Hs)]; [now left|].
           right. exists p. split; [now right|now split].
        -- intros [H|(p & [<-|Hp] & Hpk & Hs)]; [now left|congruence|].
           right. now exists p.
Qed.

Lemma StronglySorted_before {X : Type} (R : X -> X -> Prop) (l1 l2 : list X) (x : X) :
  StronglySorted R (l1 ++ x :: l2) -> Forall (fun y => R y x) l1.
Proof.
  induction l1 as [|y l1 IH]; simpl; [constructor|].
  intros H. inversion H as [|? ? Hs Hall]; subst. constructor.
  - rewrite List.Forall_forall in Hall. apply Hall. apply in_or_app. right. now left.
  - now apply IH.
Qed.

(** Reducing the values of a well-formed object, in their order, builds
    the same object again. *)
Lemma uniquePubSet_rebuild (o2 : Js.Object Publication) :
  forall o1 : Js.Object Publication,
    Utils.wellFormed (o1 ++ o2) ->
    uniquePubSet o1 (Js.values o2) = Js.Returned (o1 ++ o2).
Proof.
  induction o2 as [|[k v] o2 IH]; intros o1 Hwf; simpl.
  - now rewrite app_nil_r.
  - assert (Hwf' := Hwf). destruct Hwf' as (Hnd & Hord & Hval).
    destruct (Hval k v) as [Hv Hk]; [apply in_or_app; right; now left|].
    rewrite Hv. destruct (String.eqb_spec k ""); [contradiction|].
    assert (Js.get o1 k = None) as Hnone.
    { apply get_None. unfold Js.keys in *. rewrite map_app in Hnd. simpl in Hnd.
      apply NoDup_app in Hnd as (_ & Hdisj & _). intros Hin.
      apply (Hdisj k); [now apply list_elem_of_In|]. constructor. }
    rewrite Hnone. unfold Js.set at 1. rewrite Hnone.
    rewrite create_last by (eapply StronglySorted_before; exact Hord).
    rewrite IH; rewrite <- app_assoc; [reflexivity|exact Hwf].
Qed.

End DedupFacts.


(** The deduplication scenario of the specification: two strategies return
    PMID 222 and a third returns 333.  The result has two entries, in the
    enumeration order of the object's Js.keys; 222 carries both sources. *)
Example removeDuplicatePublications_scenario :
  Utils.removeDuplicatePublications
    [ Samples.pub "333" None ["google_scholar"];
      Samples.pub "222" None ["linked_at_registration"];
      Samples.pub "222" None ["pubmed_naive"] ]
  = Js.Returned
      [ Samples.pub "222" None ["pubmed_naive"; "linked_at_registration"];
        Samples.pub "333" None ["google_scholar"] ].
Proof. vm_compute. reflexivity. Qed.

(** An entry without a PMID makes the function throw. *)
Example removeDuplicatePublications_no_pmid :
  Utils.removeDuplicatePublications
    [ Samples.pub "222" None ["pubmed_naive"];
      {| pmid := None; doi := None; title := None; abstract := None;
         publicationDate := None; sources := ["pubmed_naive"] |} ]
  = Js.Threw "No pmid found in publication".
Proof. vm_compute. reflexivity. Qed.


(** ** discoverPublications *)

Section DiscoveryFacts.
Import Discovery.
Variable SEARCH_FUNCTIONS : gmap string StrategyFn.

Lemma searchFunctionsWithNames_known (strategies : list string) :
  (forall s, In s strategies -> is_Some (SEARCH_FUNCTIONS !! s)) ->
  exists fns,
    searchFunctionsWithNames SEARCH_FUNCTIONS strategies = Js.Returned fns
    /\ forall f s, In (f, s) fns <-> In s strategies /\ SEARCH_FUNCTIONS !! s = Some f.
Proof.
  induction strategies as [|x rest IH]; intros Hknown; simpl.
  - exists []. split; [reflexivity|]. intros f s. simpl. tauto.
  - destruct (Hknown x (or_introl eq_refl)) as [fx Hfx]. rewrite Hfx.
    destruct IH as (fns & -> & Hfns); [intros s Hs; apply Hknown; now right|].
    exists ((fx, x) :: fns). split; [reflexivity|].
    intros f s. simpl. rewrite Hfns. split.
    + intros [[= <- <-]|[Hs Hf]]; [split; [now left|exact Hfx]|split; [now right|exact Hf]].
    + intros [[<-|Hs] Hf]; [left; congruence|right; now split].
Qed.

Lemma wrapper_sources (f : StrategyFn) (s : string) (registration : option Registration)
    (c : Publication) :
  In c (results (wrapper f s registration)) -> sources c = [s].
Proof.
  unfold wrapper. destruct (call f registration) as [m|[rs|] err]; simpl; try tauto.
  intros Hin. apply in_map_iff in Hin as (c0 & <- & _). reflexivity.
Qed.

End DiscoveryFacts.

(** With a null registration the registry-link strategy fails; the error
    record names the function, not the strategy, and the candidates of the
    other strategy are returned. *)
Example discoverPublications_null_registration :
  Discovery.discoverPublications Samples.twoStrategies None
    ["linked_at_registration"; "pubmed_naive"]
  = Js.Returned
      {| Discovery.discoveredPublications :=
           [ {| pmid := Some "222"; doi := None; title := None; abstract := None;
                publicationDate := Some "2012-05-01";
                sources := ["pubmed_naive"] |} ];
         Discovery.errors := [Samples.nullRegistrationError] |}.
Proof. vm_compute. reflexivity. Qed.

(** The failure of the strategy [linked_at_registration] is not recorded
    under the strategy identifier. *)
Lemma discoverPublications_error_not_under_strategy_id :
  exists d,
    Discovery.discoverPublications Samples.twoStrategies None
      ["linked_at_registration"; "pubmed_naive"] = Js.Returned d
    /\ Discovery.call Discovery.searchLinkedAtRegistration None
       = Discovery.Throws "searchLinkedAtRegistration failed, null registration"
    /\ ~ In {| results := []; fn := Some "linked_at_registration";
               error := Some "searchLinkedAtRegistration failed, null registration" |}
           (Discovery.errors d)
    /\ forall e, In e (Discovery.errors d) -> fn e <> Some "linked_at_registration".
Proof.
  eexists. split; [vm_compute; reflexivity|]. split; [reflexivity|]. split.
  - intros [H|[]]. discriminate.
  - intros e [<-|[]]. discriminate.
Qed.

(** C9 (as amended).  For every registration and every list of strategies
    known to the registry, [discoverPublications] returns.  A strategy
    function that throws with a (non-empty) message is recorded in the
    returned errors as [{results: [], fn, error}], where [fn] is the name of
    the strategy function and [error] the message; this does not keep the
    candidates of the other strategies from being returned: every candidate
    a strategy function returns is in [discoveredPublications], tagged with
    its strategy; and every returned candidate carries, as its [sources],
    the identifier of the strategy that yielded it. *)
Theorem discoverPublications_isolates_failures :
  forall (SEARCH_FUNCTIONS : gmap string Discovery.StrategyFn)
         (registration : option Registration) (strategies : list string),
    (forall s, In s strategies -> is_Some (SEARCH_FUNCTIONS !! s)) ->
    exists d,
      Discovery.discoverPublications SEARCH_FUNCTIONS registration strategies
      = Js.Returned d
      /\ (forall s f message,
             In s strategies -> SEARCH_FUNCTIONS !! s = Some f ->
             Discovery.call f registration = Discovery.Throws message ->
             message <> "" ->
             In {| results := []; fn := Some (Discovery.name f);
                   error := Some message |}
                (Discovery.errors d))
      /\ (forall s f rs err c,
             In s strategies -> SEARCH_FUNCTIONS !! s = Some f ->
             Discovery.call f registration = Discovery.Returns (Some rs) err ->
             In c rs ->
             In (Discovery.withSource s c) (Discovery.discoveredPublications d))
      /\ (forall c,
             In c (Discovery.discoveredPublications d) ->
             exists s, In s strategies /\ sources c = [s]).
Proof.
  intros SEARCH_FUNCTIONS registration strategies Hknown.
  destruct (searchFunctionsWithNames_known SEARCH_FUNCTIONS strategies Hknown)
    as (fns & Hfns & Hin).
  unfold Discovery.discoverPublications. rewrite Hfns.
  eexists. split; [reflexivity|]. cbn [Discovery.errors Discovery.discoveredPublications].
  split; [|split].
  - intros s f message Hs Hf Hcall Hne.
    apply filter_In. split.
    + apply in_map_iff. exists (f, s). split; [|now apply Hin].
      unfold Discovery.wrapper. simpl. now rewrite Hcall.
    + simpl. now destruct (String.eqb_spec message "").
  - intros s f rs err c Hs Hf Hcall Hc.
    apply in_concat. exists (map (Discovery.withSource s) rs). split.
    + apply in_map_iff. exists (Discovery.wrapper f s registration). split.
      * unfold Discovery.wrapper. now rewrite Hcall.
      * apply in_map_iff. exists (f, s). split; [reflexivity|now apply Hin].
    + now apply in_map.
  - intros c Hc. apply in_concat in Hc as (l & Hl & Hc).
    apply in_map_iff in Hl as (r & <- & Hr).
    apply in_map_iff in Hr as ([f s] & <- & Hfs). simpl in Hc.
    exists s. split; [now apply Hin in Hfs as [? _]|].
    eapply wrapper_sources. exact Hc.
Qed.

Lemma discoverPublications_isolates_failures_witness :
  exists d,
    Discovery.discoverPublications Samples.twoStrategies None
      ["linked_at_registration"; "pubmed_naive"] = Js.Returned d
    /\ In Samples.nullRegistrationError (Discovery.errors d)
    /\ forall c, In c (Discovery.discoveredPublications d) ->
                 exists s, In s ["linked_at_registration"; "pubmed_naive"]
                           /\ sources c = [s].
Proof.
  assert (forall s, In s ["linked_at_registration"; "pubmed_naive"] ->
                    is_Some (Samples.twoStrategies !! s)) as H.
  { intros s [<-|[<-|[]]]; vm_compute; eauto. }
  destruct (discoverPublications_isolates_failures Samples.twoStrategies None
              ["linked_at_registration"; "pubmed_naive"] H)
    as (d & Hd & Herr & _ & Hsrc).
  exists d. split; [exact Hd|]. split; [|exact Hsrc].
  apply (Herr "linked_at_registration" Discovery.searchLinkedAtRegistration
           "searchLinkedAtRegistration failed, null registration").
  - left. reflexivity.
  - vm_compute. reflexivity.
  - reflexivity.
  - discriminate.
Defined.

(** ** loadProgress *)

(** A progress file that parses but records no input path is resumed: the
    stored stage and registrations are taken over, whatever the current
    input path is. *)
Lemma loadProgress_resumes_without_recorded_input :
  ProgressFile.prop Samples.fileWithoutInput "input" = Js.Returned None
  /\ ProgressFile.loadProgress (ProgressFile.Parsed Samples.fileWithoutInput)
       "trials.csv" "2026-01-02T08:00:00.000Z"
     <> ProgressFile.freshProgress "trials.csv" "2026-01-02T08:00:00.000Z"
  /\ ProgressFile.stage
       (ProgressFile.loadProgress (ProgressFile.Parsed Samples.fileWithoutInput)
          "trials.csv" "2026-01-02T08:00:00.000Z")
     = ProgressFile.JString "FINALIZE"
  /\ ProgressFile.registrations
       (ProgressFile.loadProgress (ProgressFile.Parsed Samples.fileWithoutInput)
          "trials.csv" "2026-01-02T08:00:00.000Z")
     = ProgressFile.JObject [("NCT00000001", ProgressFile.JObject [])].
Proof.
  split; [reflexivity|]. split; [|split; reflexivity].
  vm_compute. discriminate.
Qed.

(** A progress file written for another input is discarded. *)
Example loadProgress_other_input :
  ProgressFile.loadProgress (ProgressFile.Parsed Samples.fileForOtherInput)
    "trials.csv" "2026-01-02T08:00:00.000Z"
  = ProgressFile.freshProgress "trials.csv" "2026-01-02T08:00:00.000Z".
Proof. vm_compute. reflexivity. Qed.

(** C10 (as amended).  [loadProgress] returns a fresh Progress (stage PREP,
    empty registrations, publications, rows and batchJobs) when the
    progress file is absent, when it cannot be parsed, when it parses to
    [null], and when it records a non-empty input path different from the
    current one.  When the file parses to an object whose recorded input
    path is missing or empty, or equals the current input path, the run is
    resumed: every field is taken from the file where it is present and
    truthy, and has its fresh value otherwise. *)
Theorem loadProgress_fresh_or_resumed :
  forall (inputPath now : string),
    ProgressFile.loadProgress ProgressFile.Absent inputPath now
    = ProgressFile.freshProgress inputPath now
    /\ ProgressFile.loadProgress ProgressFile.Unparseable inputPath now
       = ProgressFile.freshProgress inputPath now
    /\ ProgressFile.loadProgress (ProgressFile.Parsed ProgressFile.JNull) inputPath now
       = ProgressFile.freshProgress inputPath now
    /\ (forall parsed recorded,
           ProgressFile.prop parsed "input" = Js.Returned (Some recorded) ->
           ProgressFile.truthy (Some recorded) = true ->
           recorded <> ProgressFile.JString inputPath ->
           ProgressFile.loadProgress (ProgressFile.Parsed parsed) inputPath now
           = ProgressFile.freshProgress inputPath now)
    /\ (forall fields,
           ProgressFile.truthy (ProgressFile.field fields "input") = false
           \/ ProgressFile.field fields "input"
              = Some (ProgressFile.JString inputPath) ->
           ProgressFile.loadProgress
             (ProgressFile.Parsed (ProgressFile.JObject fields)) inputPath now
           = {| ProgressFile.input := inputPath;
                ProgressFile.stage :=
                  ProgressFile.orElse (ProgressFile.field fields "stage")
                    ProgressFile.STAGES_PREP;
                ProgressFile.batchJobs :=
                  ProgressFile.orElse (ProgressFile.field fields "batchJobs")
                    (ProgressFile.JObject []);
                ProgressFile.rows :=
                  ProgressFile.orElse (ProgressFile.field fields "rows")
                    (ProgressFile.JObject []);
                ProgressFile.registrations :=
                  ProgressFile.orElse (ProgressFile.field fields "registrations")
                    (ProgressFile.JObject []);
                ProgressFile.publications :=
                  ProgressFile.orElse (ProgressFile.field fields "publications")
                    (ProgressFile.JObject []);
                ProgressFile.skippedCounts :=
                  ProgressFile.orElse (ProgressFile.field fields "skippedCounts")
                    ProgressFile.noSkips;
                ProgressFile.startedAt :=
                  ProgressFile.orElse (ProgressFile.field fields "startedAt")
                    (ProgressFile.JString now) |}).
Proof.
  intros inputPath now.
  split; [reflexivity|]. split; [reflexivity|]. split; [reflexivity|]. split.
  - intros parsed recorded Hprop Htruthy Hdiff.
    unfold ProgressFile.loadProgress, ProgressFile.resume. rewrite Hprop, Htruthy.
    assert (ProgressFile.differsFrom (Some recorded) inputPath = true) as ->.
    { destruct recorded as [| | |s| |]; try reflexivity. simpl.
      destruct (String.eqb_spec s inputPath) as [->|]; [contradiction|reflexivity]. }
    reflexivity.
  - intros fields Hinput.
    unfold ProgressFile.loadProgress, ProgressFile.resume. simpl.
    assert (ProgressFile.truthy (ProgressFile.field fields "input")
            && ProgressFile.differsFrom (ProgressFile.field fields "input") inputPath
            = false) as ->.
    { destruct Hinput as [->| ->]; [reflexivity|]. simpl.
      rewrite String.eqb_refl. apply andb_false_r. }
    reflexivity.
Qed.

Lemma loadProgress_fresh_or_resumed_witness :
  ProgressFile.loadProgress (ProgressFile.Parsed Samples.fileForOtherInput)
    "trials.csv" "2026-01-02T08:00:00.000Z"
  = ProgressFile.freshProgress "trials.csv" "2026-01-02T08:00:00.000Z"
  /\ ProgressFile.stage
       (ProgressFile.loadProgress (ProgressFile.Parsed Samples.fileForThisInput)
          "trials.csv" "2026-01-02T08:00:00.000Z")
     = ProgressFile.JString "PUB_DISCOVERY".
Proof.
  destruct (loadProgress_fresh_or_resumed "trials.csv" "2026-01-02T08:00:00.000Z")
    as (_ & _ & _ & Hfresh & Hresumed).
  split.
  - apply (Hfresh Samples.fileForOtherInput (ProgressFile.JString "other.csv")).
    + reflexivity.
    + reflexivity.
    + discriminate.
  - unfold Samples.fileForThisInput. rewrite Hresumed.
    + reflexivity.
    + right. reflexivity.
Defined.

(* ===================================================================== *)
(** * Further properties of the code                                       *)
(* ===================================================================== *)

(** ** stageResultGenPreparation: what the packing keeps *)

Section PackingFacts.
Import ResultGenPreparation.
Variable cfg : Config.

Lemma requestTotalTokens_nonneg (r : Request) : 0 <= requestTotalTokens cfg r.
Proof.
  unfold requestTotalTokens, systemTokensPerRequest, ceilQuarter.
  assert (forall n : N, 0 <= - (- Z.of_N n / 4)) as H.
  { intros n. assert (- Z.of_N n / 4 <= 0); [|lia].
    apply Z.div_le_upper_bound; lia. }
  pose proof (H (systemPromptLength cfg)).
  pose proof (H (userPromptLength cfg (registration r) (publication r))). lia.
Qed.

Lemma sumRequestTokens_nonneg (reqs : list Request) : 0 <= sumRequestTokens cfg reqs.
Proof.
  induction reqs as [|r reqs IH]; simpl; [lia|].
  pose proof (requestTotalTokens_nonneg r). lia.
Qed.

Lemma sumRequestTokens_app (a b : list Request) :
  sumRequestTokens cfg (a ++ b) = sumRequestTokens cfg a + sumRequestTokens cfg b.
Proof. induction a as [|r a IH]; simpl; [reflexivity|]. rewrite IH. lia. Qed.

(** Adding a request appends it to the requests held by the chunks. *)
Lemma addRequest_requests (st : Packing) (r : Request) :
  concat (map requests (allChunks (addRequest cfg st r)))
  = concat (map requests (allChunks st)) ++ [r].
Proof.
  unfold addRequest, allChunks.
  destruct (overflows cfg (currentChunk st) r); simpl;
    rewrite !map_app, !concat_app; simpl; rewrite ?app_nil_r, <- ?app_assoc;
    reflexivity.
Qed.

Lemma fold_addRequest_requests (reqs : list Request) (st : Packing) :
  concat (map requests (allChunks (fold_left (addRequest cfg) reqs st)))
  = concat (map requests (allChunks st)) ++ reqs.
Proof.
  revert st. induction reqs as [|r reqs IH]; intros st; simpl.
  - now rewrite app_nil_r.
  - rewrite IH, addRequest_requests, <- app_assoc. reflexivity.
Qed.

Lemma writtenChunks_requests (st : Packing) :
  concat (map requests (writtenChunks st)) = concat (map requests (allChunks st)).
Proof.
  unfold writtenChunks, allChunks.
  destruct (requests (currentChunk st)) eqn:E; [|reflexivity].
  rewrite map_app, concat_app. simpl. rewrite E. now rewrite !app_nil_r.
Qed.

(** The chunk counters are the sums over the requests held. *)
Lemma addRequest_tokens (st : Packing) (r : Request) :
  (forall c, In c (allChunks st) -> tokens c = sumRequestTokens cfg (requests c)) ->
  forall c, In c (allChunks (addRequest cfg st r)) ->
    tokens c = sumRequestTokens cfg (requests c).
Proof.
  intros H c. unfold addRequest, allChunks in *.
  destruct (overflows cfg (currentChunk st) r); simpl; intros Hin;
    apply in_app_or in Hin as [Hin|[<-|[]]]; simpl.
  - apply H. exact Hin.
  - lia.
  - apply H. apply in_or_app. now left.
  - rewrite sumRequestTokens_app. simpl.
    rewrite (H (currentChunk st)); [lia|]. apply in_or_app. right. now left.
Qed.

Lemma fold_addRequest_tokens (reqs : list Request) (st : Packing) :
  (forall c, In c (allChunks st) -> tokens c = sumRequestTokens cfg (requests c)) ->
  forall c, In c (allChunks (fold_left (addRequest cfg) reqs st)) ->
    tokens c = sumRequestTokens cfg (requests c).
Proof.
  revert st. induction reqs as [|r reqs IH]; intros st H; simpl; [exact H|].
  apply IH. now apply addRequest_tokens.
Qed.

Lemma pack_tokens (reqs : list Request) (c : WorkChunk) :
  In c (allChunks (pack cfg reqs)) -> tokens c = sumRequestTokens cfg (requests c).
Proof.
  apply fold_addRequest_tokens. intros c' [<-|[]]. reflexivity.
Qed.

(** Each chunk sits at the position its index names. *)
Lemma addRequest_indexed (st : Packing) (r : Request) :
  indexed (allChunks st) -> indexed (allChunks (addRequest cfg st r)).
Proof.
  unfold indexed, addRequest, allChunks. intros H i c.
  destruct (overflows cfg (currentChunk st) r); simpl; intros Hl.
  - apply lookup_app_Some in Hl as [Hl|[Hlen Hl]].
    + apply H. exact Hl.
    + apply list_lookup_singleton_Some in Hl as [Hi <-]. simpl.
      rewrite length_app in Hlen, Hi. simpl in Hlen, Hi. lia.
  - apply lookup_app_Some in Hl as [Hl|[Hlen Hl]].
    + apply H. apply lookup_app_Some. left. exact Hl.
    + apply list_lookup_singleton_Some in Hl as [Hi <-]. simpl.
      apply (H i (currentChunk st)). apply lookup_app_Some. right.
      split; [exact Hlen|]. apply list_lookup_singleton_Some. now split.
Qed.

Lemma pack_indexed (reqs : list Request) : indexed (allChunks (pack cfg reqs)).
Proof.
  unfold pack.
  assert (forall st, indexed (allChunks st) ->
            indexed (allChunks (fold_left (addRequest cfg) reqs st))) as H.
  { induction reqs as [|r reqs IH]; intros st Hst; simpl; [exact Hst|].
    apply IH. now apply addRequest_indexed. }
  apply H. intros i c Hl. unfold allChunks, initialPacking in Hl. simpl in Hl.
  apply list_lookup_singleton_Some in Hl as [-> <-]. reflexivity.
Qed.

Lemma writtenChunks_prefix (st : Packing) : writtenChunks st `prefix_of` allChunks st.
Proof.
  unfold writtenChunks, allChunks. destruct (requests (currentChunk st)).
  - now exists [currentChunk st].
  - exists []. now rewrite app_nil_r.
Qed.

Lemma writtenChunks_indexed (reqs : list Request) :
  indexed (writtenChunks (pack cfg reqs)).
Proof.
  intros i c Hl. apply (pack_indexed reqs).
  destruct (writtenChunks_prefix (pack cfg reqs)) as [k ->].
  apply lookup_app_Some. now left.
Qed.

Lemma addRequest_sealed (st : Packing) (r : Request) :
  sealed (addRequest cfg st r)
  = sealed st ++ (if overflows cfg (currentChunk st) r then [currentChunk st] else []).
Proof.
  unfold addRequest. destruct (overflows cfg (currentChunk st) r); simpl;
    now rewrite ?app_nil_r.
Qed.

Lemma addRequest_current (st : Packing) (r : Request) :
  requests (currentChunk (addRequest cfg st r)) <> [].
Proof.
  unfold addRequest. simpl. intros E. now apply app_eq_nil in E as [_ E].
Qed.

(** Once the chunk being filled holds a request, no chunk sealed later is
    empty. *)
Lemma fold_addRequest_sealed (reqs : list Request) (st : Packing) :
  requests (currentChunk st) <> [] ->
  exists more,
    sealed (fold_left (addRequest cfg) reqs st) = sealed st ++ more
    /\ Forall (fun c => requests c <> []) more
    /\ requests (currentChunk (fold_left (addRequest cfg) reqs st)) <> [].
Proof.
  revert st. induction reqs as [|r reqs IH]; intros st Hne; simpl.
  - exists []. rewrite app_nil_r. repeat split; [constructor|exact Hne].
  - destruct (IH _ (addRequest_current st r)) as (more & Hs & Hall & Hcur).
    rewrite addRequest_sealed in Hs.
    exists ((if overflows cfg (currentChunk st) r then [currentChunk st] else [])
            ++ more).
    rewrite Hs, <- app_assoc. repeat split; [|exact Hcur].
    apply Forall_app. split; [|exact Hall].
    destruct (overflows cfg (currentChunk st) r); repeat constructor. exact Hne.
Qed.

(** The chunks written for a non-empty list of requests: an empty chunk 0
    when the first request overflows the empty initial chunk, then chunks
    that all hold requests. *)
Lemma writtenChunks_cons (r : Request) (rest : list Request) :
  exists more,
    writtenChunks (pack cfg (r :: rest))
    = (if overflows cfg (currentChunk initialPacking) r
       then [currentChunk initialPacking] else []) ++ more
    /\ Forall (fun c => requests c <> []) more.
Proof.
  unfold pack. simpl fold_left.
  destruct (fold_addRequest_sealed rest _ (addRequest_current initialPacking r))
    as (more & Hs & Hall & Hcur).
  rewrite addRequest_sealed in Hs.
  set (st := fold_left (addRequest cfg) rest (addRequest cfg initialPacking r)) in *.
  exists (more ++ [currentChunk st]). split.
  - unfold writtenChunks. destruct (requests (currentChunk st)) eqn:E; [congruence|].
    rewrite Hs. simpl. now rewrite app_assoc.
  - apply Forall_app. split; [exact Hall|]. constructor; [exact Hcur|constructor].
Qed.

End PackingFacts.

Section PreparationStage.
Import ResultGenPreparation.
Variable cfg : Config.

Lemma sumRequestTokens_concat (chunks : list WorkChunk) :
  (forall c, In c chunks -> tokens c = sumRequestTokens cfg (requests c)) ->
  sumTokens (map chunkMetadata chunks)
  = sumRequestTokens cfg (concat (map requests chunks)).
Proof.
  induction chunks as [|c chunks IH]; intros H; simpl; [reflexivity|].
  rewrite sumRequestTokens_app, IH by (intros; apply H; simpl; tauto).
  rewrite <- (H c) by (simpl; tauto). reflexivity.
Qed.

Lemma written_requests (reqs : list Request) :
  concat (map requests (writtenChunks (pack cfg reqs))) = reqs.
Proof.
  rewrite writtenChunks_requests. unfold pack.
  rewrite fold_addRequest_requests. reflexivity.
Qed.

Lemma written_counters (reqs : list Request) (c : WorkChunk) :
  In c (writtenChunks (pack cfg reqs)) ->
  tokens c = sumRequestTokens cfg (requests c)
  /\ bytes c = sumBytes cfg (requests c).
Proof.
  intros Hw. apply writtenChunks_incl in Hw. split.
  - now apply (pack_tokens cfg reqs).
  - destruct (packInv_pack cfg reqs) as (Hc & _). now destruct (Hc c Hw) as [[Hb _] _].
Qed.

End PreparationStage.


(** X2.  The stage writes a chunk without requests exactly when the first
    request overflows the empty initial chunk (its size alone exceeds the
    effective byte cap, or [maxRequestsPerBatch] is not positive).  That
    chunk is chunk 0; every other written chunk holds at least one
    request. *)
Theorem stageResultGenPreparation_empty_chunk :
  forall (cfg : ResultGenPreparation.Config) (rows : list Row)
         (registrations : gmap string Registration) (pubs : gmap string PubData),
    exists written rd next,
      ResultGenPreparation.stageResultGenPreparation cfg rows registrations pubs
      = ResultGenPreparation.Saved written rd next
      /\ (forall (i : nat) c,
            written !! i = Some c -> ResultGenPreparation.requests c = [] ->
            i = 0%nat)
      /\ ((exists c, In c written /\ ResultGenPreparation.requests c = []) <->
          exists r rest,
            ResultGenPreparation.allRequests registrations pubs rows = r :: rest
            /\ ResultGenPreparation.overflows cfg
                 (ResultGenPreparation.currentChunk ResultGenPreparation.initialPacking)
                 r = true).
Proof.
  intros cfg rows registrations pubs.
  destruct (stageResultGenPreparation_Saved cfg rows registrations pubs)
    as (rd & next & E).
  eexists _, rd, next. split; [exact E|].
  destruct (ResultGenPreparation.allRequests registrations pubs rows) as [|r rest].
  - split.
    + intros i c Hl. destruct i; discriminate.
    + split; [intros (c & [] & _)|intros (r & rest & Hr & _); discriminate].
  - destruct (writtenChunks_cons cfg r rest) as (more & -> & Hall).
    rewrite List.Forall_forall in Hall.
    destruct (ResultGenPreparation.overflows cfg _ r) eqn:Eo; cbn [app].
    + split.
      * intros [|i] c Hl Hc; [reflexivity|]. exfalso. simpl in Hl.
        apply (Hall c); [|exact Hc].
        apply list_elem_of_In. now apply list_elem_of_lookup_2 in Hl.
      * split; [intros _; now exists r, rest|]. intros _.
        eexists. split; [now left|reflexivity].
    + split.
      * intros i c Hl Hc. exfalso. apply (Hall c); [|exact Hc].
        apply list_elem_of_In. now apply list_elem_of_lookup_2 in Hl.
      * split.
        -- intros (c & Hin & Hc). exfalso. now apply (Hall c).
        -- intros (r' & rest' & Hr & Ho). injection Hr as <- <-.
           rewrite Eo in Ho. discriminate.
Qed.


(** X4.  When a chunk may hold at least one request and every request fits
    the effective byte cap on its own, every chunk the stage writes holds
    between 1 and [maxRequestsPerBatch] requests and at most
    [effectiveMaxBytes] bytes. *)
Theorem stageResultGenPreparation_chunks_within_limits :
  forall (cfg : ResultGenPreparation.Config) (rows : list Row)
         (registrations : gmap string Registration) (pubs : gmap string PubData)
         written rd next,
    1 <= ResultGenPreparation.maxRequestsPerBatch cfg ->
    (forall r, In r (ResultGenPreparation.allRequests registrations pubs rows) ->
       ResultGenPreparation.requestBytes cfg r
       <= ResultGenPreparation.effectiveMaxBytes cfg) ->
    ResultGenPreparation.stageResultGenPreparation cfg rows registrations pubs
    = ResultGenPreparation.Saved written rd next ->
    forall c, In c written ->
      1 <= Z.of_nat (length (ResultGenPreparation.requests c))
        <= ResultGenPreparation.maxRequestsPerBatch cfg
      /\ ResultGenPreparation.bytes c <= ResultGenPreparation.effectiveMaxBytes cfg.
Proof.
  intros cfg rows registrations pubs written rd next Hmax Hfit E c Hin.
  destruct (stageResultGenPreparation_Saved cfg rows registrations pubs)
    as (rd' & next' & E').
  rewrite E in E'. injection E' as -> _ _.
  destruct (writtenChunks_within_limits cfg _ Hmax Hfit c Hin) as [Hn Hb].
  split; [split; [|exact Hn]|exact Hb].
  destruct (ResultGenPreparation.allRequests registrations pubs rows) as [|r rest].
  - destruct Hin.
  - destruct (writtenChunks_cons cfg r rest) as (more & Hw & Hall).
    rewrite Hw in Hin.
    assert (ResultGenPreparation.overflows cfg
              (ResultGenPreparation.currentChunk ResultGenPreparation.initialPacking) r
            = false) as Ho.
    { unfold ResultGenPreparation.overflows. simpl.
      pose proof (Hfit r (or_introl eq_refl)).
      apply orb_false_iff. split; [apply Z.leb_gt|apply Z.ltb_ge]; lia. }
    rewrite Ho in Hin. simpl in Hin. rewrite List.Forall_forall in Hall.
    specialize (Hall c Hin). destruct (ResultGenPreparation.requests c); [congruence|].
    simpl. lia.
Qed.

Lemma stageResultGenPreparation_chunks_within_limits_witness :
  exists c,
    ResultGenPreparation.stageResultGenPreparation Samples.roomyCap Samples.oneRow
      Samples.oneRegistration Samples.fourPublications
    = ResultGenPreparation.Saved (fst c) (fst (snd c)) (snd (snd c))
    /\ length (fst c) = 2%nat
    /\ forall w, In w (fst c) ->
         1 <= Z.of_nat (length (ResultGenPreparation.requests w)) <= 3
         /\ ResultGenPreparation.bytes w <= 9000.
Proof.
  destruct (stageResultGenPreparation_Saved Samples.roomyCap Samples.oneRow
              Samples.oneRegistration Samples.fourPublications) as (rd & next & E).
  eexists (_, (rd, next)). simpl. split; [exact E|]. split; [vm_compute; reflexivity|].
  apply (stageResultGenPreparation_chunks_within_limits Samples.roomyCap Samples.oneRow
           Samples.oneRegistration Samples.fourPublications _ rd next).
  - vm_compute. discriminate.
  - intros r _. vm_compute. discriminate.
  - exact E.
Defined.

(** ** stageResultGenUpload: blocking, progress and what is left alone *)

Section UploadCounting.
Import ResultGenUpload.

Lemma filter_withPositions (cs : list Chunk) (k : nat) :
  map snd (List.filter (fun pc => is_pending (status pc.2))
             (combine (seq k (length cs)) cs))
  = stillPending cs.
Proof.
  revert k. induction cs as [|c cs IH]; intros k; simpl; [reflexivity|].
  destruct (is_pending (status c)); simpl; now rewrite IH.
Qed.

Lemma pendingChunks_length (cs : list Chunk) :
  length (pendingChunks cs) = length (stillPending cs).
Proof.
  unfold pendingChunks.
  match goal with |- length (Js.sort ?lt ?l) = _ =>
    rewrite <- (Permutation_length (sort_perm lt l)) end.
  rewrite <- (filter_withPositions cs 0), length_map. reflexivity.
Qed.

Lemma stillPending_app (a b : list Chunk) :
  stillPending (a ++ b) = stillPending a ++ stillPending b.
Proof. apply List.filter_app. Qed.

(** Rewriting a pending chunk into one that is not pending removes one
    pending chunk. *)
Lemma stillPending_insert (cs : list Chunk) (i : nat) (c c' : Chunk) :
  cs !! i = Some c -> status c = pending -> is_pending (status c') = false ->
  (length (stillPending (<[i:=c']> cs)) + 1 = length (stillPending cs))%nat.
Proof.
  intros Hl Hc Hc'.
  rewrite insert_take_drop by (now apply lookup_lt_Some with c).
  rewrite <- (take_drop_middle cs i c Hl) at 3.
  rewrite !stillPending_app, !length_app. unfold stillPending. simpl.
  rewrite Hc', Hc. simpl. lia.
Qed.

Lemma uploadAll_length (env : Env) (sel : list (nat * Chunk))
    (cs : list Chunk) (d : DailyTokens) :
  length (uploadAll env sel cs d).1 = length cs.
Proof.
  revert cs d. induction sel as [|[j x] sel IH]; intros cs d; simpl; [reflexivity|].
  now rewrite IH, length_insert.
Qed.

Lemma uploadAll_pending (env : Env) (sel : list (nat * Chunk))
    (cs : list Chunk) (d : DailyTokens) :
  faithful cs sel ->
  (forall pc, In pc sel -> status pc.2 = pending) ->
  (length (stillPending (uploadAll env sel cs d).1) + length sel
   = length (stillPending cs))%nat.
Proof.
  revert cs d. induction sel as [|[j x] sel IH]; intros cs d [Hnd Hl] Hp; simpl.
  - lia.
  - simpl in Hnd. apply NoDup_cons in Hnd as [Hj Hnd].
    assert (faithful (<[j:=markUploaded env x]> cs) sel) as Hf.
    { split; [exact Hnd|]. intros i c Hin.
      rewrite list_lookup_insert_ne.
      - apply Hl. now right.
      - intros ->. apply Hj. apply list_elem_of_In.
        apply in_map_iff. now exists (i, c). }
    rewrite <- (stillPending_insert cs j x (markUploaded env x)).
    + rewrite <- (IH _ {| date := date d; tokens := tokens d + estimatedTokens x |} Hf).
      * lia.
      * intros pc Hin. apply Hp. now right.
    + apply Hl. now left.
    + apply (Hp (j, x)). now left.
    + reflexivity.
Qed.

Lemma resetIfNewDay_nonneg (t : string) (d : DailyTokens) :
  0 <= tokens d -> 0 <= tokens (resetIfNewDay t d).
Proof. unfold resetIfNewDay. destruct (String.eqb (date d) t); simpl; lia. Qed.

(** The stage applied to a record with pending chunks. *)
Lemma stage_with_pending (env : Env) (rd : ResultDetection)
    (first : nat * Chunk) (rest : list (nat * Chunk)) :
  pendingChunks (chunks rd) = first :: rest ->
  let d := resetIfNewDay (today env) (dailyTokensUsed rd) in
  let sel := chunksToUpload (maxTokensPerDay env - tokens d) (first :: rest) in
  stageResultGenUpload env (Some rd)
  = match sel with
    | [] => Threw (DailyQuotaExhausted (tokens d) first.2)
    | _ :: _ =>
        Saved {| chunks := (uploadAll env sel (chunks rd) d).1;
                 dailyTokensUsed := (uploadAll env sel (chunks rd) d).2;
                 totalEstimatedTokens := totalEstimatedTokens rd |}
              RESULT_GEN_POLL (map snd sel)
    end.
Proof.
  intros Hp d sel. unfold stageResultGenUpload. rewrite Hp. fold d. fold sel.
  destruct sel; [reflexivity|].
  now destruct (uploadAll env (p :: sel) (chunks rd) d).
Qed.

End UploadCounting.

(** X5.  A pending chunk that is first in index order and whose estimate
    exceeds [maxTokensPerDay] blocks the stage for good (the recorded daily
    counter being non-negative): whatever the day,
    the stage raises the daily-quota error naming that chunk, saves
    nothing, and so over any number of entries of the upload stage under
    that budget nothing is uploaded, not even the smaller chunks behind
    it. *)
Theorem stageResultGenUpload_oversized_chunk_blocks :
  forall (env : ResultGenUpload.Env) (rd : ResultDetection)
         (first : nat * Chunk) (rest : list (nat * Chunk))
         (steps : list ResultGenUpload.Step),
    ResultGenUpload.pendingChunks (chunks rd) = first :: rest ->
    0 <= tokens (dailyTokensUsed rd) ->
    ResultGenUpload.maxTokensPerDay env < estimatedTokens first.2 ->
    ResultGenUpload.uploadsOnly (ResultGenUpload.maxTokensPerDay env) steps ->
    ResultGenUpload.stageResultGenUpload env (Some rd)
    = ResultGenUpload.Threw
        (ResultGenUpload.DailyQuotaExhausted
           (tokens (ResultGenUpload.resetIfNewDay (ResultGenUpload.today env)
                      (dailyTokensUsed rd)))
           first.2)
    /\ ResultGenUpload.run steps rd = [].
Proof.
  intros env rd first rest steps Hp Hnn Hbig Hsteps.
  assert (forall env', ResultGenUpload.maxTokensPerDay env'
                       = ResultGenUpload.maxTokensPerDay env ->
            ResultGenUpload.stageResultGenUpload env' (Some rd)
            = ResultGenUpload.Threw
                (ResultGenUpload.DailyQuotaExhausted
                   (tokens (ResultGenUpload.resetIfNewDay (ResultGenUpload.today env')
                              (dailyTokensUsed rd)))
                   first.2)) as Hthrow.
  { intros env' Hm. rewrite (stage_with_pending env' rd first rest Hp).
    pose proof (resetIfNewDay_nonneg (ResultGenUpload.today env') _ Hnn).
    replace (ResultGenUpload.chunksToUpload _ (first :: rest)) with (@nil (nat * Chunk));
      [reflexivity|].
    symmetry. apply chunksToUpload_nil_iff. lia. }
  split; [now apply Hthrow|].
  induction Hsteps as [|s steps Hs Hsteps IH]; [reflexivity|].
  destruct s as [env'|f]; [|destruct Hs]. simpl.
  now rewrite (Hthrow env' Hs).
Qed.

Lemma stageResultGenUpload_oversized_chunk_blocks_witness :
  ResultGenUpload.stageResultGenUpload (Samples.envOn "2026-01-02" 100)
    (Some Samples.hugeThenSmall)
  = ResultGenUpload.Threw
      (ResultGenUpload.DailyQuotaExhausted 0 (Samples.pendingChunk 0 200))
  /\ ResultGenUpload.run Samples.threeMornings Samples.hugeThenSmall = [].
Proof.
  apply (stageResultGenUpload_oversized_chunk_blocks (Samples.envOn "2026-01-02" 100)
           Samples.hugeThenSmall (0%nat, Samples.pendingChunk 0 200)
           [(1%nat, Samples.pendingChunk 1 10)] Samples.threeMornings).
  - vm_compute. reflexivity.
  - vm_compute. discriminate.
  - vm_compute. reflexivity.
  - repeat constructor.
Defined.



(** X7.  Whenever the stage saves, the array of chunks keeps its length and
    the recorded total; every chunk record is either left exactly as it
    was or was pending and is now the uploaded version of itself, listed
    among the uploaded chunks; and the number of pending chunks drops by
    exactly the number of chunks uploaded.  A chunk that is not pending is
    therefore never uploaded again. *)
Theorem stageResultGenUpload_only_pending_change :
  forall (env : ResultGenUpload.Env) (rd rd' : ResultDetection) (next : Stage)
         (ups : list Chunk),
    ResultGenUpload.stageResultGenUpload env (Some rd)
    = ResultGenUpload.Saved rd' next ups ->
    length (chunks rd') = length (chunks rd)
    /\ totalEstimatedTokens rd' = totalEstimatedTokens rd
    /\ (forall (i : nat) c,
          chunks rd !! i = Some c ->
          chunks rd' !! i = Some c
          \/ (status c = pending /\ In c ups
              /\ chunks rd' !! i = Some (ResultGenUpload.markUploaded env c)))
    /\ (length (ResultGenUpload.stillPending (chunks rd')) + length ups
        = length (ResultGenUpload.stillPending (chunks rd)))%nat.
Proof.
  intros env rd rd' next ups E.
  destruct (ResultGenUpload.pendingChunks (chunks rd)) as [|first rest] eqn:Hp.
  - unfold ResultGenUpload.stageResultGenUpload in E. rewrite Hp in E.
    injection E as <- <- <-. cbn [chunks totalEstimatedTokens length].
    repeat split; [now left|lia].
  - rewrite (stage_with_pending env rd first rest Hp) in E.
    set (d := ResultGenUpload.resetIfNewDay (ResultGenUpload.today env)
                (dailyTokensUsed rd)) in *.
    set (sel := ResultGenUpload.chunksToUpload
                  (ResultGenUpload.maxTokensPerDay env - tokens d) (first :: rest)) in *.
    assert (sel `prefix_of` first :: rest) as Hpre by apply chunksToUpload_prefix.
    assert (ResultGenUpload.faithful (chunks rd) sel) as Hf.
    { apply faithful_prefix with (first :: rest); [exact Hpre|].
      rewrite <- Hp. apply pendingChunks_faithful. }
    assert (forall pc, In pc sel -> status pc.2 = pending) as Hpend.
    { intros pc Hin. apply (pendingChunks_In (chunks rd)). rewrite Hp.
      destruct Hpre as [k ->]. apply in_or_app. now left. }
    destruct sel as [|s sel'] eqn:Es; [discriminate|].
    pose proof (uploadAll_length env (s :: sel') (chunks rd) d) as Hlen.
    pose proof (uploadAll_pending env (s :: sel') (chunks rd) d Hf Hpend) as Hcount.
    destruct (uploadAll_chunks env (s :: sel') (chunks rd) d Hf) as [Hin Hout].
    set (R := ResultGenUpload.uploadAll env (s :: sel') (chunks rd) d) in *.
    injection E as <- <- <-. cbn [chunks totalEstimatedTokens].
    split; [exact Hlen|]. split; [reflexivity|]. split.
    + intros i c Hl.
      destruct (in_dec Nat.eq_dec i (map fst (s :: sel'))) as [Hi|Hi].
      * right. apply in_map_iff in Hi as ([j x] & Hj & Hx). simpl in Hj. subst j.
        assert (x = c) as ->.
        { destruct Hf as [_ Hf]. specialize (Hf i x Hx). congruence. }
        split; [exact (Hpend _ Hx)|]. split; [|now apply Hin].
        exact (in_map snd (s :: sel') (i, c) Hx).
      * left. rewrite Hout by exact Hi. exact Hl.
    + rewrite <- Hcount, <- (length_map snd (s :: sel')). reflexivity.
Qed.

Lemma stageResultGenUpload_only_pending_change_witness :
  exists rd' ups,
    ResultGenUpload.stageResultGenUpload (Samples.envOn "2026-01-02" 100)
      (Some Samples.threeChunks)
    = ResultGenUpload.Saved rd' RESULT_GEN_POLL ups
    /\ length (chunks rd') = 3%nat
    /\ (length (ResultGenUpload.stillPending (chunks rd')) + length ups = 3)%nat.
Proof.
  pose proof (stageResultGenUpload_only_pending_change
                (Samples.envOn "2026-01-02" 100) Samples.threeChunks) as H.
  destruct (ResultGenUpload.stageResultGenUpload (Samples.envOn "2026-01-02" 100)
              (Some Samples.threeChunks)) as [e|rd' next ups] eqn:E.
  - vm_compute in E. discriminate.
  - destruct (H rd' next ups eq_refl) as (Hlen & _ & _ & Hcount).
    exists rd', ups. vm_compute in E. injection E as _ <- _.
    split; [reflexivity|]. split; [exact Hlen|exact Hcount].
Defined.

(** ** removeDuplicatePublications: failure, kept entry and order *)

Section DedupMore.
Import Utils.

Lemma uniquePubSet_throws (pubs : list Publication) :
  Exists (fun p => Js.truthy (pmid p) = false) pubs ->
  forall prev, uniquePubSet prev pubs = Js.Threw "No pmid found in publication".
Proof.
  induction 1 as [cur rest Hcur|cur rest Hrest IH]; intros prev; simpl.
  - destruct (pmid cur) as [k|]; [|reflexivity]. simpl in Hcur.
    destruct (String.eqb k ""); [reflexivity|discriminate].
  - destruct (pmid cur) as [k|]; [|reflexivity].
    destruct (String.eqb k ""); [reflexivity|].
    destruct (Js.get prev k); apply IH.
Qed.

Lemma truthy_or_not (pubs : list Publication) :
  Forall (fun p => Js.truthy (pmid p) = true) pubs
  \/ Exists (fun p => Js.truthy (pmid p) = false) pubs.
Proof.
  induction pubs as [|p pubs [IH|IH]].
  - left. constructor.
  - destruct (Js.truthy (pmid p)) eqn:E.
    + left. now constructor.
    + right. now constructor.
  - right. now constructor.
Qed.

Lemma returned_all_truthy (pubs : list Publication) (out : list Publication) :
  removeDuplicatePublications pubs = Js.Returned out ->
  Forall (fun p => Js.truthy (pmid p) = true) pubs.
Proof.
  intros E. destruct (truthy_or_not pubs) as [H|H]; [exact H|].
  unfold removeDuplicatePublications in E.
  rewrite (uniquePubSet_throws pubs H []) in E. discriminate.
Qed.

Lemma samePayload_refl (a : Publication) : samePayload a a.
Proof. repeat split. Qed.

Lemma samePayload_trans (a b c : Publication) :
  samePayload a b -> samePayload b c -> samePayload a c.
Proof.
  intros (H1 & H2 & H3 & H4 & H5) (G1 & G2 & G3 & G4 & G5).
  repeat split; congruence.
Qed.

(** Every entry of the accumulator keeps the payload it had, or takes the
    payload of the first publication of the array with its PMID. *)
Lemma uniquePubSet_payload (pubs : list Publication) :
  forall prev o,
    uniquePubSet prev pubs = Js.Returned o ->
    forall k e,
      Js.get o k = Some e ->
      (exists e0, Js.get prev k = Some e0 /\ samePayload e e0)
      \/ (Js.get prev k = None
          /\ exists before p after,
               pubs = before ++ p :: after /\ pmid p = Some k
               /\ (forall q, In q before -> pmid q <> Some k)
               /\ samePayload e p).
Proof.
  induction pubs as [|cur rest IH]; intros prev o E k e He.
  - injection E as <-. left. exists e. split; [exact He|apply samePayload_refl].
  - simpl in E. destruct (pmid cur) as [curPmid|] eqn:Hcur; [|discriminate].
    destruct (String.eqb curPmid ""); [discriminate|].
    destruct (Js.get prev curPmid) as [kept|] eqn:Hkept.
    + destruct (IH _ _ E k e He) as [(e0 & He0 & Hsame)|(Hnone & b & p & a & -> & Hp & Hb & Hs)].
      * rewrite get_set in He0. destruct (String.eqb_spec curPmid k) as [<-|Hne].
        -- injection He0 as <-. left. exists kept. split; [exact Hkept|].
           apply samePayload_trans with (withMergedSources cur kept); [exact Hsame|].
           repeat split.
        -- left. now exists e0.
      * rewrite get_set in Hnone. destruct (String.eqb_spec curPmid k) as [<-|Hne];
          [discriminate|].
        right. split; [exact Hnone|]. exists (cur :: b), p, a.
        split; [reflexivity|]. split; [exact Hp|]. split; [|exact Hs].
        intros q [<-|Hq]; [congruence|now apply Hb].
    + destruct (IH _ _ E k e He) as [(e0 & He0 & Hsame)|(Hnone & b & p & a & -> & Hp & Hb & Hs)].
      * rewrite get_set in He0. destruct (String.eqb_spec curPmid k) as [<-|Hne].
        -- injection He0 as <-. right. split; [exact Hkept|].
           exists [], cur, rest. split; [reflexivity|]. split; [exact Hcur|].
           split; [intros q []|exact Hsame].
        -- left. now exists e0.
      * rewrite get_set in Hnone. destruct (String.eqb_spec curPmid k) as [<-|Hne];
          [discriminate|].
        right. split; [exact Hnone|]. exists (cur :: b), p, a.
        split; [reflexivity|]. split; [exact Hp|]. split; [|exact Hs].
        intros q [<-|Hq]; [congruence|now apply Hb].
Qed.

Lemma StronglySorted_values {V : Type} (R : string * V -> string * V -> Prop)
    (R' : V -> V -> Prop) (o : Js.Object V) :
  (forall a b, In a o -> In b o -> R a b -> R' a.2 b.2) ->
  StronglySorted R o -> StronglySorted R' (Js.values o).
Proof.
  intros HR. induction 1 as [|a o Hs IH Hall]; simpl; constructor.
  - apply IH. intros x y Hx Hy. apply HR; now right.
  - rewrite List.Forall_forall in *. intros v Hv.
    apply in_map_iff in Hv as (b & <- & Hb). apply HR; [now left|now right|].
    now apply Hall.
Qed.

End DedupMore.


(** X9.  The entry returned for a PMID is the first publication of the
    input with that PMID, except for its [sources]: its DOI, title,
    abstract and publication date are those of the first occurrence, and
    what later occurrences carry in these fields is discarded. *)
Theorem removeDuplicatePublications_keeps_first_occurrence :
  forall (pubs out : list Publication) (e : Publication),
    Utils.removeDuplicatePublications pubs = Js.Returned out ->
    In e out ->
    exists before p after,
      pubs = before ++ p :: after
      /\ (forall q, In q before -> pmid q <> pmid e)
      /\ Utils.samePayload e p.
Proof.
  intros pubs out e E Hin.
  pose proof (returned_all_truthy pubs out E) as Hall.
  destruct (uniquePubSet_spec pubs [] wellFormed_empty Hall) as (o & Ho & Hwf & _).
  unfold Utils.removeDuplicatePublications in E. rewrite Ho in E. injection E as <-.
  apply in_map_iff in Hin as ([k v] & <- & Hkv). simpl.
  destruct Hwf as (Hnd & _ & Hval). destruct (Hval k v Hkv) as [Hv _].
  pose proof (In_get _ _ _ Hnd Hkv) as Hget.
  destruct (uniquePubSet_payload pubs [] o Ho k v Hget)
    as [(e0 & He0 & _)|(_ & b & p & a & Hp & Hpk & Hb & Hs)]; [discriminate|].
  exists b, p, a. split; [exact Hp|]. split; [|exact Hs].
  rewrite Hv. exact Hb.
Qed.

Lemma removeDuplicatePublications_keeps_first_occurrence_witness :
  Utils.removeDuplicatePublications Samples.foundTwice
  = Js.Returned
      [ Samples.pub "111" None ["linked_at_registration"];
        Samples.pub "222" (Some "2012") ["google_scholar"; "pubmed_naive"] ]
  /\ exists before p after,
       Samples.foundTwice = before ++ p :: after
       /\ (forall q, In q before -> pmid q <> Some "222")
       /\ Utils.samePayload
            (Samples.pub "222" (Some "2012") ["google_scholar"; "pubmed_naive"]) p.
Proof.
  assert (Utils.removeDuplicatePublications Samples.foundTwice
          = Js.Returned
              [ Samples.pub "111" None ["linked_at_registration"];
                Samples.pub "222" (Some "2012") ["google_scholar"; "pubmed_naive"] ])
    as E by (vm_compute; reflexivity).
  split; [exact E|].
  apply (removeDuplicatePublications_keeps_first_occurrence Samples.foundTwice _
           (Samples.pub "222" (Some "2012") ["google_scholar"; "pubmed_naive"]) E).
  right. now left.
Defined.

(** X10.  The result is in the enumeration order of the object the entries
    are collected in, not in input order: when every PMID is a canonical
    decimal numeral (an array index, as PubMed identifiers are), the
    returned entries stand in non-decreasing numeric order of their PMIDs,
    however the input was ordered. *)
Theorem removeDuplicatePublications_numeric_order :
  forall pubs out : list Publication,
    Utils.removeDuplicatePublications pubs = Js.Returned out ->
    Forall (fun p => is_Some (Utils.pmidIndex p)) pubs ->
    StronglySorted
      (fun a b => exists na nb,
           Utils.pmidIndex a = Some na /\ Utils.pmidIndex b = Some nb /\ (na <= nb)%N)
      out.
Proof.
  intros pubs out E Hidx.
  pose proof (returned_all_truthy pubs out E) as Hall.
  destruct (uniquePubSet_spec pubs [] wellFormed_empty Hall)
    as (o & Ho & Hwf & Hdom & _).
  unfold Utils.removeDuplicatePublications in E. rewrite Ho in E. injection E as <-.
  destruct Hwf as (Hnd & Hord & Hval).
  assert (forall k v, In (k, v) o ->
            Utils.pmidIndex v = Js.arrayIndex k /\ is_Some (Js.arrayIndex k)) as Hkey.
  { intros k v Hkv. destruct (Hval k v Hkv) as [Hv _].
    unfold Utils.pmidIndex. rewrite Hv. split; [reflexivity|].
    assert (is_Some (Js.get o k)) as Hs by (rewrite (In_get _ _ _ Hnd Hkv); eauto).
    apply Hdom in Hs as [[x Hx]|Hin]; [discriminate|].
    apply in_map_iff in Hin as (p & Hp & Hin).
    rewrite List.Forall_forall in Hidx. specialize (Hidx p Hin).
    unfold Utils.pmidIndex in Hidx. now rewrite Hp in Hidx. }
  apply StronglySorted_values with (R := Js.inOrder); [|exact Hord].
  intros [ka a] [kb b] Ha Hb Hab. simpl.
  destruct (Hkey ka a Ha) as [-> [na Hna]]. destruct (Hkey kb b Hb) as [-> [nb Hnb]].
  exists na, nb. split; [exact Hna|]. split; [exact Hnb|].
  unfold Js.inOrder, Js.precedes in Hab. simpl in Hab. rewrite Hna, Hnb in Hab.
  apply N.ltb_ge in Hab. exact Hab.
Qed.

Lemma removeDuplicatePublications_numeric_order_witness :
  StronglySorted
    (fun a b => exists na nb,
         Utils.pmidIndex a = Some na /\ Utils.pmidIndex b = Some nb /\ (na <= nb)%N)
    [ Samples.pub "111" None ["linked_at_registration"];
      Samples.pub "222" (Some "2012") ["google_scholar"; "pubmed_naive"] ].
Proof.
  apply (removeDuplicatePublications_numeric_order Samples.foundTwice).
  - vm_compute. reflexivity.
  - repeat constructor; vm_compute; eauto.
Defined.

(** ** maxDateFilter and minDateFilter: partition and complement *)

Section DateFilterMore.
Import Utils.
Variable parseDate : string -> option Z.

Lemma splitByDate_sublists (keep : Z -> bool) (pubs : list (option Publication)) :
  sublist (eligible (splitByDate parseDate keep pubs)) pubs
  /\ sublist (filtered (splitByDate parseDate keep pubs)) pubs
  /\ Forall (fun x => hasDate x = true) (filtered (splitByDate parseDate keep pubs))
  /\ (length (eligible (splitByDate parseDate keep pubs))
      + length (filtered (splitByDate parseDate keep pubs))
      + length (List.filter (unparseable parseDate) pubs) = length pubs)%nat.
Proof.
  induction pubs as [|x pubs (IHe & IHf & IHd & IHn)].
  - simpl. repeat split; constructor.
  - cbn [splitByDate List.filter].
    assert (unparseable parseDate x
            = match x ≫= publicationDate with
              | Some d => negb (String.eqb d "")
                          && negb (bool_decide (is_Some (parseDate d)))
              | None => false
              end) as Hu by reflexivity.
    assert (forall d, x ≫= publicationDate = Some d -> String.eqb d "" = false ->
              hasDate x = true) as Hd.
    { intros d Ed Ee. unfold hasDate. rewrite Ed. simpl. now rewrite Ee. }
    destruct (x ≫= publicationDate) as [d|] eqn:Ed.
    + destruct (String.eqb d "") eqn:Ee.
      * rewrite Hu. cbn [negb andb eligible filtered length].
        split; [now apply sublist_skip|]. split; [now apply sublist_cons|].
        split; [exact IHd|lia].
      * destruct (parseDate d) as [t|] eqn:Ep.
        -- rewrite Hu, bool_decide_eq_true_2 by eauto.
           destruct (keep t); cbn [negb andb eligible filtered length].
           ++ split; [now apply sublist_skip|]. split; [now apply sublist_cons|].
              split; [exact IHd|lia].
           ++ split; [now apply sublist_cons|]. split; [now apply sublist_skip|].
              split; [|lia]. constructor; [|exact IHd]. now apply (Hd d).
        -- rewrite Hu, bool_decide_eq_false_2 by (intros [? ?]; discriminate).
           cbn [negb andb eligible filtered length].
           split; [now apply sublist_cons|]. split; [now apply sublist_cons|].
           split; [exact IHd|lia].
    + rewrite Hu. cbn [eligible filtered length].
      split; [now apply sublist_skip|]. split; [now apply sublist_cons|].
      split; [exact IHd|lia].
Qed.

(** With the same cut-off, what one test keeps among the dated entries is
    what the opposite test sets aside. *)
Lemma splitByDate_complement (cutoffDate : Z) (pubs : list (option Publication)) :
  let rmax := splitByDate parseDate (fun pubDate => pubDate <? cutoffDate) pubs in
  let rmin := splitByDate parseDate (fun pubDate => cutoffDate <=? pubDate) pubs in
  filtered rmax = List.filter hasDate (eligible rmin)
  /\ filtered rmin = List.filter hasDate (eligible rmax)
  /\ List.filter (fun x => negb (hasDate x)) (eligible rmax)
     = List.filter (fun x => negb (hasDate x)) (eligible rmin).
Proof.
  cbv zeta. induction pubs as [|x pubs (IH1 & IH2 & IH3)]; [repeat split|].
  cbn [splitByDate].
  assert (hasDate x = Js.truthy (x ≫= publicationDate)) as Hh by reflexivity.
  destruct (x ≫= publicationDate) as [d|] eqn:Ed.
  - simpl in Hh. destruct (String.eqb d "") eqn:Ee; simpl in Hh.
    + cbn [eligible filtered List.filter]. rewrite Hh. cbn [negb].
      split; [exact IH1|]. split; [exact IH2|]. now f_equal.
    + destruct (parseDate d) as [t|]; [|now repeat split].
      rewrite (Z.ltb_antisym cutoffDate t).
      destruct (cutoffDate <=? t); cbn [negb eligible filtered List.filter];
        rewrite ?Hh; cbn [negb]; (split; [|split]);
        try assumption; now f_equal.
  - simpl in Hh. cbn [eligible filtered List.filter]. rewrite Hh. cbn [negb].
    split; [exact IH1|]. split; [exact IH2|]. now f_equal.
Qed.

End DateFilterMore.

(** X11.  Either date filter splits its input without reordering or
    duplicating: [eligible] and [filtered] are subsequences of the input,
    no entry is in both, every entry of [filtered] has a publication date,
    and the lengths of the two arrays plus the number of entries whose date
    is present but unparseable add up to the length of the input (only
    those entries are dropped). *)
Theorem dateFilters_partition :
  forall (parseDate : string -> option Z) (pubs : list (option Publication))
         (cutoff : option string) (r : Utils.Filtered),
    Utils.maxDateFilter parseDate pubs cutoff = Js.Returned r
    \/ Utils.minDateFilter parseDate pubs cutoff = Js.Returned r ->
    sublist (Utils.eligible r) pubs
    /\ sublist (Utils.filtered r) pubs
    /\ (forall x, In x (Utils.eligible r) -> In x (Utils.filtered r) -> False)
    /\ Forall (fun x => Utils.hasDate x = true) (Utils.filtered r)
    /\ (length (Utils.eligible r) + length (Utils.filtered r)
        + length (List.filter (Utils.unparseable parseDate) pubs)
        = length pubs)%nat.
Proof.
  intros parseDate pubs cutoff r H.
  assert (exists keep, r = Utils.splitByDate parseDate keep pubs) as [keep ->].
  { destruct H as [H|H]; [unfold Utils.maxDateFilter in H|unfold Utils.minDateFilter in H];
      destruct (negb (Js.truthy cutoff)); try discriminate;
      destruct (parseDate (default "" cutoff)); try discriminate;
      injection H as <-; eauto. }
  destruct (splitByDate_sublists parseDate keep pubs) as (He & Hf & Hd & Hn).
  split; [exact He|]. split; [exact Hf|]. split; [|split; [exact Hd|exact Hn]].
  intros x Hx Hy. apply splitByDate_eligible in Hx as [_ Hx].
  apply splitByDate_filtered in Hy as [_ Hy]. congruence.
Qed.

Lemma dateFilters_partition_witness :
  exists r,
    Utils.minDateFilter Js.isoDateTime
      [Some Samples.pubA; Some Samples.pubU; Some Samples.pubB; Some Samples.pubC; None]
      (Some "2010-01-01")
    = Js.Returned r
    /\ Utils.eligible r = [Some Samples.pubB; Some Samples.pubC; None]
    /\ Utils.filtered r = [Some Samples.pubA]
    /\ (length (Utils.eligible r) + length (Utils.filtered r) + 1 = 5)%nat.
Proof.
  eexists. split; [vm_compute; reflexivity|]. split; [reflexivity|].
  split; [reflexivity|].
  destruct (dateFilters_partition Js.isoDateTime
              [Some Samples.pubA; Some Samples.pubU; Some Samples.pubB;
               Some Samples.pubC; None]
              (Some "2010-01-01") _ (or_intror eq_refl)) as (_ & _ & _ & _ & Hn).
  exact Hn.
Defined.

(** X12.  The two filters are complementary at the same cut-off date: the
    dated entries [minDateFilter] keeps are exactly the ones
    [maxDateFilter] sets aside and conversely, each list in input order,
    while the entries without a date are kept by both. *)
Theorem dateFilters_complementary :
  forall (parseDate : string -> option Z) (pubs : list (option Publication))
         (cutoff : option string) (rmax rmin : Utils.Filtered),
    Utils.maxDateFilter parseDate pubs cutoff = Js.Returned rmax ->
    Utils.minDateFilter parseDate pubs cutoff = Js.Returned rmin ->
    Utils.filtered rmax = List.filter Utils.hasDate (Utils.eligible rmin)
    /\ Utils.filtered rmin = List.filter Utils.hasDate (Utils.eligible rmax)
    /\ List.filter (fun x => negb (Utils.hasDate x)) (Utils.eligible rmax)
       = List.filter (fun x => negb (Utils.hasDate x)) (Utils.eligible rmin).
Proof.
  intros parseDate pubs cutoff rmax rmin Hmax Hmin.
  unfold Utils.maxDateFilter in Hmax. unfold Utils.minDateFilter in Hmin.
  destruct (negb (Js.truthy cutoff)); [discriminate|].
  destruct (parseDate (default "" cutoff)) as [cutoffDate|]; [|discriminate].
  injection Hmax as <-. injection Hmin as <-.
  apply splitByDate_complement.
Qed.

Lemma dateFilters_complementary_witness :
  exists rmax rmin,
    Utils.maxDateFilter Js.isoDateTime
      [Some Samples.pubA; Some Samples.pubB; Some Samples.pubC] (Some "2010-01-01")
    = Js.Returned rmax
    /\ Utils.minDateFilter Js.isoDateTime
         [Some Samples.pubA; Some Samples.pubB; Some Samples.pubC] (Some "2010-01-01")
       = Js.Returned rmin
    /\ Utils.filtered rmax = [Some Samples.pubB]
    /\ Utils.filtered rmax = List.filter Utils.hasDate (Utils.eligible rmin).
Proof.
  eexists _, _. split; [vm_compute; reflexivity|]. split; [vm_compute; reflexivity|].
  split; [reflexivity|].
  apply (dateFilters_complementary Js.isoDateTime
           [Some Samples.pubA; Some Samples.pubB; Some Samples.pubC]
           (Some "2010-01-01") _ _ eq_refl eq_refl).
Defined.

(** ** stageFinalize: the rows written and the unreadable classifications *)

Section FinalizeMore.
Import Finalize.
Variable dir : ResultDir.

Lemma finalizeRows_lookup (registrations : gmap string Registration)
    (pubs : gmap string PubData) (rows : list Row) (k i : nat) (s : Summary) :
  In (i, s) (finalizeRows dir registrations pubs k rows) <->
  (k <= i)%nat
  /\ exists row trialId pubData,
       rows !! (i - k)%nat = Some row
       /\ ready registrations pubs row = Some (trialId, pubData)
       /\ s = summaryOf dir trialId pubData.
Proof.
  revert k. induction rows as [|row rows IH]; intros k.
  - simpl. split; [tauto|]. intros (_ & row & t & pd & Hl & _). discriminate.
  - assert (In (i, s) (finalizeRows dir registrations pubs (S k) rows) <->
            (S k <= i)%nat
            /\ exists row0 trialId pubData,
                 (row :: rows) !! (i - k)%nat = Some row0
                 /\ ready registrations pubs row0 = Some (trialId, pubData)
                 /\ s = summaryOf dir trialId pubData) as Hrest.
    { rewrite IH. split; intros (Hle & row0 & t & pd & Hl & Hr).
      - split; [exact Hle|]. exists row0, t, pd. split; [|exact Hr].
        replace (i - k)%nat with (S (i - S k)) by lia. exact Hl.
      - split; [exact Hle|]. exists row0, t, pd. split; [|exact Hr].
        replace (i - k)%nat with (S (i - S k)) in Hl by lia. exact Hl. }
    assert (ready registrations pubs row = None ->
            (In (i, s) (finalizeRows dir registrations pubs (S k) rows) <->
             (k <= i)%nat
             /\ exists row0 trialId pubData,
                  (row :: rows) !! (i - k)%nat = Some row0
                  /\ ready registrations pubs row0 = Some (trialId, pubData)
                  /\ s = summaryOf dir trialId pubData)) as Hskip.
    { intros Hnone. rewrite Hrest. split; intros (Hle & row0 & t & pd & Hl & Hr).
      - split; [lia|]. now exists row0, t, pd.
      - destruct (Nat.eq_dec i k) as [->|Hne].
        + rewrite Nat.sub_diag in Hl. injection Hl as <-. destruct Hr as [Hr _].
          congruence.
        + split; [lia|]. now exists row0, t, pd. }
    simpl finalizeRows. unfold ready in Hskip.
    destruct (String.eqb (extractTrialId row) "") eqn:E; [now apply Hskip|].
    destruct (registrations !! extractTrialId row) as [reg|] eqn:Er;
      [|now apply Hskip].
    destruct (pubs !! extractTrialId row) as [pd|] eqn:Ep; [|now apply Hskip].
    clear Hskip. simpl. rewrite Hrest. split.
    + intros [H|(Hle & row0 & t & pd0 & Hl & Hr)].
      * injection H as <- <-. split; [lia|]. exists row, (extractTrialId row), pd.
        rewrite Nat.sub_diag. split; [reflexivity|]. split; [|reflexivity].
        unfold ready. now rewrite E, Er, Ep.
      * split; [lia|]. now exists row0, t, pd0.
    + intros (Hle & row0 & t & pd0 & Hl & Hr & Hs).
      destruct (Nat.eq_dec i k) as [->|Hne].
      * left. rewrite Nat.sub_diag in Hl. injection Hl as <-.
        unfold ready in Hr. rewrite E, Er, Ep in Hr. injection Hr as <- <-.
        now rewrite Hs.
      * right. split; [lia|]. now exists row0, t, pd0.
Qed.

Lemma finalizeRows_increasing (registrations : gmap string Registration)
    (pubs : gmap string PubData) (rows : list Row) (k : nat) :
  StronglySorted (fun a b => (a < b)%nat)
    (map fst (finalizeRows dir registrations pubs k rows)).
Proof.
  revert k. induction rows as [|row rows IH]; intros k; simpl; [constructor|].
  assert (Forall (fun j => (k < j)%nat)
            (map fst (finalizeRows dir registrations pubs (S k) rows))) as Hlt.
  { apply List.Forall_forall. intros j Hj. apply in_map_iff in Hj as ([j' s] & <- & Hin).
    apply finalizeRows_lookup in Hin as [Hle _]. simpl. lia. }
  destruct (String.eqb (extractTrialId row) ""); [apply IH|].
  destruct (registrations !! extractTrialId row); [|apply IH].
  destruct (pubs !! extractTrialId row); [|apply IH].
  simpl. constructor; [apply IH|exact Hlt].
Qed.

Lemma loadDetection_missing (trialId : string) (pub : Publication) :
  (loadDetection dir trialId pub).2 = true <-> unreadable dir trialId pub.
Proof.
  unfold loadDetection, unreadable.
  destruct (dir !! resultKey trialId pub) as [[m|d]|]; simpl; split;
    try tauto; try discriminate.
Qed.

Lemma unreadable_not_positive (trialId : string) (pub : Publication) :
  unreadable dir trialId pub -> positive (loadDetection dir trialId pub).1 = false.
Proof.
  unfold loadDetection, unreadable.
  destruct (dir !! resultKey trialId pub) as [[m|d]|]; simpl; tauto.
Qed.

Lemma length_zero_iff {X : Type} (l : list X) :
  negb (Nat.eqb (length l) 0) = true <-> exists x, In x l.
Proof.
  destruct l as [|x l]; simpl; split; try discriminate.
  - intros [x []].
  - intros _. exists x. now left.
  - reflexivity.
Qed.

End FinalizeMore.


(** X14.  In every summary written by stage FINALIZE, a publication (with a
    PMID) whose stored classification is missing or is not JSON is listed
    in [failed_result_discoveries] and is never counted as a result; and
    [has_error] is true exactly when the trial has a recorded discovery
    error or some such publication. *)
Theorem stageFinalize_unreadable_classification :
  forall (dir : Finalize.ResultDir) (rows : list Row)
         (registrations : gmap string Registration) (pubs : gmap string PubData)
         (i : nat) (s : Finalize.Summary),
    In (i, s) (Finalize.stageFinalize dir rows registrations pubs).1 ->
    exists trialId pubData,
      pubs !! trialId = Some pubData
      /\ s = Finalize.summaryOf dir trialId pubData
      /\ Finalize.failed_result_discoveries s
         = Js.join ","
             (map (default "") (Finalize.failedResultDiscoveries dir trialId pubData))
      /\ (forall pub,
            In pub (Finalize.publicationsWithPmids pubData) ->
            Finalize.unreadable dir trialId pub ->
            In (pmid pub) (Finalize.failedResultDiscoveries dir trialId pubData)
            /\ ~ Finalize.classifiedPositive dir trialId pub)
      /\ (forall id,
            In id (Finalize.failedResultDiscoveries dir trialId pubData) ->
            exists pub, In pub (Finalize.publicationsWithPmids pubData)
                        /\ pmid pub = id /\ Finalize.unreadable dir trialId pub)
      /\ (Finalize.has_error s = true <->
          default [] (errors pubData) <> []
          \/ exists pub, In pub (Finalize.publicationsWithPmids pubData)
                         /\ Finalize.unreadable dir trialId pub).
Proof.
  intros dir rows registrations pubs i s Hin. simpl in Hin.
  apply finalizeRows_lookup in Hin as (_ & row & trialId & pubData & _ & Hr & ->).
  exists trialId, pubData.
  assert (pubs !! trialId = Some pubData) as Hp.
  { unfold Finalize.ready in Hr.
    destruct (String.eqb (extractTrialId row) ""); [discriminate|].
    destruct (registrations !! extractTrialId row); [|discriminate].
    destruct (pubs !! extractTrialId row) eqn:E; [|discriminate].
    injection Hr as <- <-. exact E. }
  split; [exact Hp|]. split; [reflexivity|]. split; [reflexivity|].
  assert (forall id,
            In id (Finalize.failedResultDiscoveries dir trialId pubData) <->
            exists pub, In pub (Finalize.publicationsWithPmids pubData)
                        /\ pmid pub = id /\ Finalize.unreadable dir trialId pub)
    as Hfailed.
  { intros id. unfold Finalize.failedResultDiscoveries. rewrite in_map_iff. split.
    - intros (pub & <- & Hpub). apply filter_In in Hpub as [Hpub Hm].
      exists pub. split; [exact Hpub|]. split; [reflexivity|].
      now apply loadDetection_missing.
    - intros (pub & Hpub & <- & Hu). exists pub. split; [reflexivity|].
      apply filter_In. split; [exact Hpub|]. now apply loadDetection_missing. }
  split; [|split].
  - intros pub Hpub Hu. split.
    + apply Hfailed. now exists pub.
    + unfold Finalize.classifiedPositive. rewrite unreadable_not_positive by exact Hu.
      discriminate.
  - intros id Hid. now apply Hfailed.
  - cbn [Finalize.summaryOf Finalize.has_error].
    rewrite orb_true_iff, !length_zero_iff. split.
    + intros [[e He]|[id Hid]].
      * left. intros E. rewrite E in He. destruct He.
      * right. apply Hfailed in Hid as (pub & Hpub & _ & Hu). now exists pub.
    + intros [Hne|(pub & Hpub & Hu)].
      * left. destruct (default [] (errors pubData)) as [|e l]; [congruence|].
        exists e. now left.
      * right. exists (pmid pub). apply Hfailed. now exists pub.
Qed.

Lemma stageFinalize_unreadable_classification_witness :
  exists pubData,
    Samples.fourPublications !! "NCT00000001" = Some pubData
    /\ Finalize.failed_result_discoveries Samples.fourSummary = "444"
    /\ Finalize.has_error Samples.fourSummary = true
    /\ In (Some "444")
         (Finalize.failedResultDiscoveries Samples.fourResults "NCT00000001" pubData).
Proof.
  destruct (stageFinalize_unreadable_classification Samples.fourResults Samples.oneRow
              Samples.oneRegistration Samples.fourPublications 0%nat Samples.fourSummary)
    as (trialId & pubData & Hp & Hs & _ & Hu & _ & _).
  - vm_compute. now left.
  - assert (trialId = "NCT00000001") as ->.
    { apply (f_equal Finalize.nct_id) in Hs. simpl in Hs. now symmetry. }
    exists pubData. split; [exact Hp|]. split; [reflexivity|]. split; [reflexivity|].
    assert (pubData
            = {| publications :=
                   Some [ Samples.pub "111" (Some "2020-01")
                            ["linked_at_registration"; "pubmed_naive"];
                          Samples.pub "222" (Some "2020") ["pubmed_naive"];
                          Samples.pub "333" (Some "2019") ["google_scholar"];
                          Samples.pub "444" None ["google_scholar"] ];
                 errors := None |}) as ->.
    { vm_compute in Hp. now injection Hp as <-. }
    apply (Hu (Samples.pub "444" None ["google_scholar"])).
    + vm_compute. tauto.
    + vm_compute. exact I.
Defined.

(** ** discoverPublications: unknown strategy names *)


(** ** saveProgress and loadProgress: the round trip *)

Lemma orElse_truthy (v d : ProgressFile.Json) :
  ProgressFile.truthy (Some v) = true -> ProgressFile.orElse (Some v) d = v.
Proof. unfold ProgressFile.orElse. now intros ->. Qed.



(** ** stageResultGenPoll *)

Section Positions.
Context {X : Type} (p : X -> bool).

Lemma positions_In (l : list X) (k i : nat) :
  In i (map fst (List.filter (fun ic => p ic.2) (combine (seq k (length l)) l))) <->
  (k <= i)%nat /\ exists x, l !! (i - k)%nat = Some x /\ p x = true.
Proof.
  revert k. induction l as [|y l IH]; intros k; simpl.
  - split; [tauto|]. intros (_ & x & H & _). discriminate.
  - assert (In i (map fst (List.filter (fun ic => p ic.2) (combine (seq (S k) (length l)) l)))
            <-> (S k <= i)%nat
                /\ exists x, (y :: l) !! (i - k)%nat = Some x /\ p x = true) as Hrest.
    { rewrite IH. split; intros (Hle & x & Hl & Hp); (split; [exact Hle|]); exists x;
        (split; [|exact Hp]).
      - replace (i - k)%nat with (S (i - S k)) by lia. exact Hl.
      - replace (i - k)%nat with (S (i - S k)) in Hl by lia. exact Hl. }
    destruct (p y) eqn:Ey; simpl; rewrite Hrest; split.
    + intros [<-|(Hle & H)].
      * split; [lia|]. exists y. rewrite Nat.sub_diag. now split.
      * split; [lia|exact H].
    + intros (Hle & x & Hl & Hp). destruct (Nat.eq_dec k i) as [->|Hne]; [now left|].
      right. split; [lia|]. now exists x.
    + intros (Hle & H). split; [lia|exact H].
    + intros (Hle & x & Hl & Hp). destruct (Nat.eq_dec k i) as [->|Hne].
      * rewrite Nat.sub_diag in Hl. injection Hl as <-. congruence.
      * split; [lia|]. now exists x.
Qed.

Lemma positions_NoDup (l : list X) (k : nat) :
  NoDup (map fst (List.filter (fun ic => p ic.2) (combine (seq k (length l)) l))).
Proof.
  revert k. induction l as [|y l IH]; intros k; simpl; [constructor|].
  destruct (p y); simpl; [|apply IH].
  apply NoDup_cons. split; [|apply IH].
  rewrite list_elem_of_In, positions_In. lia.
Qed.

End Positions.

Section PollFacts.
Import ResultGenPoll.

Lemma uploadedChunks_In (cs : list Chunk) (i : nat) :
  In i (uploadedChunks cs) <-> exists c, cs !! i = Some c /\ isPolled c = true.
Proof.
  unfold uploadedChunks. rewrite (positions_In isPolled), Nat.sub_0_r.
  split; [tauto|]. intros H. split; [lia|exact H].
Qed.

Lemma uploadedChunks_NoDup (cs : list Chunk) : NoDup (uploadedChunks cs).
Proof. apply (positions_NoDup isPolled). Qed.

(** What [Promise.all] resolves to: the answer for each polled chunk. *)
Lemma retrieveAll_Returned (r : Round) (positions : list nat) (cs : list Chunk)
    (statuses : list Service.Batch) :
  retrieveAll r positions cs = Js.Returned statuses ->
  Forall2 (fun i batch => retrieve r (cs !! i ≫= batchId) = Js.Returned batch)
    positions statuses.
Proof.
  revert statuses. induction positions as [|i rest IH]; intros statuses; simpl.
  - intros [= <-]. constructor.
  - destruct (retrieve r (cs !! i ≫= batchId)) as [m|batch] eqn:E; [discriminate|].
    destruct (retrieveAll r rest cs) as [m|ss]; [discriminate|].
    intros [= <-]. constructor; [exact E|]. now apply IH.
Qed.

Lemma retrieveAll_answers (r : Round) (positions : list nat) (cs : list Chunk) :
  (forall i, In i positions ->
     exists batch, retrieve r (cs !! i ≫= batchId) = Js.Returned batch) ->
  exists statuses, retrieveAll r positions cs = Js.Returned statuses.
Proof.
  induction positions as [|i rest IH]; intros H; simpl; [eauto|].
  destruct (H i (or_introl eq_refl)) as [batch ->].
  destruct IH as [ss ->]; [intros j Hj; apply H; now right|]. eauto.
Qed.

(** The fields an update leaves alone. *)
Lemma update_keeps (nowIso : string) (batch : Service.Batch) (c c' : Chunk)
    (done : bool) :
  update nowIso batch c = Js.Returned (c', done) ->
  index c' = index c /\ batchId c' = batchId c /\ processedAt c' = processedAt c
  /\ (done = true ->
      status c' = "completed" /\ Js.truthy (outputFileId c') = true
      /\ is_Some (completedAt c')).
Proof.
  unfold update. destruct (String.eqb (Service.status batch) "completed").
  - destruct (Js.truthy (Service.output_file_id batch)) eqn:Ef; simpl; [|discriminate].
    intros [= <- <-]. simpl. repeat split; eauto.
  - destruct (isFailure (Service.status batch)); [discriminate|].
    intros [= <- <-]. simpl. repeat split; discriminate.
Qed.

(** One round of updates: the chunks outside the polled positions are
    untouched, the polled ones keep their identity, and the flag is still
    set only if every polled chunk came out completed. *)
Lemma updateAll_Returned (nowIso : string) (polled : list (nat * Service.Batch)) :
  forall (cs cs' : list Chunk) (acc flag : bool),
    NoDup (map fst polled) ->
    updateAll nowIso polled cs acc = Js.Returned (cs', flag) ->
    length cs' = length cs
    /\ (forall i, ~ In i (map fst polled) -> cs' !! i = cs !! i)
    /\ (forall i c, In i (map fst polled) -> cs !! i = Some c ->
          exists c', cs' !! i = Some c'
            /\ index c' = index c /\ batchId c' = batchId c
            /\ processedAt c' = processedAt c
            /\ (flag = true ->
                status c' = "completed" /\ Js.truthy (outputFileId c') = true
                /\ is_Some (completedAt c')))
    /\ (flag = true -> acc = true).
Proof.
  induction polled as [|[j batch] rest IH]; intros cs cs' acc flag Hnd E; simpl in E.
  - injection E as <- <-. split; [reflexivity|]. split; [reflexivity|].
    split; [intros i c []|tauto].
  - simpl in Hnd. apply NoDup_cons in Hnd as [Hj Hnd].
    rewrite list_elem_of_In in Hj.
    destruct (cs !! j) as [chunk|] eqn:Ej.
    + destruct (update nowIso batch chunk) as [m|[chunk' done]] eqn:Eu; [discriminate|].
      destruct (IH _ _ _ _ Hnd E) as (Hlen & Hout & Hin & Hflag).
      destruct (update_keeps _ _ _ _ _ Eu) as (K1 & K2 & K3 & K4).
      split; [now rewrite Hlen, length_insert|]. split; [|split].
      * intros i Hi. simpl in Hi. rewrite Hout by tauto.
        apply list_lookup_insert_ne. tauto.
      * intros i c [Hi|Hi] Hc.
        -- simpl in Hi. subst i. rewrite Ej in Hc. injection Hc as <-.
           exists chunk'. split.
           ++ rewrite Hout by exact Hj. apply list_lookup_insert_eq.
              now apply lookup_lt_Some with chunk.
           ++ split; [exact K1|]. split; [exact K2|]. split; [exact K3|].
              intros Hf. apply K4. specialize (Hflag Hf).
              now apply andb_true_iff in Hflag as [_ ?].
        -- apply Hin; [exact Hi|]. rewrite list_lookup_insert_ne; [exact Hc|].
           intros ->. contradiction.
      * intros Hf. specialize (Hflag Hf). now apply andb_true_iff in Hflag as [? _].
    + destruct (IH _ _ _ _ Hnd E) as (Hlen & Hout & Hin & Hflag).
      split; [exact Hlen|]. split; [|split; [|exact Hflag]].
      * intros i Hi. apply Hout. simpl in Hi. tauto.
      * intros i c [Hi|Hi] Hc; [simpl in Hi; congruence|]. now apply Hin.
Qed.

Lemma combine_fst (positions : list nat) (statuses : list Service.Batch) :
  length positions = length statuses ->
  map fst (combine positions statuses) = positions.
Proof.
  revert statuses. induction positions as [|i rest IH]; intros [|b ss]; simpl;
    try discriminate; [reflexivity|].
  intros [= H]. now rewrite IH.
Qed.

(** The loop, when it ends by saving. *)
Lemma pollLoop_Saved (rounds : list Round) (positions : list nat) :
  NoDup positions ->
  forall (cs cs' : list Chunk) (next : Stage),
    pollLoop rounds positions cs = Saved cs' next ->
    next = RESULT_GEN_PROCESS /\ length cs' = length cs
    /\ (forall i, ~ In i positions -> cs' !! i = cs !! i)
    /\ (forall i c, In i positions -> cs !! i = Some c ->
          exists c', cs' !! i = Some c' /\ completedFrom c c').
Proof.
  intros Hnd. induction rounds as [|r rest IH]; intros cs cs' next E; simpl in E;
    [discriminate|].
  destruct (retrieveAll r positions cs) as [m|statuses] eqn:Er; [discriminate|].
  pose proof (Forall2_length _ _ _ (retrieveAll_Returned _ _ _ _ Er)) as Hlen2.
  destruct (updateAll (now r) (combine positions statuses) cs true)
    as [m|[cs1 flag]] eqn:Eu; [discriminate|].
  apply updateAll_Returned in Eu as (Hlen & Hout & Hin & _);
    [|now rewrite combine_fst].
  rewrite combine_fst in Hout, Hin by exact Hlen2.
  destruct flag.
  - injection E as <- <-. split; [reflexivity|]. split; [exact Hlen|].
    split; [exact Hout|]. intros i c Hi Hc.
    destruct (Hin i c Hi Hc) as (c' & Hc' & K1 & K2 & K3 & K4).
    exists c'. split; [exact Hc'|]. destruct (K4 eq_refl) as (K5 & K6 & K7).
    repeat split; assumption.
  - destruct (IH _ _ _ E) as (-> & Hlen' & Hout' & Hin').
    split; [reflexivity|]. split; [congruence|]. split.
    + intros i Hi. now rewrite Hout', Hout.
    + intros i c Hi Hc.
      destruct (Hin i c Hi Hc) as (c1 & Hc1 & K1 & K2 & K3 & _).
      destruct (Hin' i c1 Hi Hc1) as (c' & Hc' & L1 & L2 & L3 & L4).
      exists c'. split; [exact Hc'|]. repeat split; try congruence; tauto.
Qed.

(** A polled chunk whose update throws makes the round throw. *)
Lemma updateAll_Threw (nowIso : string) (polled : list (nat * Service.Batch)) :
  forall (cs : list Chunk) (acc : bool) (i : nat) (batch : Service.Batch) (c : Chunk),
    NoDup (map fst polled) ->
    In (i, batch) polled -> cs !! i = Some c ->
    (exists m, update nowIso batch c = Js.Threw m) ->
    exists m, updateAll nowIso polled cs acc = Js.Threw m.
Proof.
  induction polled as [|[j b] rest IH]; intros cs acc i batch c Hnd Hin Hc Hthrow;
    [destruct Hin|].
  simpl in Hnd. apply NoDup_cons in Hnd as [Hj Hnd]. rewrite list_elem_of_In in Hj.
  simpl. destruct Hin as [[= -> ->]|Hin].
  - rewrite Hc. destruct Hthrow as [m ->]. eauto.
  - assert (j <> i) as Hne.
    { intros ->. apply Hj. apply in_map_iff. now exists (i, batch). }
    destruct (cs !! j) as [cj|] eqn:Ej; [|now apply (IH cs acc i batch c)].
    destruct (update nowIso b cj) as [m|[cj' done]]; [eauto|].
    apply (IH _ _ i batch c); [exact Hnd|exact Hin| |exact Hthrow].
    rewrite list_lookup_insert_ne; [exact Hc|exact Hne].
Qed.

Lemma update_Threw (nowIso : string) (batch : Service.Batch) (c : Chunk) :
  isFailure (Service.status batch) = true
  \/ (Service.status batch = "completed"
      /\ Js.truthy (Service.output_file_id batch) = false) ->
  exists m, update nowIso batch c = Js.Threw m.
Proof.
  unfold update. intros [Hf|[Hs Ho]].
  - destruct (String.eqb_spec (Service.status batch) "completed") as [E|E].
    + rewrite E in Hf. discriminate.
    + rewrite Hf. eauto.
  - rewrite Hs, Ho. simpl. eauto.
Qed.

Lemma Forall2_combine_In (positions : list nat) (statuses : list Service.Batch)
    (P : nat -> Service.Batch -> Prop) (i : nat) :
  Forall2 P positions statuses -> In i positions ->
  exists batch, In (i, batch) (combine positions statuses) /\ P i batch.
Proof.
  induction 1 as [|j b ps ss Hjb Hrest IH]; intros Hin; [destruct Hin|].
  destruct Hin as [->|Hin].
  - exists b. split; [now left|exact Hjb].
  - destruct (IH Hin) as (batch & Hc & Hp). exists batch. split; [now right|exact Hp].
Qed.

End PollFacts.

(** X17.  Stage RESULT_GEN_POLL moves on only when every chunk it polls has
    completed.  Whenever it saves and returns, the next stage is
    RESULT_GEN_PROCESS; every chunk that was uploaded, in progress,
    finalizing or validating is now "completed" with an output file id and
    a completion time, and is otherwise the chunk it was; every other
    chunk is exactly as before; so no chunk is left in a polled status. *)
Theorem stageResultGenPoll_advances_when_all_completed :
  forall (rounds : list ResultGenPoll.Round) (cs cs' : list ResultGenPoll.Chunk)
         (next : Stage),
    ResultGenPoll.stageResultGenPoll rounds (Some cs) = ResultGenPoll.Saved cs' next ->
    next = RESULT_GEN_PROCESS
    /\ length cs' = length cs
    /\ (forall (i : nat) c,
          cs !! i = Some c ->
          if ResultGenPoll.isPolled c
          then exists c', cs' !! i = Some c' /\ ResultGenPoll.completedFrom c c'
          else cs' !! i = Some c)
    /\ Forall (fun c => ResultGenPoll.isPolled c = false) cs'.
Proof.
  intros rounds cs cs' next E.
  assert (next = RESULT_GEN_PROCESS /\ length cs' = length cs
          /\ (forall i, ~ In i (ResultGenPoll.uploadedChunks cs) -> cs' !! i = cs !! i)
          /\ (forall i c, In i (ResultGenPoll.uploadedChunks cs) -> cs !! i = Some c ->
                exists c', cs' !! i = Some c' /\ ResultGenPoll.completedFrom c c'))
    as (Hnext & Hlen & Hout & Hin).
  { unfold ResultGenPoll.stageResultGenPoll in E.
    destruct (ResultGenPoll.uploadedChunks cs) as [|i0 rest] eqn:Eu.
    - injection E as <- <-. repeat split. intros i c [].
    - rewrite <- Eu in *. apply (pollLoop_Saved rounds); [|exact E].
      apply uploadedChunks_NoDup. }
  assert (forall (i : nat) c,
            cs !! i = Some c ->
            if ResultGenPoll.isPolled c
            then exists c', cs' !! i = Some c' /\ ResultGenPoll.completedFrom c c'
            else cs' !! i = Some c) as Heach.
  { intros i c Hc. destruct (ResultGenPoll.isPolled c) eqn:Ep.
    - apply Hin; [|exact Hc]. apply uploadedChunks_In. now exists c.
    - rewrite Hout; [exact Hc|]. rewrite uploadedChunks_In.
      intros (c0 & Hc0 & Hp). congruence. }
  split; [exact Hnext|]. split; [exact Hlen|]. split; [exact Heach|].
  apply List.Forall_forall. intros c' Hc'.
  apply list_elem_of_In, list_elem_of_lookup_1 in Hc' as [i Hi].
  assert (is_Some (cs !! i)) as [c Hc].
  { apply lookup_lt_is_Some. rewrite <- Hlen. now apply lookup_lt_Some with c'. }
  specialize (Heach i c Hc). destruct (ResultGenPoll.isPolled c) eqn:Ep.
  - destruct Heach as (c2 & Hc2 & _ & _ & _ & Hst & _).
    assert (c2 = c') as -> by congruence.
    unfold ResultGenPoll.isPolled. now rewrite Hst.
  - congruence.
Qed.

Lemma stageResultGenPoll_advances_when_all_completed_witness :
  exists cs',
    ResultGenPoll.stageResultGenPoll Samples.twoPolls (Some Samples.oneUploaded)
    = ResultGenPoll.Saved cs' RESULT_GEN_PROCESS
    /\ length cs' = 3%nat
    /\ Forall (fun c => ResultGenPoll.isPolled c = false) cs'.
Proof.
  pose proof (stageResultGenPoll_advances_when_all_completed Samples.twoPolls
                Samples.oneUploaded) as H.
  destruct (ResultGenPoll.stageResultGenPoll Samples.twoPolls (Some Samples.oneUploaded))
    as [m saved|cs' next|saved] eqn:E.
  - vm_compute in E. discriminate.
  - destruct (H cs' next eq_refl) as (-> & Hlen & _ & Hnone).
    exists cs'. split; [reflexivity|]. split; [exact Hlen|exact Hnone].
  - vm_compute in E. discriminate.
Defined.





(** ** stageResultGenProcess *)

Section ProcessFacts.
Import ResultGenPoll ResultGenProcess.
Variable env : Env.

Lemma completedChunks_In (cs : list Chunk) (i : nat) :
  In i (completedChunks cs) <->
  exists c, cs !! i = Some c /\ String.eqb (status c) "completed" = true.
Proof.
  unfold completedChunks.
  rewrite (positions_In (fun c => String.eqb (status c) "completed")), Nat.sub_0_r.
  split; [tauto|]. intros H. split; [lia|exact H].
Qed.

Lemma completedChunks_NoDup (cs : list Chunk) : NoDup (completedChunks cs).
Proof. apply (positions_NoDup (fun c => String.eqb (status c) "completed")). Qed.

(** The chunks at the positions of a filter are the filtered chunks. *)
Lemma positions_chunks {X : Type} (p : X -> bool) (l : list X) (k : nat) :
  map (fun i => l !! (i - k)%nat)
    (map fst (List.filter (fun ic => p ic.2) (combine (seq k (length l)) l)))
  = map Some (List.filter p l).
Proof.
  revert k. induction l as [|y l IH]; intros k; simpl; [reflexivity|].
  assert (map (fun i => (y :: l) !! (i - k)%nat)
            (map fst (List.filter (fun ic => p ic.2) (combine (seq (S k) (length l)) l)))
          = map Some (List.filter p l)) as Hrest.
  { rewrite <- (IH (S k)). apply map_ext_in. intros i Hi.
    apply (positions_In p) in Hi as [Hle _].
    replace (i - k)%nat with (S (i - S k)) by lia. reflexivity. }
  destruct (p y); simpl; [|exact Hrest].
  rewrite Nat.sub_diag. simpl. now rewrite Hrest.
Qed.

Lemma lastClassified_app (key : string) (a b : list Line) :
  lastClassified key (a ++ b)
  = match lastClassified key b with
    | Some found => Some found
    | None => lastClassified key a
    end.
Proof.
  induction a as [|l a IH]; simpl.
  - now destruct (lastClassified key b).
  - destruct l; try exact IH. rewrite IH.
    destruct (lastClassified key b); [reflexivity|].
    now destruct (lastClassified key a).
Qed.

(** The directory after the lines of one file have been written. *)
Lemma writeResults_written (lines : list Line) (dir dir' : Finalize.ResultDir) :
  writeResults lines dir = (dir', None) ->
  forall key, dir' !! key = written key lines dir.
Proof.
  unfold written. revert dir. induction lines as [|l lines IH]; intros dir E key;
    simpl in E.
  - injection E as <-. reflexivity.
  - destruct l as [m|id|id|id parsed usage]; [discriminate| | |]; simpl.
    + now apply IH.
    + now apply IH.
    + rewrite (IH _ E key).
      destruct (lastClassified key lines) as [[p u]|]; [reflexivity|].
      destruct (String.eqb_spec id key) as [->|Hne].
      * apply lookup_insert_eq.
      * now apply lookup_insert_ne.
Qed.

Lemma written_app (key : string) (a b : list Line) (dir dir1 : Finalize.ResultDir) :
  (forall k, dir1 !! k = written k a dir) ->
  written key b dir1 = written key (a ++ b) dir.
Proof.
  intros H. unfold written. rewrite lastClassified_app.
  destruct (lastClassified key b) as [[p u]|]; [reflexivity|].
  rewrite H. reflexivity.
Qed.

(** The loop over the completed chunks, when no exception ends it. *)
Lemma processChunks_done (positions : list nat) :
  forall (cs cs' : list Chunk) (dir dir' : Finalize.ResultDir),
    NoDup positions ->
    (forall i, In i positions -> is_Some (cs !! i)) ->
    processChunks env positions cs dir = (cs', dir', None) ->
    length cs' = length cs
    /\ (forall i, ~ In i positions -> cs' !! i = cs !! i)
    /\ (forall i c, In i positions -> cs !! i = Some c ->
          cs' !! i = Some (markProcessed env c)
          /\ Js.truthy (outputFileId c) = true
          /\ exists lines, download env (default "" (outputFileId c)) = Js.Returned lines)
    /\ (forall key,
          dir' !! key
          = written key
              (flat_map (fun i => match cs !! i with
                                  | Some c => linesOfChunk env c
                                  | None => []
                                  end) positions)
              dir).
Proof.
  induction positions as [|j rest IH]; intros cs cs' dir dir' Hnd Hvalid E; simpl in E.
  - injection E as <- <-. split; [reflexivity|]. split; [reflexivity|].
    split; [intros i c []|reflexivity].
  - apply NoDup_cons in Hnd as [Hj Hnd]. rewrite list_elem_of_In in Hj.
    destruct (Hvalid j (or_introl eq_refl)) as [chunk Hchunk]. rewrite Hchunk in E.
    destruct (Js.truthy (outputFileId chunk)) eqn:Ef; simpl in E; [|discriminate].
    destruct (download env (default "" (outputFileId chunk))) as [m|lines] eqn:Ed;
      [discriminate|].
    destruct (writeResults lines dir) as [dir1 [m|]] eqn:Ew; [discriminate|].
    assert (forall i, In i rest ->
              is_Some (<[j:=markProcessed env chunk]> cs !! i)) as Hvalid'.
    { intros i Hi. rewrite list_lookup_insert_ne by (intros ->; contradiction).
      apply Hvalid. now right. }
    destruct (IH _ _ _ _ Hnd Hvalid' E) as (Hlen & Hout & Hin & Hdir).
    split; [now rewrite Hlen, length_insert|]. split; [|split].
    + intros i Hi. simpl in Hi. rewrite Hout by tauto.
      apply list_lookup_insert_ne. tauto.
    + intros i c [<-|Hi] Hc.
      * rewrite Hchunk in Hc. injection Hc as <-. split; [|split; [exact Ef|eauto]].
        rewrite Hout by exact Hj. apply list_lookup_insert_eq.
        now apply lookup_lt_Some with chunk.
      * apply Hin; [exact Hi|]. rewrite list_lookup_insert_ne; [exact Hc|].
        intros ->. contradiction.
    + intros key. rewrite Hdir. simpl. rewrite Hchunk.
      assert (linesOfChunk env chunk = lines) as ->
        by (unfold linesOfChunk; now rewrite Ed).
      rewrite <- (written_app key lines _ dir dir1 (writeResults_written _ _ _ Ew)).
      f_equal. rewrite !flat_map_concat_map. f_equal. apply map_ext_in. intros i Hi.
      rewrite list_lookup_insert_ne by (intros ->; contradiction). reflexivity.
Qed.

Lemma flat_map_positions (cs : list Chunk) :
  flat_map (fun i => match cs !! i with
                     | Some c => linesOfChunk env c
                     | None => []
                     end) (completedChunks cs)
  = linesOf env cs.
Proof.
  unfold linesOf, completedChunks.
  pose proof (positions_chunks (fun c => String.eqb (status c) "completed") cs 0) as H.
  rewrite !flat_map_concat_map. f_equal.
  rewrite <- (map_map (fun i => cs !! i)
                (fun o => match o with Some c => linesOfChunk env c | None => [] end)).
  replace (map (fun i => cs !! i) _) with
    (map Some (List.filter (fun c => String.eqb (status c) "completed") cs)).
  - now rewrite map_map.
  - rewrite <- H. apply map_ext. intros i. now rewrite Nat.sub_0_r.
Qed.

Lemma nextStage_pending (cs : list Chunk) :
  (nextStage cs = RESULT_GEN_UPLOAD <-> exists c, In c cs /\ status c = "pending")
  /\ (nextStage cs = FINALIZE <-> ~ exists c, In c cs /\ status c = "pending").
Proof.
  unfold nextStage.
  destruct (existsb (fun c => String.eqb (status c) "pending") cs) eqn:E.
  - apply existsb_exists in E as (c & Hc & Hs). apply String.eqb_eq in Hs.
    split; split; try discriminate; eauto. intros H. exfalso. apply H. eauto.
  - split; split; try discriminate; try reflexivity.
    + intros (c & Hc & Hs). exfalso.
      assert (existsb (fun c => String.eqb (status c) "pending") cs = true);
        [|congruence].
      apply existsb_exists. exists c. split; [exact Hc|]. now apply String.eqb_eq.
    + intros _ (c & Hc & Hs).
      assert (existsb (fun c => String.eqb (status c) "pending") cs = true);
        [|congruence].
      apply existsb_exists. exists c. split; [exact Hc|]. now apply String.eqb_eq.
Qed.

(** The stage, when it saves. *)
Lemma stage_Saved (cs cs' : list Chunk) (dir dir' : Finalize.ResultDir) (next : Stage) :
  stageResultGenProcess env (Some cs) dir = Saved cs' dir' next ->
  next = nextStage cs'
  /\ length cs' = length cs
  /\ (forall i c, cs !! i = Some c ->
        if String.eqb (status c) "completed"
        then cs' !! i = Some (markProcessed env c)
             /\ Js.truthy (outputFileId c) = true
             /\ exists lines,
                  download env (default "" (outputFileId c)) = Js.Returned lines
        else cs' !! i = Some c)
  /\ (forall key, dir' !! key = written key (linesOf env cs) dir).
Proof.
  intros E.
  assert (processChunks env (completedChunks cs) cs dir = (cs', dir', None)
          /\ next = nextStage cs') as [Ep ->].
  { unfold stageResultGenProcess in E.
    destruct (completedChunks cs) as [|i0 ps] eqn:Ec.
    - injection E as <- <- <-. now split.
    - rewrite <- Ec in *.
      destruct (processChunks env (completedChunks cs) cs dir) as [[cs1 dir1] [m|]];
        [discriminate|].
      injection E as <- <- <-. now split. }
  apply processChunks_done in Ep as (Hlen & Hout & Hin & Hdir).
  - split; [reflexivity|]. split; [exact Hlen|]. split.
    + intros i c Hc. destruct (String.eqb (status c) "completed") eqn:Es.
      * apply Hin; [|exact Hc]. apply completedChunks_In. now exists c.
      * rewrite Hout; [exact Hc|]. rewrite completedChunks_In.
        intros (c0 & Hc0 & Hs0). congruence.
    + intros key. rewrite Hdir, flat_map_positions. reflexivity.
  - apply completedChunks_NoDup.
  - intros i Hi. apply completedChunks_In in Hi as (c & Hc & _). eauto.
Qed.

End ProcessFacts.

(** X20.  Whenever stage RESULT_GEN_PROCESS saves, every chunk that was
    "completed" had an output file id and is now "processed", stamped with
    the processing time and otherwise unchanged; every other chunk is
    exactly as before; no chunk is left "completed"; and the next stage is
    RESULT_GEN_UPLOAD exactly when some chunk is still "pending", FINALIZE
    otherwise. *)
Theorem stageResultGenProcess_marks_processed :
  forall (env : ResultGenProcess.Env) (cs cs' : list ResultGenPoll.Chunk)
         (dir dir' : Finalize.ResultDir) (next : Stage),
    ResultGenProcess.stageResultGenProcess env (Some cs) dir
    = ResultGenProcess.Saved cs' dir' next ->
    length cs' = length cs
    /\ (forall (i : nat) c,
          cs !! i = Some c ->
          if String.eqb (ResultGenPoll.status c) "completed"
          then cs' !! i = Some (ResultGenProcess.markProcessed env c)
               /\ Js.truthy (ResultGenPoll.outputFileId c) = true
          else cs' !! i = Some c)
    /\ Forall (fun c => ResultGenPoll.status c <> "completed") cs'
    /\ (next = RESULT_GEN_UPLOAD <->
        exists c, In c cs /\ ResultGenPoll.status c = "pending")
    /\ (next = FINALIZE <->
        ~ exists c, In c cs /\ ResultGenPoll.status c = "pending").
Proof.
  intros env cs cs' dir dir' next E.
  apply stage_Saved in E as (-> & Hlen & Heach & _).
  assert (forall (i : nat) c,
            cs !! i = Some c ->
            if String.eqb (ResultGenPoll.status c) "completed"
            then cs' !! i = Some (ResultGenProcess.markProcessed env c)
                 /\ Js.truthy (ResultGenPoll.outputFileId c) = true
            else cs' !! i = Some c) as Heach'.
  { intros i c Hc. specialize (Heach i c Hc).
    destruct (String.eqb (ResultGenPoll.status c) "completed"); tauto. }
  assert ((exists c, In c cs' /\ ResultGenPoll.status c = "pending")
          <-> exists c, In c cs /\ ResultGenPoll.status c = "pending") as Hpend.
  { split; intros (c & Hc & Hs).
    - apply list_elem_of_In, list_elem_of_lookup_1 in Hc as [i Hi].
      assert (is_Some (cs !! i)) as [c0 Hc0].
      { apply lookup_lt_is_Some. rewrite <- Hlen. now apply lookup_lt_Some with c. }
      specialize (Heach' i c0 Hc0).
      destruct (String.eqb (ResultGenPoll.status c0) "completed").
      + destruct Heach' as [H _]. rewrite Hi in H. injection H as ->. discriminate.
      + rewrite Hi in Heach'. injection Heach' as ->. exists c0. split; [|exact Hs].
        apply list_elem_of_In. now apply list_elem_of_lookup_2 with i.
    - apply list_elem_of_In, list_elem_of_lookup_1 in Hc as [i Hi].
      specialize (Heach' i c Hi). rewrite Hs in Heach'. simpl in Heach'.
      exists c. split; [|exact Hs].
      apply list_elem_of_In. now apply list_elem_of_lookup_2 with i. }
  split; [exact Hlen|]. split; [exact Heach'|]. split.
  - apply List.Forall_forall. intros c Hc.
    apply list_elem_of_In, list_elem_of_lookup_1 in Hc as [i Hi].
    assert (is_Some (cs !! i)) as [c0 Hc0].
    { apply lookup_lt_is_Some. rewrite <- Hlen. now apply lookup_lt_Some with c. }
    specialize (Heach' i c0 Hc0).
    destruct (String.eqb_spec (ResultGenPoll.status c0) "completed") as [Es|Es].
    + destruct Heach' as [H _]. rewrite Hi in H. injection H as ->. discriminate.
    + rewrite Hi in Heach'. now injection Heach' as ->.
  - rewrite <- Hpend. apply nextStage_pending.
Qed.

Lemma stageResultGenProcess_marks_processed_witness :
  exists cs' dir',
    ResultGenProcess.stageResultGenProcess Samples.processEnv
      (Some Samples.oneCompleted) ∅
    = ResultGenProcess.Saved cs' dir' RESULT_GEN_UPLOAD
    /\ length cs' = 2%nat
    /\ Forall (fun c => ResultGenPoll.status c <> "completed") cs'.
Proof.
  pose proof (stageResultGenProcess_marks_processed Samples.processEnv
                Samples.oneCompleted) as H.
  destruct (ResultGenProcess.stageResultGenProcess Samples.processEnv
              (Some Samples.oneCompleted) ∅) as [m saved d|cs' dir' next] eqn:E.
  - exfalso. vm_compute in E. discriminate.
  - destruct (H cs' ∅ dir' next E) as (Hlen & _ & Hnone & Hup & _).
    exists cs', dir'. split; [|split; [exact Hlen|exact Hnone]].
    f_equal. apply Hup. exists (Samples.polledChunk 1 "pending" None).
    split; [right; now left|reflexivity].
Defined.

(** X21.  What FINALIZE reads after RESULT_GEN_PROCESS has saved: under
    each key the result directory holds the last response of the processed
    output files that carries this custom id and whose text parsed, and
    otherwise what it held before (error lines and unusable responses write
    nothing, and nothing is deleted).  So a publication is then counted
    positive exactly when that last response says [hasResults = true], or
    there is no such response and it was positive before; and its
    classification is unreadable exactly when there is no such response and
    it was unreadable before. *)
Theorem stageResultGenProcess_results_read_by_finalize :
  forall (env : ResultGenProcess.Env) (cs cs' : list ResultGenPoll.Chunk)
         (dir dir' : Finalize.ResultDir) (next : Stage),
    ResultGenProcess.stageResultGenProcess env (Some cs) dir
    = ResultGenProcess.Saved cs' dir' next ->
    (forall key,
        dir' !! key
        = ResultGenProcess.written key (ResultGenProcess.linesOf env cs) dir)
    /\ forall (trialId : string) (pub : Publication),
         let last :=
           ResultGenProcess.lastClassified (Finalize.resultKey trialId pub)
             (ResultGenProcess.linesOf env cs) in
         (Finalize.classifiedPositive dir' trialId pub <->
          match last with
          | Some (parsed, _) => parsed ≫= Finalize.hasResults = Some true
          | None => Finalize.classifiedPositive dir trialId pub
          end)
         /\ (Finalize.unreadable dir' trialId pub <->
             last = None /\ Finalize.unreadable dir trialId pub).
Proof.
  intros env cs cs' dir dir' next E.
  apply stage_Saved in E as (_ & _ & _ & Hdir).
  split; [exact Hdir|]. intros trialId pub last.
  pose proof (Hdir (Finalize.resultKey trialId pub)) as Hk.
  unfold ResultGenProcess.written in Hk. fold last in Hk.
  unfold Finalize.classifiedPositive, Finalize.unreadable, Finalize.loadDetection.
  rewrite Hk. destruct last as [[parsed usage]|].
  - simpl. split.
    + destruct (parsed ≫= Finalize.hasResults) as [[|]|]; split;
        try discriminate; reflexivity.
    + split; [tauto|]. intros [H _]. discriminate.
  - split; [reflexivity|]. split; [now split|tauto].
Qed.

Lemma stageResultGenProcess_results_read_by_finalize_witness :
  exists cs' dir',
    ResultGenProcess.stageResultGenProcess Samples.processEnv
      (Some Samples.oneCompleted) ∅
    = ResultGenProcess.Saved cs' dir' RESULT_GEN_UPLOAD
    /\ Finalize.classifiedPositive dir' "NCT00000001"
         (Samples.pub "111" None ["linked_at_registration"])
    /\ Finalize.unreadable dir' "NCT00000001" (Samples.pub "222" None ["pubmed_naive"]).
Proof.
  pose proof (stageResultGenProcess_results_read_by_finalize Samples.processEnv
                Samples.oneCompleted) as H.
  destruct (ResultGenProcess.stageResultGenProcess Samples.processEnv
              (Some Samples.oneCompleted) ∅) as [m saved d|cs' dir' next] eqn:E.
  - exfalso. vm_compute in E. discriminate.
  - destruct (H cs' ∅ dir' next E) as (_ & Hread).
    exists cs', dir'. split.
    + f_equal. vm_compute in E. now injection E as _ _ <-.
    + split.
      * apply (Hread "NCT00000001" (Samples.pub "111" None ["linked_at_registration"])).
        reflexivity.
      * apply (Hread "NCT00000001" (Samples.pub "222" None ["pubmed_naive"])).
        split; [reflexivity|]. vm_compute. exact I.
Defined.

(** X22.  A chunk is processed once: after the stage has saved, entering it
    again (at any time, whatever the service would answer) downloads and
    writes nothing and saves the same chunks, the same result directory
    and the same next stage. *)
Theorem stageResultGenProcess_processes_once :
  forall (env env' : ResultGenProcess.Env) (cs cs' : list ResultGenPoll.Chunk)
         (dir dir' : Finalize.ResultDir) (next : Stage),
    ResultGenProcess.stageResultGenProcess env (Some cs) dir
    = ResultGenProcess.Saved cs' dir' next ->
    ResultGenProcess.stageResultGenProcess env' (Some cs') dir'
    = ResultGenProcess.Saved cs' dir' next.
Proof.
  intros env env' cs cs' dir dir' next E.
  pose proof (stage_Saved env _ _ _ _ _ E) as (Hnext & Hlen & Heach & _).
  unfold ResultGenProcess.stageResultGenProcess.
  destruct (ResultGenProcess.completedChunks cs') as [|i ps] eqn:Ec;
    [now rewrite Hnext|].
  exfalso.
  assert (In i (ResultGenProcess.completedChunks cs')) as Hi by (rewrite Ec; now left).
  apply completedChunks_In in Hi as (c & Hc & Hs).
  assert (is_Some (cs !! i)) as [c0 Hc0].
  { apply lookup_lt_is_Some. rewrite <- Hlen. now apply lookup_lt_Some with c. }
  specialize (Heach i c0 Hc0).
  destruct (String.eqb (ResultGenPoll.status c0) "completed") eqn:Es.
  - destruct Heach as [H _]. rewrite Hc in H. injection H as ->. discriminate.
  - rewrite Hc in Heach. injection Heach as ->. congruence.
Qed.

Lemma stageResultGenProcess_processes_once_witness :
  exists cs' dir',
    ResultGenProcess.stageResultGenProcess Samples.processEnv
      (Some Samples.oneCompleted) ∅
    = ResultGenProcess.Saved cs' dir' RESULT_GEN_UPLOAD
    /\ ResultGenProcess.stageResultGenProcess Samples.processEnv (Some cs') dir'
       = ResultGenProcess.Saved cs' dir' RESULT_GEN_UPLOAD.
Proof.
  destruct (ResultGenProcess.stageResultGenProcess Samples.processEnv
              (Some Samples.oneCompleted) ∅) as [m saved d|cs' dir' next] eqn:E.
  - exfalso. vm_compute in E. discriminate.
  - assert (next = RESULT_GEN_UPLOAD) as ->
      by (vm_compute in E; now injection E as _ _ <-).
    exists cs', dir'. split; [reflexivity|].
    apply (stageResultGenProcess_processes_once Samples.processEnv Samples.processEnv
             Samples.oneCompleted cs' ∅ dir' RESULT_GEN_UPLOAD E).
Defined.

(** ** stagePubDiscovery *)

Section PubDiscoveryFacts.
Import PubDiscovery.
Variable env : Env.
Variable registrations : gmap string Registration.

(** What one row does to the entry of a trial. *)
Lemma discoverRow_stored (i : nat) (row : Row) (progress : Progress) (t : string) :
  stored (discoverRow env registrations i row progress) !! t = stored progress !! t
  \/ (t = extractTrialId row /\ t <> "" /\ stored progress !! t = None
      /\ exists registration entry,
           registrations !! t = Some registration
           /\ discoverAndFilter env row registration t = Js.Returned entry
           /\ stored (discoverRow env registrations i row progress) !! t = Some entry).
Proof.
  unfold discoverRow.
  destruct (String.eqb_spec (extractTrialId row) "") as [E|E]; [now left|].
  destruct (stored progress !! extractTrialId row) as [s|] eqn:Es; [now left|].
  destruct (registrations !! extractTrialId row) as [registration|] eqn:Er;
    [|now left].
  destruct (discoverAndFilter env row registration (extractTrialId row))
    as [m|entry] eqn:Ed; [now left|].
  simpl. destruct (String.eqb_spec (extractTrialId row) t) as [<-|Hne].
  - right. split; [reflexivity|]. split; [exact E|]. split; [exact Es|].
    exists registration, entry. split; [exact Er|]. split; [exact Ed|].
    apply lookup_insert_eq.
  - left. now apply lookup_insert_ne.
Qed.

Lemma discoverRow_counters (i : nat) (row : Row) (progress : Progress) :
  noRegistration progress <= noRegistration (discoverRow env registrations i row progress)
  /\ exists new,
       rowErrors (discoverRow env registrations i row progress)
       = new ++ rowErrors progress.
Proof.
  unfold discoverRow.
  destruct (String.eqb (extractTrialId row) ""); [split; [lia|now exists []]|].
  destruct (stored progress !! extractTrialId row); [split; [lia|now exists []]|].
  destruct (registrations !! extractTrialId row) as [registration|];
    [|simpl; split; [lia|now exists []]].
  destruct (discoverAndFilter env row registration (extractTrialId row)) as [m|entry];
    simpl; (split; [lia|]); [|now exists []].
  now eexists [_].
Qed.

(** What the loop does to the entry of a trial. *)
Lemma discoverRows_stored (rows : list Row) :
  forall (i : nat) (progress : Progress) (t : string),
    stored (discoverRows env registrations i rows progress) !! t = stored progress !! t
    \/ (t <> "" /\ stored progress !! t = None
        /\ exists row registration entry,
             In row rows /\ extractTrialId row = t
             /\ registrations !! t = Some registration
             /\ discoverAndFilter env row registration t = Js.Returned entry
             /\ stored (discoverRows env registrations i rows progress) !! t
                = Some entry).
Proof.
  induction rows as [|row rest IH]; intros i progress t; simpl; [now left|].
  destruct (IH (S i) (discoverRow env registrations i row progress) t)
    as [Hsame|(Hne & Hnone & row' & registration & entry & Hin & Ht & Hr & Hd & Hs)];
    destruct (discoverRow_stored i row progress t)
      as [Hrow|(Ht0 & Hne0 & Hnone0 & registration0 & entry0 & Hr0 & Hd0 & Hs0)].
  - left. congruence.
  - right. split; [exact Hne0|]. split; [exact Hnone0|].
    exists row, registration0, entry0. split; [now left|]. split; [now symmetry|].
    split; [exact Hr0|]. split; [exact Hd0|]. congruence.
  - right. split; [exact Hne|]. split; [congruence|].
    exists row', registration, entry. split; [now right|]. now repeat split.
  - congruence.
Qed.

Lemma discoverRows_counters (rows : list Row) :
  forall (i : nat) (progress : Progress),
    noRegistration progress <= noRegistration (discoverRows env registrations i rows progress)
    /\ exists new,
         rowErrors (discoverRows env registrations i rows progress)
         = new ++ rowErrors progress.
Proof.
  induction rows as [|row rest IH]; intros i progress; simpl.
  - split; [lia|now exists []].
  - destruct (IH (S i) (discoverRow env registrations i row progress)) as [Hn [new Hnew]].
    destruct (discoverRow_counters i row progress) as [Hn0 [new0 Hnew0]].
    split; [lia|]. exists (new ++ new0). now rewrite Hnew, Hnew0, app_assoc.
Qed.

(** What the two filters leave in a stored entry. *)
Lemma discoverAndFilter_Returned (row : Row) (registration : Registration)
    (t : string) (entry : Stored) :
  discoverAndFilter env row registration t = Js.Returned entry ->
  exists found,
    publicationDiscovery env t = Js.Returned (found, errors entry)
    /\ sublist (publications entry) (map Some found)
    /\ (validationRun env = true ->
        exists tmax,
          parseDate env (maxDateOf row) = Some tmax
          /\ forall p, In p (publications entry) -> Utils.hasDate p = true ->
               exists d, dateOf env p = Some d /\ d < tmax)
    /\ (Js.truthy (startDate registration) = true ->
        exists tmin,
          parseDate env (default "" (startDate registration)) = Some tmin
          /\ forall p, In p (publications entry) -> Utils.hasDate p = true ->
               exists d, dateOf env p = Some d /\ tmin <= d).
Proof.
  unfold discoverAndFilter.
  destruct (publicationDiscovery env t) as [m|[found pubErrors]]; [discriminate|].
  assert (forall keep pubs p,
            In p (Utils.eligible (Utils.splitByDate (parseDate env) keep pubs)) ->
            Utils.hasDate p = true ->
            exists d, dateOf env p = Some d /\ keep d = true) as Hkeep.
  { intros keep pubs p Hin Hd. apply splitByDate_eligible in Hin as [_ Hdest].
    unfold Utils.destination in Hdest. unfold Utils.hasDate in Hd. unfold dateOf.
    destruct (p ≫= publicationDate) as [d|]; [|discriminate].
    simpl in Hd. destruct (String.eqb d ""); [discriminate|].
    destruct (parseDate env d) as [z|]; [|discriminate].
    exists z. split; [reflexivity|]. congruence. }
  set (all := map Some found).
  destruct (validationRun env) eqn:Ev.
  - unfold Utils.maxDateFilter.
    destruct (negb (Js.truthy (Some (maxDateOf row)))); [discriminate|].
    simpl default. destruct (parseDate env (maxDateOf row)) as [tmax|] eqn:Emax;
      [|discriminate].
    set (r1 := Utils.splitByDate (parseDate env) (fun pubDate => pubDate <? tmax) all).
    destruct (splitByDate_sublists (parseDate env) (fun pubDate => pubDate <? tmax) all)
      as (Hsub1 & _).
    fold r1 in Hsub1.
    destruct (Js.truthy (startDate registration)) eqn:Es.
    + unfold Utils.minDateFilter. rewrite Es. simpl negb. cbv iota.
      destruct (parseDate env (default "" (startDate registration))) as [tmin|] eqn:Emin;
        [|discriminate].
      intros [= <-]. simpl. exists found. split; [reflexivity|].
      destruct (splitByDate_sublists (parseDate env) (fun pubDate => tmin <=? pubDate)
                  (Utils.eligible r1)) as (Hsub2 & _).
      split; [etransitivity; eassumption|]. split.
      * intros _. exists tmax. split; [reflexivity|]. intros p Hp Hd.
        apply splitByDate_eligible in Hp as [Hp _].
        destruct (Hkeep _ _ p Hp Hd) as (d & Hd1 & Hd2).
        exists d. split; [exact Hd1|]. now apply Z.ltb_lt.
      * intros _. exists tmin. split; [reflexivity|]. intros p Hp Hd.
        destruct (Hkeep _ _ p Hp Hd) as (d & Hd1 & Hd2).
        exists d. split; [exact Hd1|]. now apply Z.leb_le.
    + intros [= <-]. simpl. exists found. split; [reflexivity|].
      split; [exact Hsub1|]. split; [|discriminate].
      intros _. exists tmax. split; [reflexivity|]. intros p Hp Hd.
      destruct (Hkeep _ _ p Hp Hd) as (d & Hd1 & Hd2).
      exists d. split; [exact Hd1|]. now apply Z.ltb_lt.
  - destruct (Js.truthy (startDate registration)) eqn:Es.
    + unfold Utils.minDateFilter. rewrite Es. simpl negb. cbv iota.
      destruct (parseDate env (default "" (startDate registration))) as [tmin|] eqn:Emin;
        [|discriminate].
      intros [= <-]. simpl. exists found. split; [reflexivity|].
      destruct (splitByDate_sublists (parseDate env) (fun pubDate => tmin <=? pubDate)
                  all) as (Hsub2 & _).
      split; [exact Hsub2|]. split; [discriminate|].
      intros _. exists tmin. split; [reflexivity|]. intros p Hp Hd.
      destruct (Hkeep _ _ p Hp Hd) as (d & Hd1 & Hd2).
      exists d. split; [exact Hd1|]. now apply Z.leb_le.
    + intros [= <-]. simpl. exists found. split; [reflexivity|].
      split; [reflexivity|]. split; discriminate.
Qed.

(** A start date that is not a date makes every attempt throw. *)
Lemma discoverAndFilter_bad_start (row : Row) (registration : Registration)
    (t : string) :
  Js.truthy (startDate registration) = true ->
  parseDate env (default "" (startDate registration)) = None ->
  exists message, discoverAndFilter env row registration t = Js.Threw message.
Proof.
  intros Hs Hp. unfold discoverAndFilter.
  destruct (publicationDiscovery env t) as [m|[found pubErrors]]; [eauto|].
  destruct (if validationRun env then _ else _) as [m|r1]; [eauto|].
  rewrite Hs. unfold Utils.minDateFilter. rewrite Hs, Hp. simpl. eauto.
Qed.

End PubDiscoveryFacts.

(** X23.  Stage PUB_DISCOVERY never redoes or overwrites a trial: every
    publications entry present before the stage is present, unchanged,
    after it.  An entry is added only for a trial that is named by a row,
    has a registration and had no entry; the counter of trials without
    registration never decreases and recorded row errors are only added;
    and the stage always moves to RESULT_GEN_PREPARATION, whatever fails
    for the individual rows. *)
Theorem stagePubDiscovery_keeps_entries :
  forall (env : PubDiscovery.Env) (rows : list Row)
         (registrations : gmap string Registration)
         (progress : PubDiscovery.Progress),
    (PubDiscovery.stagePubDiscovery env rows registrations progress).2
    = RESULT_GEN_PREPARATION
    /\ (forall t entry,
          PubDiscovery.stored progress !! t = Some entry ->
          PubDiscovery.stored
            (PubDiscovery.stagePubDiscovery env rows registrations progress).1 !! t
          = Some entry)
    /\ (forall t,
          PubDiscovery.stored progress !! t = None ->
          is_Some (PubDiscovery.stored
                     (PubDiscovery.stagePubDiscovery env rows registrations progress).1
                   !! t) ->
          t <> "" /\ is_Some (registrations !! t)
          /\ exists row, In row rows /\ extractTrialId row = t)
    /\ PubDiscovery.noRegistration progress
       <= PubDiscovery.noRegistration
            (PubDiscovery.stagePubDiscovery env rows registrations progress).1
    /\ exists new,
         PubDiscovery.rowErrors
           (PubDiscovery.stagePubDiscovery env rows registrations progress).1
         = new ++ PubDiscovery.rowErrors progress.
Proof.
  intros env rows registrations progress. simpl.
  split; [reflexivity|]. split; [|split].
  - intros t entry Ht.
    destruct (discoverRows_stored env registrations rows 0 progress t)
      as [Hsame|(_ & Hnone & _)]; congruence.
  - intros t Hnone [entry Ht].
    destruct (discoverRows_stored env registrations rows 0 progress t)
      as [Hsame|(Hne & _ & row & registration & e & Hin & Hrow & Hr & _)];
      [congruence|].
    split; [exact Hne|]. split; [eauto|]. now exists row.
  - apply discoverRows_counters.
Qed.

(** X24.  An entry that stage PUB_DISCOVERY adds for a trial holds what the
    discovery of that trial returned, cut to the trial's window: its
    publications are a subsequence of the discovered ones and its errors
    are the discovery errors; in a validation run every stored publication
    that has a date has a parseable one, strictly before the cut-off of
    the row's dataset; and when the registration has a start date every
    stored publication that has a date has a parseable one, on or after
    the start date. *)
Theorem stagePubDiscovery_entry_within_window :
  forall (env : PubDiscovery.Env) (rows : list Row)
         (registrations : gmap string Registration)
         (progress : PubDiscovery.Progress) (t : string) (entry : PubDiscovery.Stored),
    PubDiscovery.stored progress !! t = None ->
    PubDiscovery.stored
      (PubDiscovery.stagePubDiscovery env rows registrations progress).1 !! t
    = Some entry ->
    exists row registration found,
      In row rows /\ extractTrialId row = t
      /\ registrations !! t = Some registration
      /\ PubDiscovery.publicationDiscovery env t
         = Js.Returned (found, PubDiscovery.errors entry)
      /\ sublist (PubDiscovery.publications entry) (map Some found)
      /\ (PubDiscovery.validationRun env = true ->
          exists tmax,
            PubDiscovery.parseDate env (PubDiscovery.maxDateOf row) = Some tmax
            /\ forall p, In p (PubDiscovery.publications entry) ->
                 Utils.hasDate p = true ->
                 exists d, PubDiscovery.dateOf env p = Some d /\ d < tmax)
      /\ (Js.truthy (startDate registration) = true ->
          exists tmin,
            PubDiscovery.parseDate env (default "" (startDate registration))
            = Some tmin
            /\ forall p, In p (PubDiscovery.publications entry) ->
                 Utils.hasDate p = true ->
                 exists d, PubDiscovery.dateOf env p = Some d /\ tmin <= d).
Proof.
  intros env rows registrations progress t entry Hnone Hentry. simpl in Hentry.
  destruct (discoverRows_stored env registrations rows 0 progress t)
    as [Hsame|(_ & _ & row & registration & e & Hin & Hrow & Hr & Hd & Hs)];
    [congruence|].
  assert (e = entry) as -> by congruence.
  destruct (discoverAndFilter_Returned env row registration t entry Hd)
    as (found & Hfound & Hsub & Hmax & Hmin).
  exists row, registration, found. now repeat split.
Qed.

Lemma stagePubDiscovery_entry_within_window_witness :
  exists entry,
    PubDiscovery.stored
      (PubDiscovery.stagePubDiscovery Samples.discoveryEnv Samples.oneRow
         Samples.oneRegistration Samples.noProgress).1 !! "NCT00000001"
    = Some entry
    /\ PubDiscovery.publications entry = [Some Samples.pubA; Some Samples.pubC]
    /\ exists row registration found,
         In row Samples.oneRow /\ extractTrialId row = "NCT00000001"
         /\ Samples.oneRegistration !! "NCT00000001" = Some registration
         /\ PubDiscovery.publicationDiscovery Samples.discoveryEnv "NCT00000001"
            = Js.Returned (found, PubDiscovery.errors entry)
         /\ sublist (PubDiscovery.publications entry) (map Some found).
Proof.
  eexists. split; [vm_compute; reflexivity|]. split; [reflexivity|].
  destruct (stagePubDiscovery_entry_within_window Samples.discoveryEnv Samples.oneRow
              Samples.oneRegistration Samples.noProgress "NCT00000001" _
              eq_refl eq_refl)
    as (row & registration & found & H1 & H2 & H3 & H4 & H5 & _).
  exists row, registration, found. now repeat split.
Defined.

Section BadStartDate.
Import PubDiscovery.
Variable env : Env.
Variable registrations : gmap string Registration.
Variable t : string.
Variable registration : Registration.
Hypothesis Ht : t <> "".
Hypothesis Hregistration : registrations !! t = Some registration.
Hypothesis Hstart : Js.truthy (startDate registration) = true.
Hypothesis Hparse : parseDate env (default "" (startDate registration)) = None.

Lemma bad_start_never_stored (rows : list Row) (k : nat) (progress : Progress) :
  stored progress !! t = None ->
  stored (discoverRows env registrations k rows progress) !! t = None.
Proof.
  intros Hnone.
  destruct (discoverRows_stored env registrations rows k progress t)
    as [Hsame|(_ & _ & row & r & e & _ & _ & Hr & Hd & _)]; [congruence|].
  assert (r = registration) as -> by congruence.
  destruct (discoverAndFilter_bad_start env row registration t Hstart Hparse) as [m Hm].
  congruence.
Qed.

Lemma bad_start_recorded (rows : list Row) :
  forall (k i : nat) (progress : Progress) (row : Row),
    (k <= i)%nat -> rows !! (i - k)%nat = Some row -> extractTrialId row = t ->
    stored progress !! t = None ->
    exists message,
      In (i, t, String.append "Publication discovery failed: " message)
        (rowErrors (discoverRows env registrations k rows progress)).
Proof.
  induction rows as [|r rest IH]; intros k i progress row Hle Hrow Hid Hnone;
    [discriminate|].
  simpl. destruct (Nat.eq_dec i k) as [->|Hne].
  - rewrite Nat.sub_diag in Hrow. injection Hrow as ->.
    destruct (discoverAndFilter_bad_start env row registration t Hstart Hparse) as [m Hm].
    exists m.
    destruct (discoverRows_counters env registrations rest (S k)
                (discoverRow env registrations k row progress)) as [_ [new ->]].
    apply in_or_app. right. unfold discoverRow. rewrite Hid.
    destruct (String.eqb_spec t "") as [E|_]; [contradiction|].
    rewrite Hnone, Hregistration, Hm. now left.
  - apply (IH (S k) i _ row); [lia| |exact Hid|].
    + replace (i - k)%nat with (S (i - S k)) in Hrow by lia. exact Hrow.
    + destruct (discoverRow_stored env registrations k r progress t)
        as [Hsame|(_ & _ & _ & r0 & e & Hr & Hd & _)]; [congruence|].
      assert (r0 = registration) as -> by congruence.
      destruct (discoverAndFilter_bad_start env r registration t Hstart Hparse)
        as [m Hm].
      congruence.
Qed.

End BadStartDate.

(** X25.  A trial without publications entry so far whose registration has
    a start date that is present but is not a date never gets an entry from
    stage PUB_DISCOVERY: for each row naming it the attempt throws (at the latest
    in the start-date filter), an error is recorded for that row, and the
    trial is left without entry. *)
Theorem stagePubDiscovery_unparseable_start_date :
  forall (env : PubDiscovery.Env) (rows : list Row)
         (registrations : gmap string Registration)
         (progress : PubDiscovery.Progress) (i : nat) (row : Row)
         (registration : Registration),
    rows !! i = Some row ->
    extractTrialId row <> "" ->
    PubDiscovery.stored progress !! extractTrialId row = None ->
    registrations !! extractTrialId row = Some registration ->
    Js.truthy (startDate registration) = true ->
    PubDiscovery.parseDate env (default "" (startDate registration)) = None ->
    PubDiscovery.stored
      (PubDiscovery.stagePubDiscovery env rows registrations progress).1
    !! extractTrialId row = None
    /\ exists message,
         In (i, extractTrialId row,
             String.append "Publication discovery failed: " message)
           (PubDiscovery.rowErrors
              (PubDiscovery.stagePubDiscovery env rows registrations progress).1).
Proof.
  intros env rows registrations progress i row registration Hrow Hid Hnone Hr Hs Hp.
  simpl. split.
  - now apply (bad_start_never_stored env registrations (extractTrialId row) registration).
  - apply (bad_start_recorded env registrations (extractTrialId row) registration
             Hid Hr Hs Hp rows 0 i progress row); [lia| |reflexivity|exact Hnone].
    now rewrite Nat.sub_0_r.
Qed.

Lemma stagePubDiscovery_unparseable_start_date_witness :
  PubDiscovery.stored
    (PubDiscovery.stagePubDiscovery Samples.discoveryEnv Samples.oneRow
       Samples.trialWithBadStart Samples.noProgress).1 !! "NCT00000001"
  = None
  /\ exists message,
       In (0%nat, "NCT00000001",
           String.append "Publication discovery failed: " message)
         (PubDiscovery.rowErrors
            (PubDiscovery.stagePubDiscovery Samples.discoveryEnv Samples.oneRow
               Samples.trialWithBadStart Samples.noProgress).1).
Proof.
  apply (stagePubDiscovery_unparseable_start_date Samples.discoveryEnv Samples.oneRow
           Samples.trialWithBadStart Samples.noProgress 0%nat
           [("nct_id", " NCT00000001 ")]
           {| trialId := "NCT00000001"; startDate := Some "unknown";
              hasResults := None; linkedPubmedIds := None; references := None |}).
  - reflexivity.
  - vm_compute. discriminate.
  - reflexivity.
  - vm_compute. reflexivity.
  - reflexivity.
  - vm_compute. reflexivity.
Defined.

(** ** detectRegistryType, validateTrialId and normalizeTrialId *)

Section TrimFacts.

Lemma trimStart_fixed (s : string) :
  match s with
  | EmptyString => True
  | String c _ => isSpace c = false
  end ->
  trimStart s = s.
Proof. destruct s as [|c rest]; simpl; [reflexivity|]. now intros ->. Qed.

Lemma trimStart_head (s : string) :
  match trimStart s with
  | EmptyString => True
  | String c _ => isSpace c = false
  end.
Proof.
  induction s as [|c rest IH]; simpl; [exact I|].
  destruct (isSpace c) eqn:E; [exact IH|exact E].
Qed.

Lemma trimEnd_head (s : string) :
  match s with
  | EmptyString => True
  | String c _ => isSpace c = false
  end ->
  match trimEnd s with
  | EmptyString => True
  | String c _ => isSpace c = false
  end.
Proof.
  destruct s as [|c rest]; simpl; [trivial|]. intros Hc.
  destruct (trimEnd rest); [now rewrite Hc|exact Hc].
Qed.

Lemma trimEnd_idempotent (s : string) : trimEnd (trimEnd s) = trimEnd s.
Proof.
  induction s as [|c rest IH]; simpl; [reflexivity|].
  destruct (trimEnd rest) as [|d e] eqn:E.
  - destruct (isSpace c) eqn:Ec; simpl; [reflexivity|]. now rewrite Ec.
  - simpl. simpl in IH. destruct (trimEnd e) as [|d' e'] eqn:Ee.
    + destruct (isSpace d); [discriminate|]. now rewrite IH.
    + now rewrite IH.
Qed.

Lemma trim_idempotent (s : string) : trim (trim s) = trim s.
Proof.
  unfold trim.
  rewrite (trimStart_fixed (trimEnd (trimStart s))).
  - apply trimEnd_idempotent.
  - apply trimEnd_head, trimStart_head.
Qed.

Lemma trimEnd_noSpace (s : string) : Registry.noSpace s = true -> trimEnd s = s.
Proof.
  induction s as [|c rest IH]; simpl; [reflexivity|].
  intros H. apply andb_true_iff in H as [Hc Hrest]. rewrite (IH Hrest).
  destruct rest; [|reflexivity].
  apply negb_true_iff in Hc. now rewrite Hc.
Qed.

Lemma trim_noSpace (s : string) : Registry.noSpace s = true -> trim s = s.
Proof.
  intros H. unfold trim. rewrite trimStart_fixed; [now apply trimEnd_noSpace|].
  destruct s as [|c rest]; [exact I|]. simpl in H.
  apply andb_true_iff in H as [Hc _]. now apply negb_true_iff in Hc.
Qed.

End TrimFacts.

Section RegistryFacts.
Import Registry.

Ltac each_ascii c :=
  destruct c as [[] [] [] [] [] [] [] []]; vm_compute;
  try discriminate; try (intros _; split; reflexivity); try reflexivity.

Lemma solid_Digit : solid Digit.
Proof. intros c. each_ascii c. Qed.

Lemma solid_Letter_n : solid (Letter "n").
Proof. intros c. each_ascii c. Qed.

Lemma solid_Letter_c : solid (Letter "c").
Proof. intros c. each_ascii c. Qed.

Lemma solid_Letter_t : solid (Letter "t").
Proof. intros c. each_ascii c. Qed.

Lemma solid_Letter_d : solid (Letter "d").
Proof. intros c. each_ascii c. Qed.

Lemma solid_Letter_r : solid (Letter "r").
Proof. intros c. each_ascii c. Qed.

Lemma solid_Letter_k : solid (Letter "k").
Proof. intros c. each_ascii c. Qed.

Lemma solid_Letter_s : solid (Letter "s").
Proof. intros c. each_ascii c. Qed.

Lemma solid_dash : solid (Exactly "-").
Proof. intros c. each_ascii c. Qed.

Lemma solid_patterns :
  Forall solid ctgovPattern /\ Forall solid euctrPattern /\ Forall solid drksPattern.
Proof.
  pose proof solid_Digit. pose proof solid_Letter_n. pose proof solid_Letter_c.
  pose proof solid_Letter_t. pose proof solid_Letter_d. pose proof solid_Letter_r.
  pose proof solid_Letter_k. pose proof solid_Letter_s. pose proof solid_dash.
  repeat split; unfold ctgovPattern, euctrPattern, drksPattern; simpl;
    repeat (apply List.Forall_cons; [assumption|]); apply List.Forall_nil.
Qed.

Lemma exclusive_n_digit : exclusive (Letter "n") Digit.
Proof. intros c. each_ascii c. Qed.

Lemma exclusive_n_d : exclusive (Letter "n") (Letter "d").
Proof. intros c. each_ascii c. Qed.

Lemma exclusive_digit_d : exclusive Digit (Letter "d").
Proof. intros c. each_ascii c. Qed.

Lemma upperAscii_idempotent (c : ascii) : upperAscii (upperAscii c) = upperAscii c.
Proof. each_ascii c. Qed.

Lemma toUpperCase_idempotent (s : string) :
  toUpperCase (toUpperCase s) = toUpperCase s.
Proof.
  induction s as [|c rest IH]; simpl; [reflexivity|].
  now rewrite upperAscii_idempotent, IH.
Qed.

(** A string matched by a pattern of solid atoms has no white space, and
    its upper-case form is matched too. *)
Lemma test_solid (pattern : list Atom) :
  Forall solid pattern ->
  forall s, test pattern s = true ->
    noSpace s = true /\ test pattern (toUpperCase s) = true
    /\ noSpace (toUpperCase s) = true.
Proof.
  induction 1 as [|a atoms Ha Hrest IH]; intros [|c rest]; simpl; try discriminate.
  - now repeat split.
  - intros H. apply andb_true_iff in H as [Hc Hr].
    destruct (Ha c Hc) as [Hs Hu]. destruct (IH rest Hr) as (H1 & H2 & H3).
    destruct (Ha (upperAscii c) Hu) as [Hs' _].
    rewrite Hs, Hu, H1, H2, Hs', H3. now repeat split.
Qed.

(** Patterns whose first atoms exclude each other match no common
    string. *)
Lemma test_exclusive (a b : Atom) (p q : list Atom) (s : string) :
  exclusive a b -> test (a :: p) s = true -> test (b :: q) s = false.
Proof.
  intros Hab. destruct s as [|c rest]; simpl; [reflexivity|].
  intros H. apply andb_true_iff in H as [Hc _]. now rewrite (Hab c Hc).
Qed.

Lemma ctgov_not_others (s : string) :
  test ctgovPattern s = true ->
  test euctrPattern s = false /\ test drksPattern s = false.
Proof.
  intros H. split.
  - exact (test_exclusive _ _ _ _ s exclusive_n_digit H).
  - exact (test_exclusive _ _ _ _ s exclusive_n_d H).
Qed.

Lemma euctr_not_others (s : string) :
  test euctrPattern s = true ->
  test ctgovPattern s = false /\ test drksPattern s = false.
Proof.
  intros H. split.
  - destruct (test ctgovPattern s) eqn:E; [|reflexivity].
    destruct (ctgov_not_others s E). congruence.
  - exact (test_exclusive _ _ _ _ s exclusive_digit_d H).
Qed.

Lemma drks_not_others (s : string) :
  test drksPattern s = true ->
  test ctgovPattern s = false /\ test euctrPattern s = false.
Proof.
  intros H. split.
  - destruct (test ctgovPattern s) eqn:E; [|reflexivity].
    destruct (ctgov_not_others s E). congruence.
  - destruct (test euctrPattern s) eqn:E; [|reflexivity].
    destruct (euctr_not_others s E). congruence.
Qed.

Lemma truthy_Some (s : string) : Js.truthy (Some s) = negb (String.eqb s "").
Proof. reflexivity. Qed.

(** [detectRegistryType] on a string that is its own trimmed form. *)
Lemma detect_trimmed (s : string) :
  trim s = s ->
  detectRegistryType (Some s)
  = if test ctgovPattern s then CTGOV
    else if test euctrPattern s then EUCTR
    else if test drksPattern s then DRKS
    else UNKNOWN.
Proof.
  intros Ht. unfold detectRegistryType. simpl default. rewrite Ht, truthy_Some.
  destruct (String.eqb_spec s "") as [->|_]; reflexivity.
Qed.

Lemma test_nonempty (a : Atom) (p : list Atom) (s : string) :
  test (a :: p) s = true -> s <> "".
Proof. destruct s; [discriminate|discriminate]. Qed.

(** [normalizeTrialId] on a string that is its own trimmed form. *)
Lemma normalize_trimmed (s : string) :
  trim s = s ->
  normalizeTrialId (Some s)
  = if test ctgovPattern s then toUpperCase s
    else if test euctrPattern s then s
    else if test drksPattern s then toUpperCase s
    else s.
Proof.
  intros Ht. unfold normalizeTrialId. simpl default. rewrite Ht, truthy_Some.
  destruct (String.eqb_spec s "") as [->|_]; [reflexivity|]. simpl negb. cbv iota.
  rewrite (detect_trimmed s Ht).
  destruct (test ctgovPattern s); [reflexivity|].
  destruct (test euctrPattern s); [reflexivity|].
  destruct (test drksPattern s); reflexivity.
Qed.

(** Both functions only look at the trimmed form of a string. *)
Lemma detect_of_trim (trialId : option string) :
  Js.truthy trialId = true ->
  detectRegistryType trialId = detectRegistryType (Some (trim (default "" trialId))).
Proof.
  intros H. rewrite (detect_trimmed _ (trim_idempotent _)).
  unfold detectRegistryType. now rewrite H.
Qed.

Lemma normalize_of_trim (trialId : option string) :
  Js.truthy trialId = true ->
  normalizeTrialId trialId = normalizeTrialId (Some (trim (default "" trialId))).
Proof.
  intros H. rewrite (normalize_trimmed _ (trim_idempotent _)).
  unfold normalizeTrialId. rewrite H. simpl negb. cbv iota zeta.
  rewrite (detect_trimmed _ (trim_idempotent _)).
  destruct (test ctgovPattern _); [reflexivity|].
  destruct (test euctrPattern _); [reflexivity|].
  destruct (test drksPattern _); reflexivity.
Qed.

(** The normal form of a trimmed string. *)
Lemma normalize_canonical_trimmed (s : string) :
  trim s = s ->
  let n := normalizeTrialId (Some s) in
  trim n = n
  /\ normalizeTrialId (Some n) = n
  /\ detectRegistryType (Some n) = detectRegistryType (Some s)
  /\ (detectRegistryType (Some s) = CTGOV \/ detectRegistryType (Some s) = DRKS ->
      toUpperCase n = n)
  /\ (detectRegistryType (Some s) <> UNKNOWN ->
      validateTrialId (Some n) (detectRegistryType (Some s)) = true).
Proof.
  intros Ht n. subst n. rewrite (normalize_trimmed s Ht), (detect_trimmed s Ht).
  destruct solid_patterns as (Sc & Se & Sd).
  assert (forall pattern u, Forall solid pattern -> test pattern u = true ->
            trim (toUpperCase u) = toUpperCase u) as Hup.
  { intros pattern u Hs Hu. apply trim_noSpace. now apply (test_solid pattern Hs u). }
  destruct (test ctgovPattern s) eqn:Ec.
  - destruct (test_solid _ Sc s Ec) as (_ & Hu & _).
    pose proof (Hup _ s Sc Ec) as Htu.
    split; [exact Htu|].
    rewrite (normalize_trimmed _ Htu), (detect_trimmed _ Htu), Hu.
    split; [apply toUpperCase_idempotent|]. split; [reflexivity|].
    split; [intros _; apply toUpperCase_idempotent|]. intros _.
    unfold validateTrialId. simpl default. rewrite Htu, truthy_Some.
    destruct (String.eqb_spec (toUpperCase s) "") as [E|_]; [|exact Hu].
    rewrite E in Hu. discriminate.
  - destruct (test euctrPattern s) eqn:Ee.
    + split; [exact Ht|].
      rewrite (normalize_trimmed _ Ht), (detect_trimmed _ Ht), Ec, Ee.
      split; [reflexivity|]. split; [reflexivity|].
      split; [intros [H|H]; discriminate|]. intros _.
      unfold validateTrialId. simpl default. rewrite Ht, truthy_Some.
      destruct (String.eqb_spec s "") as [E|_]; [|exact Ee].
      rewrite E in Ee. discriminate.
    + destruct (test drksPattern s) eqn:Ed.
      * destruct (test_solid _ Sd s Ed) as (_ & Hu & _).
        pose proof (Hup _ s Sd Ed) as Htu.
        destruct (drks_not_others _ Hu) as [Hc He].
        split; [exact Htu|].
        rewrite (normalize_trimmed _ Htu), (detect_trimmed _ Htu), Hc, He, Hu.
        split; [apply toUpperCase_idempotent|]. split; [reflexivity|].
        split; [intros _; apply toUpperCase_idempotent|]. intros _.
        unfold validateTrialId. simpl default. rewrite Htu, truthy_Some.
        destruct (String.eqb_spec (toUpperCase s) "") as [E|_]; [|exact Hu].
        rewrite E in Hu. discriminate.
      * split; [exact Ht|].
        rewrite (normalize_trimmed _ Ht), (detect_trimmed _ Ht), Ec, Ee, Ed.
        split; [reflexivity|]. split; [reflexivity|].
        split; [intros [H|H]; discriminate|]. intros H. now elim H.
Qed.

End RegistryFacts.

(** X26.  [validateTrialId] agrees with [detectRegistryType]: an identifier
    is valid for a registry type exactly when that type is the one
    detected for it and is not "unknown".  So no identifier is valid for
    two registry types, and none is valid for "unknown" or for a type
    without pattern. *)
Theorem validateTrialId_agrees_with_detectRegistryType :
  forall (trialId : option string) (registryType : string),
    Registry.validateTrialId trialId registryType = true <->
    Registry.detectRegistryType trialId = registryType
    /\ registryType <> Registry.UNKNOWN.
Proof.
  intros trialId registryType.
  unfold Registry.validateTrialId, Registry.detectRegistryType.
  destruct (Js.truthy trialId); simpl negb; cbv iota zeta.
  2: { split; [discriminate|]. intros [<- H]. now elim H. }
  set (s := trim (default "" trialId)). unfold Registry.REGISTRY_PATTERNS.
  destruct (String.eqb_spec registryType Registry.CTGOV) as [->|H1].
  { destruct (Registry.test Registry.ctgovPattern s) eqn:E.
    - split; [intros _; split; [reflexivity|discriminate]|reflexivity].
    - split; [discriminate|]. intros [H _].
      destruct (Registry.test Registry.euctrPattern s),
        (Registry.test Registry.drksPattern s); discriminate. }
  destruct (String.eqb_spec registryType Registry.EUCTR) as [->|H2].
  { destruct (Registry.test Registry.euctrPattern s) eqn:E.
    - destruct (euctr_not_others s E) as [-> _].
      split; [intros _; split; [reflexivity|discriminate]|reflexivity].
    - split; [discriminate|]. intros [H _].
      destruct (Registry.test Registry.ctgovPattern s),
        (Registry.test Registry.drksPattern s); discriminate. }
  destruct (String.eqb_spec registryType Registry.DRKS) as [->|H3].
  { destruct (Registry.test Registry.drksPattern s) eqn:E.
    - destruct (drks_not_others s E) as [-> ->].
      split; [intros _; split; [reflexivity|discriminate]|reflexivity].
    - split; [discriminate|]. intros [H _].
      destruct (Registry.test Registry.ctgovPattern s),
        (Registry.test Registry.euctrPattern s); discriminate. }
  split; [discriminate|]. intros [H Hu].
  destruct (Registry.test Registry.ctgovPattern s); [now elim H1|].
  destruct (Registry.test Registry.euctrPattern s); [now elim H2|].
  destruct (Registry.test Registry.drksPattern s); [now elim H3|].
  now elim Hu.
Qed.

(** X27.  [normalizeTrialId] gives a canonical form: the result is trimmed,
    normalising it again changes nothing, it has the same detected
    registry type as the original identifier, it is in upper case when
    that type is ClinicalTrials.gov or DRKS, and it is valid for that type
    whenever the type is not "unknown". *)
Theorem normalizeTrialId_canonical :
  forall trialId : option string,
    trim (Registry.normalizeTrialId trialId) = Registry.normalizeTrialId trialId
    /\ Registry.normalizeTrialId (Some (Registry.normalizeTrialId trialId))
       = Registry.normalizeTrialId trialId
    /\ Registry.detectRegistryType (Some (Registry.normalizeTrialId trialId))
       = Registry.detectRegistryType trialId
    /\ (Registry.detectRegistryType trialId = Registry.CTGOV
        \/ Registry.detectRegistryType trialId = Registry.DRKS ->
        Registry.toUpperCase (Registry.normalizeTrialId trialId)
        = Registry.normalizeTrialId trialId)
    /\ (Registry.detectRegistryType trialId <> Registry.UNKNOWN ->
        Registry.validateTrialId (Some (Registry.normalizeTrialId trialId))
          (Registry.detectRegistryType trialId) = true).
Proof.
  intros trialId. destruct (Js.truthy trialId) eqn:E.
  - rewrite (normalize_of_trim trialId E), (detect_of_trim trialId E).
    apply (normalize_canonical_trimmed _ (trim_idempotent _)).
  - assert (Registry.normalizeTrialId trialId = "") as ->
      by (unfold Registry.normalizeTrialId; now rewrite E).
    assert (Registry.detectRegistryType trialId = Registry.UNKNOWN) as ->
      by (unfold Registry.detectRegistryType; now rewrite E).
    repeat split; try reflexivity. intros H. now elim H.
Qed.

(** ** cacheResultToFile *)

(** X28.  Write, then read.  When nothing can be served from the cache file
    (it is missing, unreadable or expired), the function returns the
    result of the computation and, the file being writable, stores it.  A
    later call then returns that stored result without consulting its own
    computation, and leaves the file as it is, as long as the time to live
    configured for the cache type at the write has not elapsed since the
    write (or there is none); once it has elapsed the later call resolves
    or rejects with its own computation.  A computation that throws leaves
    the file untouched. *)
Theorem cacheResultToFile_write_then_read :
  forall (env later : Cache.Env) (file : Cache.CacheFile)
         (cacheType cacheType' : option string)
         (result : ProgressFile.Json) (func' : Js.Result ProgressFile.Json),
    Cache.stale env file ->
    Cache.canWrite env = true ->
    (Cache.cacheResultToFile env (Js.Returned result) file cacheType).1
    = Js.Returned result
    /\ (Cache.within env later cacheType ->
        Cache.cacheResultToFile later func'
          (Cache.cacheResultToFile env (Js.Returned result) file cacheType).2 cacheType'
        = (Js.Returned result,
           (Cache.cacheResultToFile env (Js.Returned result) file cacheType).2))
    /\ (~ Cache.within env later cacheType ->
        (Cache.cacheResultToFile later func'
           (Cache.cacheResultToFile env (Js.Returned result) file cacheType).2
           cacheType').1
        = func')
    /\ (forall message,
          Cache.cacheResultToFile env (Js.Threw message) file cacheType
          = (Js.Threw message, file)).
Proof.
  intros env later file cacheType cacheType' result func' Hstale Hw.
  assert (Cache.cacheResultToFile env (Js.Returned result) file cacheType
          = (Js.Returned result,
             Cache.Entry (Cache.At (Cache.writeTime env))
               (Cache.getCacheTTL env cacheType) result)) as ->.
  { unfold Cache.cacheResultToFile. rewrite Hw.
    destruct file as [| |data|timestamp ttl data]; simpl in Hstale;
      [reflexivity|reflexivity|destruct Hstale|now rewrite Hstale]. }
  split; [reflexivity|]. cbn [fst snd]. unfold Cache.within.
  unfold Cache.cacheResultToFile at 1 2. cbn [Cache.isCacheValid].
  destruct (Cache.orNumber (Cache.getCacheTTL env cacheType) None) as [seconds|].
  - split; [|split].
    + intros Hin. now rewrite (proj2 (Z.ltb_lt _ _) Hin).
    + intros Hout. rewrite (proj2 (Z.ltb_ge _ _)) by lia.
      now destruct func'.
    + intros message. unfold Cache.cacheResultToFile.
      destruct file as [| |data|timestamp ttl data]; simpl in Hstale;
        [reflexivity|reflexivity|destruct Hstale|now rewrite Hstale].
  - split; [reflexivity|]. split; [tauto|].
    intros message. unfold Cache.cacheResultToFile.
    destruct file as [| |data|timestamp ttl data]; simpl in Hstale;
      [reflexivity|reflexivity|destruct Hstale|now rewrite Hstale].
Qed.

Lemma cacheResultToFile_write_then_read_witness :
  (Cache.cacheResultToFile (Samples.cacheAt 0) (Js.Returned Samples.searchResult)
     Cache.Missing (Some "pubmed_naive")).1
  = Js.Returned Samples.searchResult
  /\ Cache.cacheResultToFile (Samples.cacheAt 3599999) (Js.Threw "offline")
       (Cache.cacheResultToFile (Samples.cacheAt 0) (Js.Returned Samples.searchResult)
          Cache.Missing (Some "pubmed_naive")).2
       (Some "pubmed_naive")
     = (Js.Returned Samples.searchResult,
        (Cache.cacheResultToFile (Samples.cacheAt 0) (Js.Returned Samples.searchResult)
           Cache.Missing (Some "pubmed_naive")).2).
Proof.
  destruct (cacheResultToFile_write_then_read (Samples.cacheAt 0)
              (Samples.cacheAt 3599999) Cache.Missing (Some "pubmed_naive")
              (Some "pubmed_naive") Samples.searchResult (Js.Threw "offline") I eq_refl)
    as (H1 & H2 & _).
  split; [exact H1|]. apply H2. vm_compute. reflexivity.
Defined.

(** ** stagePrepRegistrations and registrationDiscovery *)

Section PrepStageFacts.
Import Prep.
Variable env : Env.

Lemma prepRow_registrations (i : nat) (row : Row) (progress : Progress) (t : string) :
  registrations (prepRow env i row progress) !! t = registrations progress !! t
  \/ (t = extractTrialId row /\ t <> "" /\ registrations progress !! t = None
      /\ exists trialData,
           registrationDiscovery env t = Js.Returned (Some trialData)
           /\ registrations (prepRow env i row progress) !! t = Some trialData).
Proof.
  unfold prepRow.
  destruct (String.eqb_spec (extractTrialId row) "") as [E|E]; [now left|].
  destruct (registrations progress !! extractTrialId row) as [r|] eqn:Er; [now left|].
  destruct (registrationDiscovery env (extractTrialId row)) as [m|[trialData|]] eqn:Ed;
    [now left| |now left].
  simpl. destruct (String.eqb_spec (extractTrialId row) t) as [<-|Hne].
  - right. split; [reflexivity|]. split; [exact E|]. split; [exact Er|].
    exists trialData. split; [exact Ed|]. apply lookup_insert_eq.
  - left. now apply lookup_insert_ne.
Qed.

Lemma prepRows_registrations (rows : list Row) :
  forall (i : nat) (progress : Progress) (t : string),
    registrations (prepRows env i rows progress) !! t = registrations progress !! t
    \/ (t <> "" /\ registrations progress !! t = None
        /\ exists row trialData,
             In row rows /\ extractTrialId row = t
             /\ registrationDiscovery env t = Js.Returned (Some trialData)
             /\ registrations (prepRows env i rows progress) !! t = Some trialData).
Proof.
  induction rows as [|row rest IH]; intros i progress t; simpl; [now left|].
  destruct (IH (S i) (prepRow env i row progress) t)
    as [Hsame|(Hne & Hnone & row' & trialData & Hin & Ht & Hd & Hs)];
    destruct (prepRow_registrations i row progress t)
      as [Hrow|(Ht0 & Hne0 & Hnone0 & trialData0 & Hd0 & Hs0)].
  - left. congruence.
  - right. split; [exact Hne0|]. split; [exact Hnone0|].
    exists row, trialData0. split; [now left|]. split; [now symmetry|].
    split; [exact Hd0|]. congruence.
  - right. split; [exact Hne|]. split; [congruence|].
    exists row', trialData. split; [now right|]. now repeat split.
  - congruence.
Qed.

Lemma prepRow_counters (i : nat) (row : Row) (progress : Progress) :
  noTrialId (prepRow env i row progress)
  = noTrialId progress + (if String.eqb (extractTrialId row) "" then 1 else 0)
  /\ exists new, rowErrors (prepRow env i row progress) = new ++ rowErrors progress.
Proof.
  unfold prepRow.
  destruct (String.eqb (extractTrialId row) ""); [split; [reflexivity|now exists []]|].
  destruct (registrations progress !! extractTrialId row); [split; [lia|now exists []]|].
  destruct (registrationDiscovery env (extractTrialId row)) as [m|[trialData|]];
    simpl; (split; [lia|]); [now eexists [_]|now exists []|now exists []].
Qed.

Lemma prepRows_counters (rows : list Row) :
  forall (i : nat) (progress : Progress),
    noTrialId (prepRows env i rows progress)
    = noTrialId progress + Z.of_nat (length (withoutTrialId rows))
    /\ exists new, rowErrors (prepRows env i rows progress) = new ++ rowErrors progress.
Proof.
  induction rows as [|row rest IH]; intros i progress; simpl.
  - split; [lia|now exists []].
  - destruct (IH (S i) (prepRow env i row progress)) as [Hn [new Hnew]].
    destruct (prepRow_counters i row progress) as [Hn0 [new0 Hnew0]].
    split.
    + rewrite Hn, Hn0. unfold withoutTrialId. simpl.
      destruct (String.eqb (extractTrialId row) ""); simpl length; lia.
    + exists (new ++ new0). now rewrite Hnew, Hnew0, app_assoc.
Qed.

Lemma registrationDiscovery_unsupported (t : string) :
  Registry.detectRegistryType (Some t) = Registry.UNKNOWN ->
  registrationDiscovery env t
  = Js.Threw "Unsupported registry type: unknown".
Proof. intros H. unfold registrationDiscovery. now rewrite H. Qed.

Lemma unsupported_recorded (rows : list Row) (t : string) :
  t <> "" -> Registry.detectRegistryType (Some t) = Registry.UNKNOWN ->
  forall (k i : nat) (progress : Progress) (row : Row),
    (k <= i)%nat -> rows !! (i - k)%nat = Some row -> extractTrialId row = t ->
    registrations progress !! t = None ->
    In (i, t, "Registration fetch failed: Unsupported registry type: unknown")
      (rowErrors (prepRows env k rows progress)).
Proof.
  intros Ht Hu. induction rows as [|r rest IH]; intros k i progress row Hle Hrow Hid Hnone;
    [discriminate|].
  simpl. destruct (Nat.eq_dec i k) as [->|Hne].
  - rewrite Nat.sub_diag in Hrow. injection Hrow as ->.
    destruct (prepRows_counters rest (S k) (prepRow env k row progress)) as [_ [new ->]].
    apply in_or_app. right. unfold prepRow. rewrite Hid.
    destruct (String.eqb_spec t "") as [E|_]; [contradiction|].
    rewrite Hnone, (registrationDiscovery_unsupported t Hu). now left.
  - apply (IH (S k) i _ row); [lia| |exact Hid|].
    + replace (i - k)%nat with (S (i - S k)) in Hrow by lia. exact Hrow.
    + destruct (prepRow_registrations k r progress t)
        as [Hsame|(_ & _ & _ & trialData & Hd & _)]; [congruence|].
      rewrite (registrationDiscovery_unsupported t Hu) in Hd. discriminate.
Qed.

End PrepStageFacts.


(** The three sample rows: the trial is registered, the row without id is
    counted, the identifier of another registry is recorded as failed. *)
Example stagePrepRegistrations_threeRows :
  Prep.stagePrepRegistrations Samples.registryClients Samples.threeRows
    Samples.nothingPrepared
  = ({| Prep.registrations := {[ "NCT00000001" := Samples.trial1 ]};
        Prep.noTrialId := 1;
        Prep.rowErrors :=
          [ (2%nat, "ISRCTN12345678",
             "Registration fetch failed: Unsupported registry type: unknown") ] |},
     QUERY_GEN_UPLOAD).
Proof. vm_compute. reflexivity. Qed.

(** ** parsePubmedRecord: the publication date *)

(** X30.  The publication date [parsePubmedRecord] builds from a date with a
    year, a month and a day.  When month and day both have at least two
    characters it is year-month-day, as in [extractMetadata].  When the day
    has a single character, the day field is "0" followed by the month
    text, not by the day: the day of the record does not enter the result,
    so two records that differ only in a one-character day get the same
    publication date. *)
Theorem parsePubmedRecord_publicationDate :
  forall (year month day day' : string),
    year <> "" -> month <> "" ->
    let dateWith d :=
      Some {| PubmedUtils.Year := Some year; PubmedUtils.Month := Some month;
              PubmedUtils.Day := Some d |} in
    ((1 < String.length month)%nat -> (1 < String.length day)%nat ->
     PubmedUtils.publicationDate (dateWith day)
     = String.append year (String.append "-" (String.append month
         (String.append "-" day)))
     /\ PubmedUtils.publicationDate (dateWith day)
        = PubmedUtils.metadataPublicationDate (dateWith day))
    /\ (String.length day = 1%nat ->
        PubmedUtils.publicationDate (dateWith day)
        = String.append year (String.append "-"
            (String.append
               (if (1 <? String.length month)%nat then month
                else String.append "0" month)
               (String.append "-0" month)))
        /\ (String.length day' = 1%nat ->
            PubmedUtils.publicationDate (dateWith day)
            = PubmedUtils.publicationDate (dateWith day'))).
Proof.
  intros year month day day' Hy Hm dateWith.
  assert (forall s, s <> "" -> Js.truthy (Some s) = true) as Htruthy.
  { intros s Hs. simpl. now destruct (String.eqb_spec s ""). }
  assert (forall d, d <> "" ->
            PubmedUtils.publicationDate (dateWith d)
            = String.append year
                (String.append
                   (String.append "-"
                      (if (1 <? String.length month)%nat then month
                       else String.append "0" month))
                   (String.append "-"
                      (if (1 <? String.length d)%nat then d
                       else String.append "0" month)))) as Hdate.
  { intros d Hd. unfold PubmedUtils.publicationDate, dateWith. simpl mbind.
    rewrite (Htruthy year Hy), (Htruthy month Hm), (Htruthy d Hd). reflexivity. }
  assert (forall d, String.length d = 1%nat -> d <> "") as Hone
    by (intros d Hd ->; discriminate).
  split.
  - intros Hlm Hld.
    assert (day <> "") as Hd by (intros ->; simpl in Hld; lia).
    split.
    + rewrite (Hdate day Hd).
      rewrite (proj2 (Nat.ltb_lt _ _) Hlm), (proj2 (Nat.ltb_lt _ _) Hld).
      reflexivity.
    + rewrite (Hdate day Hd).
      rewrite (proj2 (Nat.ltb_lt _ _) Hlm), (proj2 (Nat.ltb_lt _ _) Hld).
      unfold PubmedUtils.metadataPublicationDate, dateWith. simpl mbind.
      now rewrite (Htruthy year Hy), (Htruthy month Hm), (Htruthy day Hd).
  - intros Hld.
    assert ((1 <? String.length day)%nat = false) as Hlt
      by (rewrite Hld; reflexivity).
    split.
    + rewrite (Hdate day (Hone day Hld)), Hlt.
      destruct (1 <? String.length month)%nat; reflexivity.
    + intros Hld'. rewrite (Hdate day (Hone day Hld)), (Hdate day' (Hone day' Hld')).
      rewrite Hlt, Hld'. reflexivity.
Qed.

Lemma parsePubmedRecord_publicationDate_witness :
  PubmedUtils.publicationDate
    (Some {| PubmedUtils.Year := Some "2021"; PubmedUtils.Month := Some "11";
             PubmedUtils.Day := Some "7" |})
  = "2021-11-011"
  /\ PubmedUtils.publicationDate
       (Some {| PubmedUtils.Year := Some "2021"; PubmedUtils.Month := Some "11";
                PubmedUtils.Day := Some "7" |})
     = PubmedUtils.publicationDate
         (Some {| PubmedUtils.Year := Some "2021"; PubmedUtils.Month := Some "11";
                  PubmedUtils.Day := Some "9" |}).
Proof.
  destruct (parsePubmedRecord_publicationDate "2021" "11" "7" "9")
    as (_ & Hone); [discriminate|discriminate|].
  destruct (Hone eq_refl) as (Hdate & Hsame).
  split; [exact Hdate|]. apply Hsame. reflexivity.
Defined.
